(** * Orange Sport Center booking logic: availability, pricing, reservations

    A shallow embedding of the booking logic of the repository:
    - [supabase/migrations/001_initial_schema.sql] (tables and their
      constraints),
    - [supabase/migrations/003_database_functions.sql] (the PL/pgSQL
      functions [generate_reservation_code], [calculate_venue_price],
      [check_venue_availability], [create_reservation],
      [cancel_reservation]),
    - [src/lib/pricing.ts], [src/lib/validations/booking.ts] and
      [src/components/features/booking/booking-form.tsx] (the client side).

    Conventions of the embedding.
    - A table is the list of its rows. The code fixes no order for the
      rows of a query without ORDER BY: the row a [LIMIT 1] returns is a
      parameter, and an array the client fetched is taken in the order it
      arrived, in which [Array.prototype.find] returns the first match.
    - SQL [numeric] values are rationals [Q]: sums, differences and
      products are exact, the quotient is a parameter, and the roundings
      the code performs ([ROUND(x, 2)], a [DECIMAL(p,s)] column) are
      written out. A JavaScript number is a double, a rational [Q] or
      [NaN]: its products, quotients and differences are parameters, and
      [Math.round] is written out.
    - An SQL [NULL] and a JavaScript [null]/[NaN] are [None].
    - A PL/pgSQL function that can raise returns [inl e] for the error [e]
      and [inr v] for the value [v]; a function that writes returns the new
      database next to its result.
    - What the code leaves to its platform is a parameter of the functions
      that use it: the row a [LIMIT 1] query without ORDER BY returns, the
      quotient PostgreSQL's [numeric] division returns, the products,
      quotients and differences of JavaScript's double arithmetic, and the
      JavaScript [Date].
    - A function call reads every row of the tables it queries: the
      row-level-security policies that hide rows from a session are not
      part of the embedding. Calls happen one after another. *)

From Stdlib Require Import ZArith QArith Qround Qabs List String Ascii Bool Lia.
From Stdlib Require Import DecimalString Sorted Permutation Lqa.
Import ListNotations.

Local Open Scope Z_scope.

(** ** The database side *)

Module Pg.

(** [UUID] values. *)
Definition uuid := N.

(** A [DATE], as the number of days since 1970-01-01. *)
Definition date := Z.

(** A [TIME] (wall clock, no date), in seconds since midnight. *)
Definition time := Z.

(** [CREATE TYPE user_role AS ENUM (...)]. *)
Inductive user_role := customer | member | staff | admin | superadmin.

(** [CREATE TYPE reservation_status AS ENUM (...)]. *)
Inductive reservation_status := pending | confirmed | cancelled | completed.

(** Rows of [profiles]; [role] is a nullable column. *)
Record profile := mk_profile {
  p_id : uuid;
  p_role : option user_role
}.

(** Rows of [venues]; [weekend_price] is nullable, [base_price] is not. *)
Record venue := mk_venue {
  v_id : uuid;
  v_base_price : Q;
  v_weekend_price : option Q;
  v_is_active : bool
}.

(** Rows of [venue_time_slots]; [price_multiplier] is nullable. *)
Record venue_time_slot := mk_venue_time_slot {
  ts_id : uuid;
  ts_venue_id : uuid;
  ts_start_time : time;
  ts_end_time : time;
  ts_is_available : bool;
  ts_price_multiplier : option Q
}.

(** Rows of [reservations] (the timestamps and [payment_status], which no
    function below reads, are left out). *)
Record reservation := mk_reservation {
  r_id : uuid;
  r_reservation_code : string;
  r_user_id : uuid;
  r_venue_id : uuid;
  r_venue_time_slot_id : uuid;
  r_reservation_date : date;
  r_start_time : time;
  r_end_time : time;
  r_duration_hours : Q;
  r_base_price : Q;
  r_discount_percentage : Q;
  r_total_price : Q;
  r_status : reservation_status;
  r_notes : option string
}.

Record database := mk_database {
  profiles : list profile;
  venues : list venue;
  venue_time_slots : list venue_time_slot;
  reservations : list reservation
}.

(** What a statement can raise: [RAISE EXCEPTION 'msg'] of the functions,
    and the violations the table definitions make an INSERT raise. *)
Inductive pg_error :=
| RaiseException (message : string)
| StringDataRightTruncation (column : string)
| NumericFieldOverflow (column : string)
| NotNullViolation (column : string)
| CheckViolation (constraint : string)
| UniqueViolation (constraint : string)
| ForeignKeyViolation (constraint : string).

Definition result (A : Type) := sum pg_error A.

Definition bind {A B : Type} (c : result A) (k : A -> result B) : result B :=
  match c with
  | inl e => inl e
  | inr a => k a
  end.

Notation "x <- c ;; k" := (bind c (fun x => k))
  (at level 61, c at next level, right associativity).
Notation "'check' b 'else_raise' e ;; k" :=
  (if b then k else inl e)
  (at level 61, b at next level, e at next level, right associativity).

(** *** check_venue_availability *)

(** [r.status IN ('confirmed', 'pending')]. *)
Definition status_blocks (s : reservation_status) : bool :=
  match s with
  | confirmed | pending => true
  | cancelled | completed => false
  end.

(** [r.start_time < p_end_time AND r.end_time > p_start_time]. *)
Definition overlaps (r_start r_end p_start_time p_end_time : time) : bool :=
  (r_start <? p_end_time) && (r_end >? p_start_time).

(** [p_exclude_reservation_id IS NULL OR r.id != p_exclude_reservation_id]. *)
Definition not_excluded (p_exclude_reservation_id : option uuid) (r : reservation) : bool :=
  match p_exclude_reservation_id with
  | None => true
  | Some x => negb (N.eqb (r_id r) x)
  end.

(** The WHERE clause of the conflict query. *)
Definition conflicts (p_venue_id : uuid) (p_date : date)
    (p_start_time p_end_time : time) (p_exclude_reservation_id : option uuid)
    (r : reservation) : bool :=
  N.eqb (r_venue_id r) p_venue_id
  && Z.eqb (r_reservation_date r) p_date
  && status_blocks (r_status r)
  && overlaps (r_start_time r) (r_end_time r) p_start_time p_end_time
  && not_excluded p_exclude_reservation_id r.

(** [SELECT COUNT( * ) INTO conflict_count ...; RETURN conflict_count = 0]. *)
Definition check_venue_availability (db : database) (p_venue_id : uuid)
    (p_date : date) (p_start_time p_end_time : time)
    (p_exclude_reservation_id : option uuid) : bool :=
  let conflict_count :=
    List.length (filter (conflicts p_venue_id p_date p_start_time p_end_time
                           p_exclude_reservation_id) (reservations db)) in
  Nat.eqb conflict_count 0.

(** *** Numeric helpers *)

(** SQL arithmetic on a possibly-NULL operand: NULL in, NULL out. *)
Definition null_mul (a b : option Q) : option Q :=
  match a, b with
  | Some x, Some y => Some (x * y)%Q
  | _, _ => None
  end.

(** [COALESCE(x, d)]. *)
Definition COALESCE (x : option Q) (d : Q) : Q :=
  match x with
  | Some v => v
  | None => d
  end.

(** The integer nearest to [x], ties away from zero: how PostgreSQL rounds
    a [numeric]. *)
Definition round_half_away (x : Q) : Z :=
  if Qle_bool 0 x then Qfloor (x + (1 # 2)) else - Qfloor (- x + (1 # 2)).

(** [ROUND(x, s)] on a [numeric]: [s] digits after the decimal point. *)
Definition ROUND (x : Q) (s : nat) : Q :=
  round_half_away (x * inject_Z (10 ^ Z.of_nat s)) # Z.to_pos (10 ^ Z.of_nat s).

(** [ROUND] of a possibly-NULL value. *)
Definition ROUND_null (x : option Q) (s : nat) : option Q :=
  option_map (fun v => ROUND v s) x.

(** Storing [x] in a [DECIMAL(precision, scale)] column: the value is rounded
    to [scale] digits, and rejected when its integer part then needs more
    than [precision - scale] digits. *)
Definition numeric_column (column : string) (precision scale : nat) (x : Q) : result Q :=
  let v := ROUND x scale in
  if Qle_bool (inject_Z (10 ^ Z.of_nat (precision - scale))) (Qabs v)
  then inl (NumericFieldOverflow column)
  else inr v.

(** The same for a possibly-NULL value: NULL is stored as it is. *)
Definition numeric_column_null (column : string) (precision scale : nat)
    (x : option Q) : result (option Q) :=
  match x with
  | None => inr None
  | Some v => w <- numeric_column column precision scale v ;; inr (Some w)
  end.

(** A NOT NULL column. *)
Definition not_null {A : Type} (column : string) (x : option A) : result A :=
  match x with
  | Some v => inr v
  | None => inl (NotNullViolation column)
  end.

(** *** calculate_venue_price *)

(** [EXTRACT(DOW FROM p_date)]: 0 is Sunday, 6 is Saturday; 1970-01-01 was
    a Thursday. *)
Definition EXTRACT_DOW (d : date) : Z := (d + 4) mod 7.

(** [EXTRACT(DOW FROM p_date) IN (0, 6)]. *)
Definition is_weekend (p_date : date) : bool :=
  (EXTRACT_DOW p_date =? 0) || (EXTRACT_DOW p_date =? 6).

(** [WHERE v.id = p_venue_id AND v.is_active = true]. *)
Definition active_venue (p_venue_id : uuid) (v : venue) : bool :=
  N.eqb (v_id v) p_venue_id && v_is_active v.

(** The WHERE clause of the multiplier query. *)
Definition slot_covers (p_venue_id : uuid) (p_start_time : time)
    (vts : venue_time_slot) : bool :=
  N.eqb (ts_venue_id vts) p_venue_id
  && (ts_start_time vts <=? p_start_time)
  && (ts_end_time vts >? p_start_time)
  && ts_is_available vts.

Section Datastore.

(** The row a [LIMIT 1] query without ORDER BY returns out of the rows that
    meet its WHERE clause: which one is the datastore's choice, not the
    function's. *)
Variable LIMIT_1 : list venue_time_slot -> option venue_time_slot.

(** [a / b] on [numeric] values: PostgreSQL returns the quotient rounded to
    a result scale it picks from the operands. *)
Variable numeric_div : Q -> Q -> Q.

(** [SELECT COALESCE(vts.price_multiplier, 1.0) INTO time_multiplier ...
    LIMIT 1]. A [SELECT ... INTO] without STRICT that finds no row sets its
    target to NULL, whatever the variable held before. *)
Definition select_time_multiplier (db : database) (p_venue_id : uuid)
    (p_start_time : time) : option Q :=
  match LIMIT_1 (filter (slot_covers p_venue_id p_start_time)
                        (venue_time_slots db)) with
  | Some vts => Some (COALESCE (ts_price_multiplier vts) 1)
  | None => None
  end.

Definition calculate_venue_price (db : database) (p_venue_id : uuid)
    (p_date : date) (p_start_time : time) (p_duration_hours : Q)
    : result (option Q) :=
  match find (active_venue p_venue_id) (venues db) with
  | None => inl (RaiseException "Venue not found or inactive")
  | Some v =>
      let base_price := v_base_price v in
      let weekend_price := v_weekend_price v in
      let time_multiplier := select_time_multiplier db p_venue_id p_start_time in
      let final_price :=
        match is_weekend p_date, weekend_price with
        | true, Some weekend_price =>
            null_mul (null_mul (Some weekend_price) time_multiplier)
                     (Some p_duration_hours)
        | _, _ =>
            null_mul (null_mul (Some base_price) time_multiplier)
                     (Some p_duration_hours)
        end in
      inr (ROUND_null final_price 2)
  end.

(** *** generate_reservation_code *)

(** [n::TEXT] for a whole number. *)
Definition TEXT_of_N (n : N) : string :=
  NilEmpty.string_of_uint (N.to_uint n).

Fixpoint repeat_char (c : ascii) (n : nat) : string :=
  match n with
  | O => EmptyString
  | S k => String c (repeat_char c k)
  end.

(** [LPAD(s, len, fill)]: fill on the left up to [len] characters, or cut
    on the right down to [len]. *)
Definition LPAD (s : string) (len : nat) (fill : ascii) : string :=
  if Nat.leb (String.length s) len
  then (repeat_char fill (len - String.length s) ++ s)%string
  else substring 0 len s.

(** ['OSC' || TO_CHAR(NOW(), 'YYYYMMDD') || LPAD(FLOOR(RANDOM() * 10000)::TEXT, 4, '0')],
    for the date stamp [stamp] and the drawn number [draw]. *)
Definition candidate_code (stamp : string) (draw : N) : string :=
  ("OSC" ++ stamp ++ LPAD (TEXT_of_N draw) 4 "0")%string.

(** [SELECT COUNT( * ) > 0 FROM reservations WHERE reservation_code = code]. *)
Definition code_exists (db : database) (code : string) : bool :=
  Nat.ltb 0 (List.length (filter (fun r => String.eqb (r_reservation_code r) code)
                                 (reservations db))).

(** The WHILE loop. [draws] are the values [FLOOR(RANDOM() * 10000)] takes,
    one per iteration; the result is the code together with the draws not
    used, or [None] when the loop is still running after the last draw. *)
Fixpoint generate_reservation_code (db : database) (stamp : string)
    (draws : list N) : option (string * list N) :=
  match draws with
  | [] => None
  | draw :: rest =>
      let code := candidate_code stamp draw in
      if code_exists db code
      then generate_reservation_code db stamp rest
      else Some (code, rest)
  end.

(** *** create_reservation *)

(** What the function reads from outside the tables. *)
Record environment := mk_environment {
  now_stamp : string;      (* TO_CHAR(NOW(), 'YYYYMMDD') *)
  random_draws : list N;   (* successive FLOOR(RANDOM() * 10000) *)
  new_uuid : uuid          (* uuid_generate_v4(), the DEFAULT of id *)
}.

(** [0 <= x AND x <= 100]. *)
Definition valid_discount (x : Q) : bool := Qle_bool 0 x && Qle_bool x 100.

(** The INSERT of [create_reservation] against the definition of the table
    [reservations]: the column types, NOT NULL, the two CHECK constraints
    (PostgreSQL tries them in the order of their names), the primary key
    and the UNIQUE code, and the foreign keys. The columns
    the statement does not list take their defaults ([status] is
    ['pending']). *)
Definition insert_reservation (db : database) (id : uuid)
    (reservation_code : string) (p_user_id p_venue_id p_venue_time_slot_id : uuid)
    (p_reservation_date : date) (p_start_time p_end_time : time)
    (p_duration_hours : Q) (base_price : option Q) (p_discount_percentage : Q)
    (total_price : option Q) (p_notes : option string) : result database :=
  check (Nat.leb (String.length reservation_code) 20)
    else_raise (StringDataRightTruncation "reservation_code") ;;
  duration_hours <- numeric_column "duration_hours" 3 1 p_duration_hours ;;
  base_price <- numeric_column_null "base_price" 10 2 base_price ;;
  discount_percentage <- numeric_column "discount_percentage" 5 2 p_discount_percentage ;;
  total_price <- numeric_column_null "total_price" 10 2 total_price ;;
  base_price <- not_null "base_price" base_price ;;
  total_price <- not_null "total_price" total_price ;;
  check (valid_discount discount_percentage)
    else_raise (CheckViolation "valid_discount") ;;
  check (p_start_time <? p_end_time)
    else_raise (CheckViolation "valid_time_range") ;;
  check (negb (existsb (fun r => N.eqb (r_id r) id) (reservations db)))
    else_raise (UniqueViolation "reservations_pkey") ;;
  check (negb (code_exists db reservation_code))
    else_raise (UniqueViolation "reservations_reservation_code_key") ;;
  check (existsb (fun p => N.eqb (p_id p) p_user_id) (profiles db))
    else_raise (ForeignKeyViolation "reservations_user_id_fkey") ;;
  check (existsb (fun v => N.eqb (v_id v) p_venue_id) (venues db))
    else_raise (ForeignKeyViolation "reservations_venue_id_fkey") ;;
  check (existsb (fun s => N.eqb (ts_id s) p_venue_time_slot_id) (venue_time_slots db))
    else_raise (ForeignKeyViolation "reservations_venue_time_slot_id_fkey") ;;
  inr {| profiles := profiles db;
         venues := venues db;
         venue_time_slots := venue_time_slots db;
         reservations := reservations db ++
           [ {| r_id := id;
                r_reservation_code := reservation_code;
                r_user_id := p_user_id;
                r_venue_id := p_venue_id;
                r_venue_time_slot_id := p_venue_time_slot_id;
                r_reservation_date := p_reservation_date;
                r_start_time := p_start_time;
                r_end_time := p_end_time;
                r_duration_hours := duration_hours;
                r_base_price := base_price;
                r_discount_percentage := discount_percentage;
                r_total_price := total_price;
                r_status := pending;
                r_notes := p_notes |} ] |}.

(** [SELECT 1 FROM venue_time_slots WHERE id = p_venue_time_slot_id AND
    venue_id = p_venue_id AND is_available = true]. *)
Definition slot_bookable (p_venue_time_slot_id p_venue_id : uuid)
    (s : venue_time_slot) : bool :=
  N.eqb (ts_id s) p_venue_time_slot_id
  && N.eqb (ts_venue_id s) p_venue_id
  && ts_is_available s.

(** The function returns the new reservation's id or raises, and leaves a
    database; [None] is the code loop still running after the last draw. *)
Definition create_reservation (db : database) (env : environment)
    (p_user_id p_venue_id p_venue_time_slot_id : uuid)
    (p_reservation_date : date) (p_start_time p_end_time : time)
    (p_duration_hours : Q) (p_discount_percentage : Q)
    (p_notes : option string) : option (result uuid * database) :=
  if negb (existsb (active_venue p_venue_id) (venues db)) then
    Some (inl (RaiseException "Venue not found or inactive"), db)
  else if negb (existsb (slot_bookable p_venue_time_slot_id p_venue_id)
                        (venue_time_slots db)) then
    Some (inl (RaiseException "Time slot not available"), db)
  else if negb (check_venue_availability db p_venue_id p_reservation_date
                                         p_start_time p_end_time None) then
    Some (inl (RaiseException "Time slot is already booked"), db)
  else
    match calculate_venue_price db p_venue_id p_reservation_date p_start_time
                                p_duration_hours with
    | inl e => Some (inl e, db)
    | inr base_price =>
        let total_price :=
          null_mul base_price
            (Some (1 - numeric_div p_discount_percentage 100)%Q) in
        match generate_reservation_code db (now_stamp env) (random_draws env) with
        | None => None
        | Some (reservation_code, _) =>
            match insert_reservation db (new_uuid env) reservation_code
                    p_user_id p_venue_id p_venue_time_slot_id
                    p_reservation_date p_start_time p_end_time
                    p_duration_hours base_price p_discount_percentage
                    total_price p_notes with
            | inl e => Some (inl e, db)
            | inr db' => Some (inr (new_uuid env), db')
            end
        end
    end.

End Datastore.

(** What the code may take for granted of a [LIMIT 1] query: no row out of
    no rows, and otherwise one of the rows. *)
Definition limit_1_spec (LIMIT_1 : list venue_time_slot -> option venue_time_slot)
    : Prop :=
  forall l, match LIMIT_1 l with
            | Some x => In x l
            | None => l = []
            end.

(** The SQLSTATE of an error. A [RAISE EXCEPTION 'msg'] that names no
    ERRCODE is always [P0001] (raise_exception). *)
Definition sqlstate (e : pg_error) : string :=
  match e with
  | RaiseException _ => "P0001"
  | StringDataRightTruncation _ => "22001"
  | NumericFieldOverflow _ => "22003"
  | NotNullViolation _ => "23502"
  | CheckViolation _ => "23514"
  | UniqueViolation _ => "23505"
  | ForeignKeyViolation _ => "23503"
  end.

(** *** cancel_reservation *)

(** [p.role IN ('staff', 'admin', 'superadmin')]. *)
Definition role_is_staff_plus (role : option user_role) : bool :=
  match role with
  | Some staff | Some admin | Some superadmin => true
  | _ => false
  end.

(** [EXISTS(SELECT 1 FROM reservations WHERE id = p_reservation_id)]. *)
Definition reservation_exists (db : database) (p_reservation_id : uuid) : bool :=
  existsb (fun r => N.eqb (r_id r) p_reservation_id) (reservations db).

(** [EXISTS(SELECT 1 FROM reservations r JOIN profiles p ON p.id = p_user_id
    WHERE r.id = p_reservation_id AND (r.user_id = p_user_id OR p.role IN (...)))]. *)
Definition user_owns_reservation (db : database) (p_reservation_id p_user_id : uuid) : bool :=
  existsb (fun r =>
    existsb (fun p =>
      N.eqb (p_id p) p_user_id
      && N.eqb (r_id r) p_reservation_id
      && (N.eqb (r_user_id r) p_user_id || role_is_staff_plus (p_role p)))
      (profiles db))
    (reservations db).

(** [WHERE id = p_reservation_id AND status IN ('pending', 'confirmed')]. *)
Definition cancellable (p_reservation_id : uuid) (r : reservation) : bool :=
  N.eqb (r_id r) p_reservation_id && status_blocks (r_status r).

Definition set_status (s : reservation_status) (r : reservation) : reservation :=
  {| r_id := r_id r;
     r_reservation_code := r_reservation_code r;
     r_user_id := r_user_id r;
     r_venue_id := r_venue_id r;
     r_venue_time_slot_id := r_venue_time_slot_id r;
     r_reservation_date := r_reservation_date r;
     r_start_time := r_start_time r;
     r_end_time := r_end_time r;
     r_duration_hours := r_duration_hours r;
     r_base_price := r_base_price r;
     r_discount_percentage := r_discount_percentage r;
     r_total_price := r_total_price r;
     r_status := s;
     r_notes := r_notes r |}.

(** The UPDATE statement; the function returns FOUND, which is true when
    the statement changed at least one row. The statement also sets
    [updated_at = NOW()] on the rows it changes, a column [reservation]
    leaves out. *)
Definition cancel_reservation (db : database) (p_reservation_id p_user_id : uuid)
    : result bool * database :=
  if negb (reservation_exists db p_reservation_id) then
    (inl (RaiseException "Reservation not found"), db)
  else if negb (user_owns_reservation db p_reservation_id p_user_id) then
    (inl (RaiseException "Unauthorized to cancel this reservation"), db)
  else
    let found := existsb (cancellable p_reservation_id) (reservations db) in
    (inr found,
     {| profiles := profiles db;
        venues := venues db;
        venue_time_slots := venue_time_slots db;
        reservations :=
          map (fun r => if cancellable p_reservation_id r
                        then set_status cancelled r else r)
              (reservations db) |}).

End Pg.

(** ** The client side *)

Module Client.

(** A JavaScript number is a rational, or [None] for [NaN]; a nullable
    column ([number | null]) is [None] for [null]. *)
Definition number := option Q.

(** Truthiness of a number: [null], [NaN] and [0] are falsy. *)
Definition truthy (x : number) : bool :=
  match x with
  | Some q => negb (Qeq_bool q 0)
  | None => false
  end.

(** [x || d] on numbers. *)
Definition or_else (x : number) (d : Q) : Q :=
  match x with
  | Some q => if Qeq_bool q 0 then d else q
  | None => d
  end.

(** Truthiness of a string: only the empty string is falsy. *)
Definition nonempty (s : string) : bool := negb (String.eqb s "").

(** [Math.round]: the nearest integer, ties towards plus infinity. *)
Definition Math_round (x : number) : number :=
  option_map (fun q => inject_Z (Qfloor (q + (1 # 2)))) x.

(** [a < b] on numbers; any comparison with [NaN] is false. *)
Definition num_lt (a b : number) : bool :=
  match a, b with
  | Some x, Some y => negb (Qle_bool y x)
  | _, _ => false
  end.

(** [a <= b] on numbers. *)
Definition num_le (a b : number) : bool :=
  match a, b with
  | Some x, Some y => Qle_bool x y
  | _, _ => false
  end.

Definition num_sub (a b : number) : number :=
  match a, b with
  | Some x, Some y => Some (x - y)%Q
  | _, _ => None
  end.

(** [a / d] for a constant [d]. *)
Definition num_div (a : number) (d : Q) : number :=
  option_map (fun x => (x / d)%Q) a.

(** Rows as [src/types/database.ts] types them (the columns the booking
    code reads). *)
Record Venue := mk_Venue {
  vn_id : string;
  vn_base_price : Q;
  vn_weekend_price : number
}.

Record TimeSlot := mk_TimeSlot {
  sl_id : string;
  sl_venue_id : string;
  sl_start_time : string;
  sl_end_time : string;
  sl_price_weekday : number;
  sl_price_weekend : number;
  sl_is_active : bool
}.

Record Reservation := mk_Reservation {
  rs_venue_id : option string;
  rs_reservation_date : string;
  rs_start_time : string;
  rs_end_time : string;
  rs_status : string
}.

(** The form's values ([BookingFormData]). *)
Record BookingFormData := mk_BookingFormData {
  venueId : string;
  date : string;
  startTime : string;
  endTime : string;
  notes : option string
}.

(** The arguments of the [create_reservation] remote call. *)
Record rpc_create_reservation := mk_rpc_create_reservation {
  p_user_id : string;
  p_venue_id : string;
  p_venue_time_slot_id : string;
  p_reservation_date : string;
  p_start_time : string;
  p_end_time : string;
  p_duration_hours : number;
  p_discount_percentage : Q;
  p_notes : option string
}.

(** [PricingCalculation] of [src/lib/pricing.ts]. *)
Record PricingCalculation := mk_PricingCalculation {
  basePrice : number;
  discountAmount : number;
  totalPrice : number;
  duration : number;
  isWeekend : bool
}.

(** [a < b] on strings, as JavaScript compares them: by code unit, front
    to back. *)
Definition str_lt (a b : string) : bool := String.ltb a b.

(** *** fetchTimeSlots (booking-form.tsx) *)

(** The reservations query:
    [.eq('venue_id', v).eq('reservation_date', d).in('status', ['confirmed', 'pending'])]. *)
Definition query_reservations (table : list Reservation) (watchedVenueId watchedDate : string)
    : list Reservation :=
  filter (fun r =>
            match rs_venue_id r with
            | Some v => String.eqb v watchedVenueId
            | None => false
            end
            && String.eqb (rs_reservation_date r) watchedDate
            && (String.eqb (rs_status r) "confirmed" || String.eqb (rs_status r) "pending"))
         table.

(** [slotStart < resEnd && slotEnd > resStart]. *)
Definition overlap (slotStart slotEnd resStart resEnd : string) : bool :=
  str_lt slotStart resEnd && str_lt resStart slotEnd.

(** [(reservations || []).some(reservation => ...)]. *)
Definition hasConflict (reservations : list Reservation) (slot : TimeSlot) : bool :=
  existsb (fun reservation =>
             overlap (sl_start_time slot) (sl_end_time slot)
                     (rs_start_time reservation) (rs_end_time reservation))
          reservations.

(** [(slots || []).filter(slot => !hasConflict).map(slot => slot.start_time)]. *)
Definition availableSlots (slots : list TimeSlot) (reservations : list Reservation)
    : list string :=
  map sl_start_time (filter (fun slot => negb (hasConflict reservations slot)) slots).

Section Platform.

(** The JavaScript [Date] the code leans on: [new Date(s).getTime()] in
    milliseconds and [new Date(s).getDay()], each [NaN] for a string that
    is not a date. *)
Variable Date_getTime : string -> number.
Variable Date_getDay : string -> number.

(** JavaScript's arithmetic on doubles: each operation returns the exact
    result rounded to a double. (The times of [Date] are whole numbers of
    milliseconds, whose differences are exact.) *)
Variable fl_mul : Q -> Q -> Q.
Variable fl_div : Q -> Q -> Q.
Variable fl_sub : Q -> Q -> Q.

(** [a * b], [a / b] and [a - b] on numbers; [NaN] in, [NaN] out. *)
Definition fmul (a b : number) : number :=
  match a, b with
  | Some x, Some y => Some (fl_mul x y)
  | _, _ => None
  end.

Definition fdiv (a b : number) : number :=
  match a, b with
  | Some x, Some y => Some (fl_div x y)
  | _, _ => None
  end.

Definition fsub (a b : number) : number :=
  match a, b with
  | Some x, Some y => Some (fl_sub x y)
  | _, _ => None
  end.

(** [(end.getTime() - start.getTime()) / (1000 * 60 * 60)] for
    [start = new Date(`2000-01-01T${startTime}`)] and the like for [end].
    This quotient of a whole number of milliseconds, which the form
    compares with 1 and hands on as the duration, is kept exact: the double
    quotient is below 1 exactly when the exact one is. *)
Definition durationHours (startTime endTime : string) : number :=
  num_div (num_sub (Date_getTime ("2000-01-01T" ++ endTime))
                   (Date_getTime ("2000-01-01T" ++ startTime)))
          (1000 * 60 * 60).

(** *** bookingSchema (validations/booking.ts) *)

(** The function given to [.refine]. *)
Definition bookingSchema_refine (data : BookingFormData) : bool :=
  if nonempty (startTime data) && nonempty (endTime data) then
    let start := Date_getTime ("2000-01-01T" ++ startTime data) in
    let end_ := Date_getTime ("2000-01-01T" ++ endTime data) in
    num_lt start end_ && num_le (Some 1%Q) (durationHours (startTime data) (endTime data))
  else true.

(** Whether the schema accepts the data: the four [min(1)] fields and the
    refinement. *)
Definition bookingSchema (data : BookingFormData) : bool :=
  nonempty (venueId data) && nonempty (date data)
  && nonempty (startTime data) && nonempty (endTime data)
  && bookingSchema_refine data.

(** *** getEndTimeOptions (booking-form.tsx) *)

(** The for loop from [startIndex] on: [seen] holds the slots from
    [startIndex] up to the one before the current, so that [seen ++ [slot]]
    is [timeSlots.slice(startIndex, i + 1)]. *)
Fixpoint getEndTimeOptions_loop (reservations : list Reservation)
    (startTime : string) (seen rest : list TimeSlot) : list string :=
  match rest with
  | [] => []
  | slot :: rest' =>
      let potentialEndTime := sl_end_time slot in
      if num_lt (durationHours startTime potentialEndTime) (Some 1%Q) then
        getEndTimeOptions_loop reservations startTime (seen ++ [slot]) rest'
      else
        let wouldConflict := existsb (hasConflict reservations) (seen ++ [slot]) in
        if negb wouldConflict then
          potentialEndTime
            :: getEndTimeOptions_loop reservations startTime (seen ++ [slot]) rest'
        else []
  end.

(** [timeSlots.findIndex(slot => slot.start_time === startTime)], as the
    slots from that index on, when there is one. *)
Fixpoint from_startIndex (timeSlots : list TimeSlot) (startTime : string)
    : option (list TimeSlot) :=
  match timeSlots with
  | [] => None
  | slot :: rest =>
      if String.eqb (sl_start_time slot) startTime then Some timeSlots
      else from_startIndex rest startTime
  end.

Definition getEndTimeOptions (timeSlots : list TimeSlot)
    (reservations : list Reservation) (startTime : string) : list string :=
  if negb (nonempty startTime) then []
  else
    match from_startIndex timeSlots startTime with
    | None => []
    | Some rest => getEndTimeOptions_loop reservations startTime [] rest
    end.

(** *** calculatePrice (booking-form.tsx) *)

(** [selectedDate.getDay() === 0 || selectedDate.getDay() === 6]. *)
Definition day_isWeekend (day : number) : bool :=
  match day with
  | Some d => Qeq_bool d 0 || Qeq_bool d 6
  | None => false
  end.

Definition form_calculatePrice (venues : list Venue) (timeSlots : list TimeSlot)
    (values : BookingFormData) : number :=
  if negb (nonempty (venueId values)) || negb (nonempty (startTime values))
     || negb (nonempty (endTime values)) || negb (nonempty (date values))
  then Some 0%Q
  else
    match find (fun v => String.eqb (vn_id v) (venueId values)) venues with
    | None => Some 0%Q
    | Some venue =>
        match find (fun slot => String.eqb (sl_start_time slot) (startTime values))
                   timeSlots with
        | None => Some 0%Q
        | Some startSlot =>
            let start := Date_getTime ("2000-01-01T" ++ startTime values) in
            let end_ := Date_getTime ("2000-01-01T" ++ endTime values) in
            let duration := fdiv (num_sub end_ start) (Some (1000 * 60 * 60)%Q) in
            let isWeekend := day_isWeekend (Date_getDay (date values)) in
            let basePrice :=
              if isWeekend && truthy (vn_weekend_price venue)
              then vn_weekend_price venue
              else Some (vn_base_price venue) in
            let pricePerHour :=
              fmul basePrice
                (Some (if isWeekend
                       then or_else (sl_price_weekend startSlot) 1
                       else or_else (sl_price_weekday startSlot) 1)) in
            Math_round (fmul pricePerHour duration)
        end
    end.

(** *** onSubmit and handleSubmit (booking-form.tsx) *)

(** [onSubmit] up to the remote call: the error it shows, or the
    arguments it calls [create_reservation] with. *)
Definition onSubmit (venues : list Venue) (timeSlots : list TimeSlot)
    (user_id : string) (data : BookingFormData) : string + rpc_create_reservation :=
  match find (fun v => String.eqb (vn_id v) (venueId data)) venues with
  | None => inl "Selected venue not found"%string
  | Some venue =>
      match find (fun slot => String.eqb (sl_start_time slot) (startTime data))
                 timeSlots with
      | None => inl "Selected time slot not found"%string
      | Some selectedTimeSlot =>
          let duration := durationHours (startTime data) (endTime data) in
          inr {| p_user_id := user_id;
                 p_venue_id := venueId data;
                 p_venue_time_slot_id := sl_id selectedTimeSlot;
                 p_reservation_date := date data;
                 p_start_time := startTime data;
                 p_end_time := endTime data;
                 p_duration_hours := duration;
                 p_discount_percentage := 0;
                 p_notes := match notes data with
                            | Some n => if nonempty n then Some n else None
                            | None => None
                            end |}
      end
  end.

(** [form.handleSubmit(onSubmit)] with the [zodResolver(bookingSchema)]:
    [onSubmit] runs only on data the schema accepts. [None] is a
    submission that was stopped by the validation. *)
Definition handleSubmit (venues : list Venue) (timeSlots : list TimeSlot)
    (user_id : string) (data : BookingFormData)
    : option (string + rpc_create_reservation) :=
  if bookingSchema data then Some (onSubmit venues timeSlots user_id data)
  else None.

(** *** calculatePrice (lib/pricing.ts) *)

(** [start >= slotStart && end <= slotEnd] on the four [Date]s. *)
Definition slot_applies (start end_ : number) (slot : TimeSlot) : bool :=
  let slotStart := Date_getTime ("2000-01-01T" ++ sl_start_time slot) in
  let slotEnd := Date_getTime ("2000-01-01T" ++ sl_end_time slot) in
  num_le slotStart start && num_le end_ slotEnd.

(** [error] is the message of the error of the query, if it failed;
    [table] holds the rows of the table [venue_time_slots] in the order
    the query, which asks for no order, returns them; [day] is
    [date.getDay()]. The function throws ([inl message]) or returns its
    record. *)
Definition pricing_calculatePrice (error : option string) (table : list TimeSlot)
    (venueId_ : string) (day : number) (startTime_ endTime_ : string)
    (discountPercent : Q) : string + PricingCalculation :=
  let isWeekend := day_isWeekend day in
  let start := Date_getTime ("2000-01-01T" ++ startTime_ ++ ":00") in
  let end_ := Date_getTime ("2000-01-01T" ++ endTime_ ++ ":00") in
  let duration := fdiv (num_sub end_ start) (Some (1000 * 60)%Q) in
  let timeSlots :=
    filter (fun slot => String.eqb (sl_venue_id slot) venueId_ && sl_is_active slot)
           table in
  match error with
  | Some message => inl ("Failed to fetch pricing: " ++ message)%string
  | None =>
      match timeSlots with
      | [] => inl "No pricing information available for this venue"%string
      | _ =>
          match find (slot_applies start end_) timeSlots with
          | None => inl "No pricing available for the selected time slot"%string
          | Some applicableSlot =>
              let hourlyRate :=
                if isWeekend
                then or_else (sl_price_weekend applicableSlot) 0
                else or_else (sl_price_weekday applicableSlot) 0 in
              let basePrice := fdiv (fmul (Some hourlyRate) duration) (Some 60%Q) in
              let discountAmount :=
                fdiv (fmul basePrice (Some discountPercent)) (Some 100%Q) in
              let totalPrice := fsub basePrice discountAmount in
              inr {| basePrice := Math_round basePrice;
                     discountAmount := Math_round discountAmount;
                     totalPrice := Math_round totalPrice;
                     duration := duration;
                     isWeekend := isWeekend |}
          end
      end
  end.

End Platform.

(** *** generateReservationCode (lib/pricing.ts) *)

(** [s.slice(-n)]: the last [n] characters of [s]. *)
Definition slice_last (n : nat) (s : string) : string :=
  substring (String.length s - n) n s.

Definition upper (c : ascii) : ascii :=
  let n := nat_of_ascii c in
  if Nat.leb 97 n && Nat.leb n 122 then ascii_of_nat (n - 32) else c.

Fixpoint toUpperCase (s : string) : string :=
  match s with
  | EmptyString => EmptyString
  | String c rest => String (upper c) (toUpperCase rest)
  end.

(** [now] is [Date.now()] and [random36] is [Math.random().toString(36)]. *)
Definition generateReservationCode (now : N) (random36 : string) : string :=
  let prefix := "OSC"%string in
  let timestamp := slice_last 6 (Pg.TEXT_of_N now) in
  let random := toUpperCase (substring 2 3 random36) in
  (prefix ++ timestamp ++ random)%string.

End Client.

(** ** Notions the statements below use *)

Module Inv.

Import Pg.

(** The database [db] with [rs] as its table [reservations]. *)
Definition with_reservations (db : database) (rs : list reservation) : database :=
  {| profiles := profiles db;
     venues := venues db;
     venue_time_slots := venue_time_slots db;
     reservations := rs |}.

(** [PRIMARY KEY] of [reservations]. *)
Definition reservations_pkey (db : database) : Prop :=
  NoDup (map r_id (reservations db)).

(** [reservation_code VARCHAR(20) UNIQUE]. *)
Definition reservation_code_key (db : database) : Prop :=
  NoDup (map r_reservation_code (reservations db)).

(** [user_id UUID REFERENCES profiles(id)]. *)
Definition reservations_user_id_fkey (db : database) : Prop :=
  forall r, In r (reservations db) ->
    exists p, In p (profiles db) /\ p_id p = r_user_id r.

End Inv.

Module Pre.

Import Pg.

(** Step 1 of the creation procedure: a row of [venues] with this id that
    is active. *)
Definition venue_exists_active (db : database) (p_venue_id : uuid) : Prop :=
  exists v, In v (venues db) /\ v_id v = p_venue_id /\ v_is_active v = true.

(** Step 2: a row of [venue_time_slots] with this id, of this venue, that
    is available. *)
Definition slot_exists_available (db : database)
    (p_venue_time_slot_id p_venue_id : uuid) : Prop :=
  exists s, In s (venue_time_slots db) /\ ts_id s = p_venue_time_slot_id
            /\ ts_venue_id s = p_venue_id /\ ts_is_available s = true.

(** The three messages [create_reservation] raises for its preconditions. *)
Definition VenueUnavailable : pg_error := RaiseException "Venue not found or inactive".
Definition SlotUnavailable : pg_error := RaiseException "Time slot not available".
Definition SlotAlreadyBooked : pg_error := RaiseException "Time slot is already booked".

End Pre.

(** ** Sample data *)

Module Sample.

Import Pg.

(** 2024-01-06, a Saturday, and 2024-01-02, a Tuesday. *)
Definition saturday : date := 19728.
Definition tuesday : date := 19724.

(** [h] o'clock. *)
Definition oclock (h : Z) : time := h * 3600.

(** One active venue (id 1) with three hourly slots from 10:00 and a
    fourth, switched off, from 13:00; a customer (1), another customer (2)
    and a staff member (3). *)
Definition db (base_price : Q) (weekend_price : option Q)
    (rs : list reservation) : database :=
  {| profiles := [ mk_profile 1%N (Some customer);
                   mk_profile 2%N (Some customer);
                   mk_profile 3%N (Some staff) ];
     venues := [ mk_venue 1%N base_price weekend_price true ];
     venue_time_slots :=
       [ mk_venue_time_slot 1%N 1%N (oclock 10) (oclock 11) true (Some 1%Q);
         mk_venue_time_slot 2%N 1%N (oclock 11) (oclock 12) true (Some (13 # 10));
         mk_venue_time_slot 3%N 1%N (oclock 12) (oclock 13) true None;
         mk_venue_time_slot 4%N 1%N (oclock 13) (oclock 14) false (Some 1%Q) ];
     reservations := rs |}.

(** A datastore for the samples: it returns the first row of a [LIMIT 1]
    query in table order, and its division is the exact one, which is
    PostgreSQL's where the quotient has few decimals, as on the operands
    the samples divide (0 / 100 and 10 / 100). *)
Definition first_row (l : list venue_time_slot) : option venue_time_slot :=
  hd_error l.

Definition exact_div (a b : Q) : Q := (a / b)%Q.



(** The clock reads 2024-01-01, the random numbers drawn are 42, 42 and 7,
    and the next uuid is [id]. *)
Definition env (id : uuid) : environment :=
  {| now_stamp := "20240101"; random_draws := [42; 42; 7]%N; new_uuid := id |}.

(** A reservation of venue 1, slot 1, on the Saturday, by user 1. *)
Definition booking (id : uuid) (code : string) (s e : time)
    (status : reservation_status) : reservation :=
  {| r_id := id;
     r_reservation_code := code;
     r_user_id := 1%N;
     r_venue_id := 1%N;
     r_venue_time_slot_id := 1%N;
     r_reservation_date := saturday;
     r_start_time := s;
     r_end_time := e;
     r_duration_hours := 1%Q;
     r_base_price := 100000%Q;
     r_discount_percentage := 0%Q;
     r_total_price := 100000%Q;
     r_status := status;
     r_notes := None |}.

(** A ledger with a pending booking (id 5) and a completed one (id 6),
    both of user 1. *)
Definition pending_booking : reservation :=
  booking 5%N "OSC202401010001" (oclock 10) (oclock 11) pending.
Definition completed_booking : reservation :=
  booking 6%N "OSC202401010002" (oclock 11) (oclock 12) completed.
Definition ledger : list reservation := [pending_booking; completed_booking].

End Sample.

Module Cancel.

Import Pg.

(** The acting user holds an elevated role: a row of [profiles] for the
    user whose role is staff, admin or superadmin. *)
Definition elevated (db : database) (p_user_id : uuid) : Prop :=
  exists p, In p (profiles db) /\ p_id p = p_user_id
            /\ (p_role p = Some staff \/ p_role p = Some admin
                \/ p_role p = Some superadmin).

(** The reservation is still open: pending or confirmed. *)
Definition open (r : reservation) : Prop :=
  r_status r = pending \/ r_status r = confirmed.

(** The row with its status set to cancelled when its id is the given one. *)
Definition cancel_row (p_reservation_id : uuid) (r : reservation) : reservation :=
  if N.eqb (r_id r) p_reservation_id then set_status cancelled r else r.

(** The messages [cancel_reservation] raises. *)
Definition Unauthorized : pg_error :=
  RaiseException "Unauthorized to cancel this reservation".
Definition ReservationNotFound : pg_error :=
  RaiseException "Reservation not found".

End Cancel.

Module Seq.

Import Pg.

Section Datastore.

Variable LIMIT_1 : list venue_time_slot -> option venue_time_slot.
Variable numeric_div : Q -> Q -> Q.

(** [creations db db']: the database [db'] is reached from [db] by
    successful calls of [create_reservation], one after another. *)
Inductive creations : database -> database -> Prop :=
| creations_none (db : database) : creations db db
| creations_more (db db' db'' : database) (env : environment)
    (u v ts : uuid) (d : date) (s e : time) (dur disc : Q)
    (notes : option string) (id : uuid) :
    creations db db' ->
    create_reservation LIMIT_1 numeric_div db' env u v ts d s e dur disc notes
    = Some (inr id, db'') ->
    creations db db''.

End Datastore.

(** The codes stored in the table [reservations]. *)
Definition stored_codes (db : database) : list string :=
  map r_reservation_code (reservations db).

End Seq.

(** ** The price rule in the spec's words *)

Module Rule.

(** The venue's rate for the day class: the weekend price on a weekend
    when the venue has one, the weekday price otherwise. *)
Definition day_class_rate (weekend : bool) (weekday_price : Q)
    (weekend_price : option Q) : Q :=
  match weekend, weekend_price with
  | true, Some w => w
  | _, _ => weekday_price
  end.

(** Rate times multiplier times hours. *)
Definition hourly_price (rate multiplier hours : Q) : Q :=
  (rate * multiplier * hours)%Q.

(** The nearest whole currency unit, ties upwards. *)
Definition whole_units (x : Q) : Q := inject_Z (Qfloor (x + (1 # 2))).

End Rule.

(** ** A sample platform for the client side *)

Module SampleClient.

Definition digit (c : ascii) : option Z :=
  let n := Z.of_nat (nat_of_ascii c) in
  if (48 <=? n) && (n <=? 57) then Some (n - 48) else None.

Definition two_digits (s : string) (i : nat) : option Z :=
  match String.get i s, String.get (S i) s with
  | Some a, Some b =>
      match digit a, digit b with
      | Some x, Some y => Some (10 * x + y)
      | _, _ => None
      end
  | _, _ => None
  end.

(** [new Date(s).getTime()] for [s] of the form [2000-01-01THH:MM:SS],
    read as UTC; [NaN] for any other string. *)
Definition getTime (s : string) : Client.number :=
  if String.prefix "2000-01-01T" s && Nat.eqb (String.length s) 19 then
    match two_digits s 11, two_digits s 14, two_digits s 17 with
    | Some h, Some m, Some sec =>
        Some (inject_Z (946684800000 + ((h * 60 + m) * 60 + sec) * 1000))
    | _, _, _ => None
    end
  else None.

(** Double arithmetic for the samples: the exact operations, which are
    the double ones on the operands of the samples (whole numbers of
    milliseconds and of currency units, and the multipliers 1, 1.25 and
    1.5). *)
Definition fl_mul (a b : Q) : Q := (a * b)%Q.
Definition fl_div (a b : Q) : Q := (a / b)%Q.
Definition fl_sub (a b : Q) : Q := (a - b)%Q.

(** [new Date(s).getDay()] for the two sample dates. *)
Definition getDay (s : string) : Client.number :=
  if String.eqb s "2024-01-06" then Some 6%Q
  else if String.eqb s "2024-01-02" then Some 2%Q
  else None.

(** The venue of [Sample.db] and hourly slots from 10:00, as the client
    receives them. *)
Definition venue (base_price : Q) (weekend_price : Client.number) : Client.Venue :=
  Client.mk_Venue "v1" base_price weekend_price.

Definition slots : list Client.TimeSlot :=
  [ Client.mk_TimeSlot "s1" "v1" "10:00:00" "11:00:00" (Some 1%Q) (Some 1%Q) true;
    Client.mk_TimeSlot "s2" "v1" "11:00:00" "12:00:00" (Some (5 # 4)) (Some (3 # 2)) true;
    Client.mk_TimeSlot "s3" "v1" "12:00:00" "13:00:00" None None true ].

(** Half-hour slots from 10:00. *)
Definition half_hour_slots : list Client.TimeSlot :=
  [ Client.mk_TimeSlot "h1" "v1" "10:00:00" "10:30:00" (Some 1%Q) (Some 1%Q) true;
    Client.mk_TimeSlot "h2" "v1" "10:30:00" "11:00:00" (Some 1%Q) (Some 1%Q) true;
    Client.mk_TimeSlot "h3" "v1" "11:00:00" "11:30:00" (Some 1%Q) (Some 1%Q) true ].

Definition form (date_ startTime_ endTime_ : string) : Client.BookingFormData :=
  Client.mk_BookingFormData "v1" date_ startTime_ endTime_ None.

End SampleClient.

(** ** More of the database side *)

Module PgMore.

Import Pg.

(** *** get_available_time_slots *)

(** A row of the table the function returns. *)
Record available_time_slot := mk_available_time_slot {
  slot_id : uuid;
  start_time : time;
  end_time : time;
  price_multiplier : option Q;
  is_available : bool
}.

(** [ORDER BY vts.start_time], as an insertion sort that keeps rows of equal
    start time in table order (the order PostgreSQL gives such rows is not
    specified). *)
Fixpoint insert_by_start_time (x : venue_time_slot) (l : list venue_time_slot)
    : list venue_time_slot :=
  match l with
  | [] => [x]
  | y :: l' =>
      if ts_start_time x <=? ts_start_time y then x :: l
      else y :: insert_by_start_time x l'
  end.

Definition ORDER_BY_start_time (l : list venue_time_slot) : list venue_time_slot :=
  fold_right insert_by_start_time [] l.

(** The order of [ORDER BY vts.start_time]. *)
Definition by_start_time (a b : venue_time_slot) : Prop :=
  ts_start_time a <= ts_start_time b.

(** The SELECT list for one row of [venue_time_slots]. *)
Definition available_row (db : database) (p_venue_id : uuid) (p_date : date)
    (vts : venue_time_slot) : available_time_slot :=
  {| slot_id := ts_id vts;
     start_time := ts_start_time vts;
     end_time := ts_end_time vts;
     price_multiplier := ts_price_multiplier vts;
     is_available :=
       ts_is_available vts
       && check_venue_availability db p_venue_id p_date
            (ts_start_time vts) (ts_end_time vts) None |}.

Definition get_available_time_slots (db : database) (p_venue_id : uuid)
    (p_date : date) : list available_time_slot :=
  map (available_row db p_venue_id p_date)
      (ORDER_BY_start_time
         (filter (fun vts => N.eqb (ts_venue_id vts) p_venue_id)
                 (venue_time_slots db))).

(** *** The role helpers of the row-level-security migration *)









(** *** update_reservation_status *)

(** [CREATE TYPE payment_status AS ENUM (...)]. *)
Inductive payment_status := payment_pending | paid | failed | refunded.

(** A row of [reservations] with its [payment_status] column, which
    [reservation] leaves out and this function writes (the function also
    sets [updated_at = NOW()] on the rows it changes). *)
Definition reservation_row : Type := reservation * option payment_status.

(** [UPDATE reservations SET status = p_status, payment_status =
    COALESCE(p_payment_status, payment_status) WHERE id = p_reservation_id;
    RETURN FOUND]. *)
Definition update_reservation_status (rows : list reservation_row)
    (p_reservation_id : uuid) (p_status : reservation_status)
    (p_payment_status : option payment_status) : bool * list reservation_row :=
  (existsb (fun row => N.eqb (r_id (fst row)) p_reservation_id) rows,
   map (fun row =>
          if N.eqb (r_id (fst row)) p_reservation_id
          then (set_status p_status (fst row),
                match p_payment_status with
                | Some p => Some p
                | None => snd row
                end)
          else row)
       rows).

(** *** cancel_reservation: the column updated_at *)

(** The column [updated_at] of [reservations] after [cancel_reservation],
    for [updated_at] the column before, row by row in the order of
    [reservations db], and [now] the value of [NOW()]: the UPDATE sets it
    on the rows whose [status] it sets, and is not reached when the
    function raises. *)
Definition cancel_reservation_updated_at (db : database) (updated_at : list Z)
    (now : Z) (p_reservation_id p_user_id : uuid) : list Z :=
  if negb (reservation_exists db p_reservation_id) then updated_at
  else if negb (user_owns_reservation db p_reservation_id p_user_id) then updated_at
  else
    map (fun row => if cancellable p_reservation_id (fst row) then now else snd row)
        (combine (reservations db) updated_at).

End PgMore.

(** ** More of the client side *)

Module ClientMore.

Import Client.

Section Platform.

Variable Date_getTime : string -> number.

(** The overlap test of [useVenueAvailability] on the four [Date]s. *)
Definition time_overlap (slotStart slotEnd reservationStart reservationEnd : number)
    : bool :=
  (num_le reservationStart slotStart && num_lt slotStart reservationEnd)
  || (num_lt reservationStart slotEnd && num_le slotEnd reservationEnd)
  || (num_le slotStart reservationStart && num_le reservationEnd slotEnd).

(** [reservations?.find(reservation => ...)] for a slot on [date]. *)
Definition conflictingReservation (date_ : string) (reservations : list Reservation)
    (slot : TimeSlot) : option Reservation :=
  find (fun reservation =>
          let slotStart := Date_getTime (date_ ++ "T" ++ sl_start_time slot) in
          let slotEnd := Date_getTime (date_ ++ "T" ++ sl_end_time slot) in
          let reservationStart :=
            Date_getTime (rs_reservation_date reservation ++ "T"
                          ++ rs_start_time reservation) in
          let reservationEnd :=
            Date_getTime (rs_reservation_date reservation ++ "T"
                          ++ rs_end_time reservation) in
          time_overlap slotStart slotEnd reservationStart reservationEnd)
       reservations.

(** [isAvailable: !conflictingReservation]. *)
Definition isAvailable (date_ : string) (reservations : list Reservation)
    (slot : TimeSlot) : bool :=
  match conflictingReservation date_ reservations slot with
  | Some _ => false
  | None => true
  end.

End Platform.

End ClientMore.

(** ** Notions the further statements use *)

Module More.

Import Pg.

(** Two reservations that book the same venue and date, both pending or
    confirmed, over intervals that overlap. *)
Definition clash (a b : reservation) : Prop :=
  r_venue_id a = r_venue_id b
  /\ r_reservation_date a = r_reservation_date b
  /\ status_blocks (r_status a) = true
  /\ status_blocks (r_status b) = true
  /\ r_start_time a < r_end_time b
  /\ r_end_time a > r_start_time b.

(** No two rows of the list clash. *)
Fixpoint no_double_booking (l : list reservation) : Prop :=
  match l with
  | [] => True
  | a :: l' => (forall b, In b l' -> ~ clash a b) /\ no_double_booking l'
  end.

(** The CHECK constraints of [reservations] on a row. *)
Definition row_checks (r : reservation) : Prop :=
  r_start_time r < r_end_time r
  /\ valid_discount (r_discount_percentage r) = true.

(** The number a code ends in: its last four characters read as a decimal
    number. *)
Definition draw_of_code (code : string) : option N :=
  option_map N.of_uint (NilEmpty.uint_of_string (Client.slice_last 4 code)).

(** The numbers [FLOOR(RANDOM() * 10000)] can take. *)
Definition draws_below_10000 : list N := map N.of_nat (seq 0 (N.to_nat 10000)).

(** The table [reservations] without the rows of the given id. *)
Definition without_id (id : uuid) (l : list reservation) : list reservation :=
  filter (fun r => negb (N.eqb (r_id r) id)) l.

End More.

Module Constraints.

Import Pg Inv More.

(** What the definition of the table [reservations] asks of its rows: the
    primary key, the unique code, the user's foreign key and the two CHECK
    constraints. *)
Definition table_constraints (db : database) : Prop :=
  reservations_pkey db
  /\ reservation_code_key db
  /\ reservations_user_id_fkey db
  /\ Forall row_checks (reservations db).

(** [a] and [b] agree on every column but [status]. *)
Definition same_but_status (a b : reservation) : Prop :=
  set_status pending a = set_status pending b.

End Constraints.

Module SampleMore.

Import Pg More.

(** A ledger that holds, for the day stamped [stamp], a reservation under
    every code the day can have. *)
Definition full_day (stamp : string) : list reservation :=
  map (fun n => Sample.booking n (candidate_code stamp n)
                  (Sample.oclock 10) (Sample.oclock 11) cancelled)
      draws_below_10000.

End SampleMore.

(** * Properties *)


(** ** Availability *)

Section Availability.

Import Pg.

Lemma filter_length_zero {A : Type} (f : A -> bool) (l : list A) :
  Nat.eqb (List.length (filter f l)) 0 = true <-> forall x, In x l -> f x = false.
Proof.
  induction l as [|a l IH]; simpl.
  - split; [intros _ x []|reflexivity].
  - destruct (f a) eqn:Fa; simpl.
    + split; [discriminate|].
      intros H. rewrite (H a) in Fa by (left; reflexivity). discriminate.
    + rewrite IH. split.
      * intros H x [<-|Hx]; [exact Fa|exact (H x Hx)].
      * intros H x Hx. apply H. right. exact Hx.
Qed.

Lemma status_blocks_iff (s : reservation_status) :
  status_blocks s = true <-> s = pending \/ s = confirmed.
Proof.
  destruct s; simpl; split; intros H; try reflexivity; try discriminate; auto;
    destruct H; discriminate.
Qed.

Lemma overlaps_iff (rs re s e : time) :
  overlaps rs re s e = true <-> rs < e /\ re > s.
Proof.
  unfold overlaps. rewrite andb_true_iff, Z.ltb_lt, Z.gtb_ltb, Z.ltb_lt. lia.
Qed.

Lemma conflicts_iff (v : uuid) (d : date) (s e : time) (r : reservation) :
  conflicts v d s e None r = true <->
  r_venue_id r = v /\ r_reservation_date r = d
  /\ (r_status r = pending \/ r_status r = confirmed)
  /\ r_start_time r < e /\ r_end_time r > s.
Proof.
  unfold conflicts, not_excluded.
  rewrite !andb_true_iff, N.eqb_eq, Z.eqb_eq, status_blocks_iff, overlaps_iff.
  tauto.
Qed.

End Availability.

Section AvailabilityMain.

Import Pg Inv.

Lemma check_venue_availability_spec (db : database) (v : uuid) (d : date) (s e : time) :
  check_venue_availability db v d s e None = true <->
  forall r, In r (reservations db) ->
    r_venue_id r = v -> r_reservation_date r = d ->
    r_status r = pending \/ r_status r = confirmed ->
    ~ (r_start_time r < e /\ r_end_time r > s).
Proof.
  unfold check_venue_availability. cbv zeta. rewrite filter_length_zero.
  split.
  - intros H r Hr Hv Hd Hs Ho.
    specialize (H r Hr).
    assert (C : conflicts v d s e None r = true) by (apply conflicts_iff; tauto).
    congruence.
  - intros H r Hr.
    destruct (conflicts v d s e None r) eqn:C; [|reflexivity].
    apply conflicts_iff in C. exfalso.
    apply (H r Hr); tauto.
Qed.

Lemma hasConflict_false_iff (res : list Client.Reservation) (slot : Client.TimeSlot) :
  Client.hasConflict res slot = false <->
  forall r, In r res ->
    ~ (Client.str_lt (Client.sl_start_time slot) (Client.rs_end_time r) = true
       /\ Client.str_lt (Client.rs_start_time r) (Client.sl_end_time slot) = true).
Proof.
  unfold Client.hasConflict.
  split.
  - intros H r Hr [H1 H2].
    assert (E : existsb (fun reservation =>
                Client.overlap (Client.sl_start_time slot) (Client.sl_end_time slot)
                  (Client.rs_start_time reservation) (Client.rs_end_time reservation)) res = true).
    { apply existsb_exists. exists r. split; [exact Hr|].
      unfold Client.overlap. rewrite H1, H2. reflexivity. }
    congruence.
  - intros H. apply not_true_is_false. intros E.
    apply existsb_exists in E. destruct E as [r [Hr Ho]].
    unfold Client.overlap in Ho. apply andb_true_iff in Ho.
    exact (H r Hr Ho).
Qed.

Lemma query_reservations_In (table : list Client.Reservation) (v d : string)
    (r : Client.Reservation) :
  In r (Client.query_reservations table v d) <->
  In r table /\ Client.rs_venue_id r = Some v /\ Client.rs_reservation_date r = d
  /\ (Client.rs_status r = "confirmed"%string \/ Client.rs_status r = "pending"%string).
Proof.
  unfold Client.query_reservations. rewrite filter_In.
  rewrite !andb_true_iff, orb_true_iff, !String.eqb_eq.
  destruct (Client.rs_venue_id r) as [w|].
  - rewrite String.eqb_eq. split.
    + intros [H1 [[H2 H3] H4]]. subst. tauto.
    + intros [H1 [H2 [H3 H4]]]. inversion H2. tauto.
  - split.
    + intros [_ [[H _] _]]. discriminate.
    + intros [_ [H _]]. discriminate.
Qed.

(** C1. The availability check is true exactly when no pending or confirmed
    reservation of the venue and date overlaps the candidate interval
    (existing start < candidate end and existing end > candidate start).
    So it is true when the venue and date have no pending or confirmed
    reservation, a reservation that starts exactly at the candidate end does
    not conflict, and a cancelled or completed reservation never changes the
    answer. The slot filter of the booking form applies the same test to the
    pending and confirmed reservations it fetched for the venue and date. *)
Theorem availability_iff_no_overlap :
  (forall db v d s e,
      check_venue_availability db v d s e None = true <->
      forall r, In r (reservations db) ->
        r_venue_id r = v -> r_reservation_date r = d ->
        r_status r = pending \/ r_status r = confirmed ->
        ~ (r_start_time r < e /\ r_end_time r > s))
  /\ (forall db v d s e,
         (forall r, In r (reservations db) ->
            r_venue_id r = v -> r_reservation_date r = d ->
            r_status r = cancelled \/ r_status r = completed) ->
         check_venue_availability db v d s e None = true)
  /\ (forall db v d s e,
         (forall r, In r (reservations db) ->
            r_venue_id r = v -> r_reservation_date r = d ->
            r_status r = pending \/ r_status r = confirmed ->
            r_start_time r = e) ->
         check_venue_availability db v d s e None = true)
  /\ (forall db v d s e r,
         r_status r = cancelled \/ r_status r = completed ->
         check_venue_availability (with_reservations db (r :: reservations db)) v d s e None
         = check_venue_availability db v d s e None)
  /\ (forall table v d slot,
         Client.hasConflict (Client.query_reservations table v d) slot = false <->
         forall r, In r table ->
           Client.rs_venue_id r = Some v -> Client.rs_reservation_date r = d ->
           Client.rs_status r = "pending"%string \/ Client.rs_status r = "confirmed"%string ->
           ~ (Client.str_lt (Client.rs_start_time r) (Client.sl_end_time slot) = true
              /\ Client.str_lt (Client.sl_start_time slot) (Client.rs_end_time r) = true))
  /\ (forall slots res t,
         In t (Client.availableSlots slots res) <->
         exists slot, In slot slots /\ Client.sl_start_time slot = t
                      /\ Client.hasConflict res slot = false).
Proof.
  split; [exact check_venue_availability_spec|].
  split.
  { intros db v d s e H. apply check_venue_availability_spec.
    intros r Hr Hv Hd Hs _.
    destruct (H r Hr Hv Hd) as [C|C]; rewrite C in Hs; destruct Hs; discriminate. }
  split.
  { intros db v d s e H. apply check_venue_availability_spec.
    intros r Hr Hv Hd Hs [H1 _].
    specialize (H r Hr Hv Hd Hs). lia. }
  split.
  { intros db v d s e r Hs.
    unfold check_venue_availability, with_reservations. simpl.
    replace (conflicts v d s e None r) with false; [reflexivity|].
    symmetry. unfold conflicts.
    destruct Hs as [-> | ->]; simpl; rewrite ?andb_false_r; reflexivity. }
  split.
  { intros table v d slot. rewrite hasConflict_false_iff. split.
    - intros H r Hr Hv Hd Hs [H1 H2].
      apply (H r); [|tauto].
      apply query_reservations_In. tauto.
    - intros H r Hr [H1 H2].
      apply query_reservations_In in Hr. destruct Hr as [Hr [Hv [Hd Hs]]].
      apply (H r Hr Hv Hd); tauto. }
  { intros slots res t. unfold Client.availableSlots.
    rewrite in_map_iff. split.
    - intros [slot [Ht Hin]]. apply filter_In in Hin. destruct Hin as [Hin Hc].
      exists slot. apply negb_true_iff in Hc. tauto.
    - intros [slot [Hin [Ht Hc]]]. exists slot. split; [exact Ht|].
      apply filter_In. rewrite Hc. tauto. }
Qed.

End AvailabilityMain.

(** ** Creating a reservation: the preconditions *)

Section CreationPreconditions.

Import Pg Inv Pre.

Variable LIMIT_1 : list venue_time_slot -> option venue_time_slot.
Variable numeric_div : Q -> Q -> Q.

Abbreviation calculate_venue_price := (Pg.calculate_venue_price LIMIT_1).
Abbreviation create_reservation := (Pg.create_reservation LIMIT_1 numeric_div).

Lemma existsb_active_venue (db : database) (v : uuid) :
  existsb (active_venue v) (venues db) = true <-> venue_exists_active db v.
Proof.
  unfold venue_exists_active. rewrite existsb_exists.
  split; intros [x H]; exists x; unfold active_venue in *;
    rewrite andb_true_iff, N.eqb_eq in *; tauto.
Qed.

Lemma existsb_slot_bookable (db : database) (ts v : uuid) :
  existsb (slot_bookable ts v) (venue_time_slots db) = true
  <-> slot_exists_available db ts v.
Proof.
  unfold slot_exists_available. rewrite existsb_exists.
  split; intros [x H]; exists x; unfold slot_bookable in *;
    rewrite !andb_true_iff, !N.eqb_eq in *; tauto.
Qed.

Lemma insert_reservation_reservations db id code u v ts d s e dur bp disc tp notes db' :
  insert_reservation db id code u v ts d s e dur bp disc tp notes = inr db' ->
  exists row,
    db' = with_reservations db (reservations db ++ [row])
    /\ r_id row = id /\ r_reservation_code row = code
    /\ r_user_id row = u /\ r_venue_id row = v /\ r_venue_time_slot_id row = ts
    /\ r_reservation_date row = d /\ r_start_time row = s /\ r_end_time row = e
    /\ r_status row = pending /\ r_notes row = notes
    /\ numeric_column "duration_hours" 3 1 dur = inr (r_duration_hours row)
    /\ numeric_column "discount_percentage" 5 2 disc = inr (r_discount_percentage row)
    /\ numeric_column_null "base_price" 10 2 bp = inr (Some (r_base_price row))
    /\ numeric_column_null "total_price" 10 2 tp = inr (Some (r_total_price row))
    /\ s < e
    /\ valid_discount (r_discount_percentage row) = true
    /\ ~ In id (map r_id (reservations db))
    /\ code_exists db code = false.
Proof.
  unfold insert_reservation.
  destruct (Nat.leb _ 20); [|discriminate].
  destruct (numeric_column "duration_hours" 3 1 dur) as [?|dh]; [discriminate|]. simpl bind.
  destruct (numeric_column_null "base_price" 10 2 bp) as [?|[b|]]; try discriminate; simpl bind.
  2:{ destruct (numeric_column "discount_percentage" 5 2 disc); simpl; try discriminate.
      destruct (numeric_column_null "total_price" 10 2 tp); simpl; discriminate. }
  destruct (numeric_column "discount_percentage" 5 2 disc) as [?|dp]; [discriminate|]. simpl bind.
  destruct (numeric_column_null "total_price" 10 2 tp) as [?|[t|]]; try discriminate; simpl bind.
  destruct (valid_discount dp) eqn:Hvd; [|discriminate].
  destruct (s <? e) eqn:Hse; [|discriminate].
  destruct (existsb (fun r => N.eqb (r_id r) id) (reservations db)) eqn:Hid; [discriminate|]. simpl negb. cbv iota.
  destruct (code_exists db code) eqn:Hcode; [discriminate|]. simpl negb. cbv iota.
  destruct (existsb _ (profiles db)); [|discriminate].
  destruct (existsb _ (venues db)); [|discriminate].
  destruct (existsb _ (venue_time_slots db)); [|discriminate].
  intros H. inversion H; subst db'; clear H.
  eexists. split; [reflexivity|]. simpl.
  repeat (split; [reflexivity|]).
  split; [apply Z.ltb_lt; exact Hse|].
  split; [exact Hvd|].
  split; [|reflexivity].
  intros Hin. apply in_map_iff in Hin. destruct Hin as [r [Hr Hin]].
  assert (existsb (fun r => N.eqb (r_id r) id) (reservations db) = true).
  { apply existsb_exists. exists r. split; [exact Hin|]. apply N.eqb_eq. exact Hr. }
  congruence.
Qed.

Lemma create_reservation_error_keeps_db db env u v ts d s e dur disc notes err db' :
  create_reservation db env u v ts d s e dur disc notes = Some (inl err, db') ->
  db' = db.
Proof.
  unfold Pg.create_reservation.
  destruct (negb (existsb (active_venue v) (venues db))); [intros H; inversion H; reflexivity|].
  destruct (negb (existsb (slot_bookable ts v) (venue_time_slots db))); [intros H; inversion H; reflexivity|].
  destruct (negb (check_venue_availability db v d s e None)); [intros H; inversion H; reflexivity|].
  destruct (calculate_venue_price db v d s dur) as [?|bp]; [intros H; inversion H; reflexivity|].
  cbv zeta.
  destruct (generate_reservation_code db (now_stamp env) (random_draws env)) as [[code rest]|]; [|discriminate].
  destruct (insert_reservation _ _ _ _ _ _ _ _ _ _ _ _ _ _); intros H; inversion H; reflexivity.
Qed.

Lemma numeric_column_inl (column : string) (p s : nat) (x : Q) (err : pg_error) :
  numeric_column column p s x = inl err -> err = NumericFieldOverflow column.
Proof.
  unfold numeric_column. cbv zeta.
  destruct (Qle_bool _ _); [|discriminate].
  intros H. inversion H. reflexivity.
Qed.

Lemma numeric_column_null_inl (column : string) (p s : nat) (x : option Q)
    (err : pg_error) :
  numeric_column_null column p s x = inl err -> err = NumericFieldOverflow column.
Proof.
  destruct x as [v|]; simpl; [|discriminate].
  destruct (numeric_column column p s v) as [e|w] eqn:E; simpl; [|discriminate].
  intros H. inversion H. subst e. exact (numeric_column_inl _ _ _ _ _ E).
Qed.

Lemma insert_reservation_error db id code u v ts d s e dur bp disc tp notes err :
  insert_reservation db id code u v ts d s e dur bp disc tp notes = inl err ->
  sqlstate err <> "P0001"%string.
Proof.
  unfold insert_reservation.
  destruct (Nat.leb _ 20); [|intros H; inversion H; discriminate].
  destruct (numeric_column "duration_hours" 3 1 dur) as [e1|dh] eqn:E1; simpl bind.
  { apply numeric_column_inl in E1. intros H. inversion H. subst. discriminate. }
  destruct (numeric_column_null "base_price" 10 2 bp) as [e2|b] eqn:E2; simpl bind.
  { apply numeric_column_null_inl in E2. intros H. inversion H. subst. discriminate. }
  destruct (numeric_column "discount_percentage" 5 2 disc) as [e3|dp] eqn:E3; simpl bind.
  { apply numeric_column_inl in E3. intros H. inversion H. subst. discriminate. }
  destruct (numeric_column_null "total_price" 10 2 tp) as [e4|t] eqn:E4; simpl bind.
  { apply numeric_column_null_inl in E4. intros H. inversion H. subst. discriminate. }
  destruct b as [b|]; simpl; [|intros H; inversion H; discriminate].
  destruct t as [t|]; simpl; [|intros H; inversion H; discriminate].
  destruct (valid_discount dp); [|intros H; inversion H; discriminate].
  destruct (s <? e); [|intros H; inversion H; discriminate].
  destruct (negb (existsb _ (reservations db))); [|intros H; inversion H; discriminate].
  destruct (negb (code_exists db code)); [|intros H; inversion H; discriminate].
  destruct (existsb _ (profiles db)); [|intros H; inversion H; discriminate].
  destruct (existsb _ (venues db)); [|intros H; inversion H; discriminate].
  destruct (existsb _ (venue_time_slots db)); [|intros H; inversion H; discriminate].
  discriminate.
Qed.

Lemma calculate_venue_price_active db v d s dur :
  existsb (active_venue v) (venues db) = true ->
  exists p, calculate_venue_price db v d s dur = inr p.
Proof.
  intros H. unfold Pg.calculate_venue_price.
  destruct (find (active_venue v) (venues db)) as [ven|] eqn:E; [eexists; reflexivity|].
  exfalso. apply existsb_exists in H. destruct H as [x [Hx Hax]].
  rewrite (find_none _ _ E x Hx) in Hax. discriminate.
Qed.

Lemma create_reservation_error_kind db env u v ts d s e dur disc notes err db' :
  create_reservation db env u v ts d s e dur disc notes = Some (inl err, db') ->
  (err = VenueUnavailable /\ ~ venue_exists_active db v)
  \/ (err = SlotUnavailable /\ venue_exists_active db v
      /\ ~ slot_exists_available db ts v)
  \/ (err = SlotAlreadyBooked /\ venue_exists_active db v
      /\ slot_exists_available db ts v
      /\ check_venue_availability db v d s e None = false)
  \/ (sqlstate err <> "P0001"%string /\ venue_exists_active db v
      /\ slot_exists_available db ts v
      /\ check_venue_availability db v d s e None = true).
Proof.
  unfold Pg.create_reservation.
  destruct (existsb (active_venue v) (venues db)) eqn:Ev; simpl negb; cbv iota.
  2:{ intros H. injection H as <- <-. left. split; [reflexivity|].
      intros Hv. apply existsb_active_venue in Hv. congruence. }
  destruct (existsb (slot_bookable ts v) (venue_time_slots db)) eqn:Es;
    simpl negb; cbv iota.
  2:{ intros H. injection H as <- <-. right. left. split; [reflexivity|].
      split; [apply existsb_active_venue; exact Ev|].
      intros Hs. apply existsb_slot_bookable in Hs. congruence. }
  destruct (check_venue_availability db v d s e None) eqn:Ec; simpl negb; cbv iota.
  2:{ intros H. injection H as <- <-. right. right. left. split; [reflexivity|].
      split; [apply existsb_active_venue; exact Ev|].
      split; [apply existsb_slot_bookable; exact Es|reflexivity]. }
  destruct (calculate_venue_price_active db v d s dur Ev) as [bp Hp].
  rewrite Hp. cbv zeta.
  destruct (generate_reservation_code db (now_stamp env) (random_draws env))
    as [[code rest]|]; [|discriminate].
  destruct (insert_reservation _ _ _ _ _ _ _ _ _ _ _ _ _ _) as [e0|db0] eqn:Ei;
    [|discriminate].
  intros H. injection H as <- <-. right. right. right.
  split; [exact (insert_reservation_error _ _ _ _ _ _ _ _ _ _ _ _ _ _ _ Ei)|].
  split; [apply existsb_active_venue; exact Ev|].
  split; [apply existsb_slot_bookable; exact Es|reflexivity].
Qed.

(** C2, as the code has it. [create_reservation] checks its preconditions
    in order: without an active venue of the given id it raises 'Venue not
    found or inactive'; otherwise, without an available slot of the given
    id that belongs to the venue, it raises 'Time slot not available';
    otherwise it runs the availability check again and, on a conflict,
    raises 'Time slot is already booked'. Whatever error the function ends
    with, the database is the one it started from: no reservation row was
    inserted. The three errors are one and the same kind of exception, a
    [RAISE EXCEPTION] of SQLSTATE P0001, told apart by their messages only;
    every other error of the call is a violation the table raises, of
    another SQLSTATE. *)
Theorem create_reservation_preconditions :
  forall db env u v ts d s e dur disc notes,
    (~ venue_exists_active db v ->
       create_reservation db env u v ts d s e dur disc notes
       = Some (inl VenueUnavailable, db))
    /\ (venue_exists_active db v -> ~ slot_exists_available db ts v ->
          create_reservation db env u v ts d s e dur disc notes
          = Some (inl SlotUnavailable, db))
    /\ (venue_exists_active db v -> slot_exists_available db ts v ->
          check_venue_availability db v d s e None = false ->
          create_reservation db env u v ts d s e dur disc notes
          = Some (inl SlotAlreadyBooked, db))
    /\ (forall err db',
          create_reservation db env u v ts d s e dur disc notes = Some (inl err, db') ->
          db' = db /\ reservations db' = reservations db)
    /\ (forall err db',
          create_reservation db env u v ts d s e dur disc notes = Some (inl err, db') ->
          (err = VenueUnavailable /\ ~ venue_exists_active db v)
          \/ (err = SlotUnavailable /\ venue_exists_active db v
              /\ ~ slot_exists_available db ts v)
          \/ (err = SlotAlreadyBooked /\ venue_exists_active db v
              /\ slot_exists_available db ts v
              /\ check_venue_availability db v d s e None = false)
          \/ (sqlstate err <> "P0001"%string /\ venue_exists_active db v
              /\ slot_exists_available db ts v
              /\ check_venue_availability db v d s e None = true))
    /\ (sqlstate VenueUnavailable = "P0001"%string
        /\ sqlstate SlotUnavailable = "P0001"%string
        /\ sqlstate SlotAlreadyBooked = "P0001"%string)
    /\ VenueUnavailable <> SlotUnavailable
    /\ VenueUnavailable <> SlotAlreadyBooked
    /\ SlotUnavailable <> SlotAlreadyBooked.
Proof.
  intros db env u v ts d s e dur disc notes.
  split.
  { intros Hv. unfold Pg.create_reservation.
    destruct (existsb (active_venue v) (venues db)) eqn:E; [|reflexivity].
    apply existsb_active_venue in E. contradiction. }
  split.
  { intros Hv Hs. unfold Pg.create_reservation.
    apply existsb_active_venue in Hv. rewrite Hv. simpl negb. cbv iota.
    destruct (existsb (slot_bookable ts v) (venue_time_slots db)) eqn:E; [|reflexivity].
    apply existsb_slot_bookable in E. contradiction. }
  split.
  { intros Hv Hs Hc. unfold Pg.create_reservation.
    apply existsb_active_venue in Hv. rewrite Hv.
    apply existsb_slot_bookable in Hs. rewrite Hs.
    rewrite Hc. reflexivity. }
  split.
  { intros err db' H. apply create_reservation_error_keeps_db in H.
    subst db'. split; reflexivity. }
  split; [exact (create_reservation_error_kind db env u v ts d s e dur disc notes)|].
  split; [repeat split|].
  repeat split; discriminate.
Qed.

End CreationPreconditions.

Section CreationPreconditionsSample.

Import Pg Inv Pre.

(** C2 as the spec words it fails: on the sample data the three failed
    preconditions end in three errors of one and the same type (SQLSTATE
    P0001), which differ in their message only, and a booking at 08:00,
    where the venue has no slot, ends in the table's own NOT NULL
    violation. *)
Lemma precondition_errors_are_one_exception :
  exists e1 e2 e3,
    Pg.create_reservation Sample.first_row Sample.exact_div
      (Sample.db 100000 None Sample.ledger) (Sample.env 9%N)
      1%N 7%N 1%N Sample.saturday (Sample.oclock 12) (Sample.oclock 13)
      1%Q 0%Q None = Some (inl e1, Sample.db 100000 None Sample.ledger)
    /\ Pg.create_reservation Sample.first_row Sample.exact_div
         (Sample.db 100000 None Sample.ledger) (Sample.env 9%N)
         1%N 1%N 4%N Sample.saturday (Sample.oclock 12) (Sample.oclock 13)
         1%Q 0%Q None = Some (inl e2, Sample.db 100000 None Sample.ledger)
    /\ Pg.create_reservation Sample.first_row Sample.exact_div
         (Sample.db 100000 None Sample.ledger) (Sample.env 9%N)
         1%N 1%N 1%N Sample.saturday (Sample.oclock 10) (Sample.oclock 11)
         1%Q 0%Q None = Some (inl e3, Sample.db 100000 None Sample.ledger)
    /\ e1 <> e2 /\ e1 <> e3 /\ e2 <> e3
    /\ sqlstate e1 = "P0001"%string
    /\ sqlstate e2 = sqlstate e1
    /\ sqlstate e3 = sqlstate e1
    /\ Pg.create_reservation Sample.first_row Sample.exact_div
         (Sample.db 100000 None Sample.ledger) (Sample.env 9%N)
         1%N 1%N 1%N Sample.saturday (Sample.oclock 8) (Sample.oclock 9)
         1%Q 0%Q None
       = Some (inl (NotNullViolation "base_price"),
               Sample.db 100000 None Sample.ledger).
Proof.
  exists VenueUnavailable, SlotUnavailable, SlotAlreadyBooked.
  split; [vm_compute; reflexivity|].
  split; [vm_compute; reflexivity|].
  split; [vm_compute; reflexivity|].
  split; [discriminate|]. split; [discriminate|]. split; [discriminate|].
  split; [reflexivity|]. split; [reflexivity|]. split; [reflexivity|].
  vm_compute. reflexivity.
Qed.

End CreationPreconditionsSample.

(** ** Rounding *)

Section Rounding.

Import Pg.

Lemma round_half_away_comp (x y : Q) :
  (x == y)%Q -> round_half_away x = round_half_away y.
Proof.
  intros H. unfold round_half_away.
  rewrite (Qfloor_comp _ _ (Qplus_comp _ _ H _ _ (Qeq_refl (1 # 2)))).
  rewrite (Qfloor_comp _ _ (Qplus_comp _ _ (Qopp_comp _ _ H) _ _ (Qeq_refl (1 # 2)))).
  rewrite (Qleb_comp _ _ (Qeq_refl 0) _ _ H).
  reflexivity.
Qed.

Lemma ROUND_comp (x y : Q) (s : nat) : (x == y)%Q -> ROUND x s = ROUND y s.
Proof.
  intros H. unfold ROUND. f_equal. apply round_half_away_comp.
  rewrite H. reflexivity.
Qed.

Lemma Qfloor_plus_half (z : Z) : Qfloor (inject_Z z + (1 # 2)) = z.
Proof.
  unfold Qfloor, Qplus, inject_Z. simpl.
  symmetry. apply (Z.div_unique _ _ _ 1); lia.
Qed.

Lemma round_half_away_Z (z : Z) : round_half_away (inject_Z z) = z.
Proof.
  unfold round_half_away.
  destruct (Qle_bool 0 (inject_Z z)) eqn:E.
  - apply Qfloor_plus_half.
  - replace (- inject_Z z)%Q with (inject_Z (- z)) by reflexivity.
    rewrite Qfloor_plus_half. lia.
Qed.

Lemma pow10_pos (s : nat) : 0 < 10 ^ Z.of_nat s.
Proof. apply Z.pow_pos_nonneg; lia. Qed.

Lemma scaled_back (n : Z) (s : nat) :
  ((n # Z.to_pos (10 ^ Z.of_nat s)) * inject_Z (10 ^ Z.of_nat s) == inject_Z n)%Q.
Proof.
  pose proof (pow10_pos s) as Hp.
  unfold Qeq, Qmult, inject_Z.
  cbn [Qnum Qden].
  rewrite Pos.mul_1_r, Z2Pos.id by exact Hp. ring.
Qed.

(** A value that already has [s] decimals is left as it is. *)
Lemma ROUND_idempotent (x : Q) (s : nat) : ROUND (ROUND x s) s = ROUND x s.
Proof.
  unfold ROUND at 1 3. f_equal.
  unfold ROUND.
  rewrite (round_half_away_comp _ _ (scaled_back _ s)).
  apply round_half_away_Z.
Qed.

(** [ROUND x s] is [x] when [x] times [10^s] is a whole number. *)
Lemma ROUND_exact (x : Q) (s : nat) (n : Z) :
  (x * inject_Z (10 ^ Z.of_nat s) == inject_Z n)%Q -> (ROUND x s == x)%Q.
Proof.
  intros H. unfold ROUND.
  rewrite (round_half_away_comp _ _ H), round_half_away_Z.
  pose proof (pow10_pos s) as Hp.
  assert (Hne : ~ (inject_Z (10 ^ Z.of_nat s) == 0)%Q).
  { unfold Qeq, inject_Z. simpl. lia. }
  apply (Qmult_inj_r _ _ _ Hne).
  rewrite scaled_back. symmetry. exact H.
Qed.

Lemma numeric_column_inr (column : string) (p s : nat) (x y : Q) :
  numeric_column column p s x = inr y -> y = ROUND x s.
Proof.
  unfold numeric_column. cbv zeta.
  destruct (Qle_bool _ _); [discriminate|].
  intros H. inversion H. reflexivity.
Qed.

Lemma numeric_column_null_inr (column : string) (p s : nat) (x : option Q) (y : Q) :
  numeric_column_null column p s x = inr (Some y) ->
  exists v, x = Some v /\ y = ROUND v s.
Proof.
  destruct x as [v|]; simpl; [|discriminate].
  destruct (numeric_column column p s v) as [?|w] eqn:E; simpl; [discriminate|].
  intros H. inversion H. subst w.
  exists v. split; [reflexivity|]. exact (numeric_column_inr _ _ _ _ _ E).
Qed.

End Rounding.

(** ** Creating a reservation: the inserted row *)

Section CreatedRow.

Import Pg Inv.

Variable LIMIT_1 : list venue_time_slot -> option venue_time_slot.
Variable numeric_div : Q -> Q -> Q.

Abbreviation calculate_venue_price := (Pg.calculate_venue_price LIMIT_1).
Abbreviation create_reservation := (Pg.create_reservation LIMIT_1 numeric_div).

Lemma calculate_venue_price_rounded db v d s dur bp :
  calculate_venue_price db v d s dur = inr (Some bp) -> exists x, bp = ROUND x 2.
Proof.
  unfold Pg.calculate_venue_price.
  destruct (find (active_venue v) (venues db)) as [ven|]; [|discriminate].
  cbv zeta. intros H. inversion H as [H1]; clear H.
  match type of H1 with ROUND_null ?fp 2 = _ => destruct fp as [x|] end;
    simpl in H1; [|discriminate].
  inversion H1. exists x. reflexivity.
Qed.

Lemma create_reservation_success db env u v ts d s e dur disc notes id db' :
  create_reservation db env u v ts d s e dur disc notes = Some (inr id, db') ->
  exists bp code rest,
    calculate_venue_price db v d s dur = inr bp
    /\ generate_reservation_code db (now_stamp env) (random_draws env) = Some (code, rest)
    /\ id = new_uuid env
    /\ insert_reservation db id code u v ts d s e dur bp disc
         (null_mul bp (Some (1 - numeric_div disc 100)%Q)) notes = inr db'.
Proof.
  unfold Pg.create_reservation.
  destruct (negb (existsb (active_venue v) (venues db))); [discriminate|].
  destruct (negb (existsb (slot_bookable ts v) (venue_time_slots db))); [discriminate|].
  destruct (negb (check_venue_availability db v d s e None)); [discriminate|].
  destruct (calculate_venue_price db v d s dur) as [?|bp]; [discriminate|].
  cbv zeta.
  destruct (generate_reservation_code db (now_stamp env) (random_draws env))
    as [[code rest]|]; [|discriminate].
  destruct (insert_reservation _ _ _ _ _ _ _ _ _ _ _ _ _ _) as [?|db1] eqn:E;
    [discriminate|].
  intros H. inversion H; subst.
  exists bp, code, rest. repeat split; try reflexivity. exact E.
Qed.

(** C3, as the code has it. When [create_reservation] succeeds, the table
    [reservations] is the old one followed by exactly one new row; the row
    carries the returned id and status pending; its base price is the
    price [calculate_venue_price] returned; and its total price is the base
    price times (1 - q), rounded to the two decimals of the column, where q
    is the quotient of the discount passed in by 100 as the numeric
    division returns it. When that quotient is exact and the product has no
    more than two decimals, the total is the base price times (1 - discount
    / 100) itself; a base price of 100000 with a discount of 10, whose
    quotient is exact, gives a total of 90000. *)
Theorem create_reservation_inserts_one_pending_row :
  forall db env u v ts d s e dur disc notes id db',
    create_reservation db env u v ts d s e dur disc notes = Some (inr id, db') ->
    exists row,
      db' = with_reservations db (reservations db ++ [row])
      /\ r_id row = id
      /\ r_status row = pending
      /\ calculate_venue_price db v d s dur = inr (Some (r_base_price row))
      /\ r_total_price row
         = ROUND (r_base_price row * (1 - numeric_div disc 100)) 2
      /\ (forall n : Z,
             (numeric_div disc 100 == disc / 100)%Q ->
             (r_base_price row * (1 - disc / 100) * inject_Z (10 ^ 2) == inject_Z n)%Q ->
             (r_total_price row == r_base_price row * (1 - disc / 100))%Q)
      /\ ((r_base_price row == 100000)%Q -> (disc == 10)%Q ->
          (numeric_div disc 100 == disc / 100)%Q ->
          (r_total_price row == 90000)%Q).
Proof.
  intros db env u v ts d s e dur disc notes id db' H.
  apply create_reservation_success in H.
  destruct H as [bp [code [rest [Hp [_ [Hid Hins]]]]]].
  apply insert_reservation_reservations in Hins.
  destruct Hins as (row & Hdb & Hrid & _ & _ & _ & _ & _ & _ & _ & Hst & _ & _ & _ & Hbp & Htp & _).
  apply numeric_column_null_inr in Hbp. destruct Hbp as [b [-> Hb]].
  simpl null_mul in Htp.
  apply numeric_column_null_inr in Htp. destruct Htp as [t [Ht Htp]].
  inversion Ht; subst t; clear Ht.
  destruct (calculate_venue_price_rounded _ _ _ _ _ _ Hp) as [x Hx].
  assert (Hbb : r_base_price row = b).
  { rewrite Hb, Hx. apply ROUND_idempotent. }
  assert (Htot : r_total_price row
                 = ROUND (r_base_price row * (1 - numeric_div disc 100)) 2).
  { rewrite Htp, Hbb. reflexivity. }
  exists row.
  split; [exact Hdb|].
  split; [exact Hrid|].
  split; [exact Hst|].
  split; [rewrite Hbb; exact Hp|].
  split; [exact Htot|].
  split.
  - intros n Hq Hn. rewrite Htot.
    assert (E : (r_base_price row * (1 - numeric_div disc 100)
                 == r_base_price row * (1 - disc / 100))%Q)
      by (rewrite Hq; reflexivity).
    rewrite (ROUND_comp _ _ 2 E). apply (ROUND_exact _ 2 n). exact Hn.
  - intros H1 H2 Hq. rewrite Htot.
    assert (E : (r_base_price row * (1 - numeric_div disc 100) == 90000)%Q).
    { rewrite Hq, H1, H2. reflexivity. }
    rewrite (ROUND_comp _ _ 2 E). reflexivity.
Qed.


End CreatedRow.

Section CreatedRowSample.

Import Pg Inv.


(** The theorem at work: on the sample venue priced 100000 an hour, a
    one-hour Tuesday booking with a discount of 10 inserts one pending row
    of base price 100000 and total price 90000. *)
Lemma create_reservation_inserts_one_pending_row_witness :
  exists db' row,
    Pg.create_reservation Sample.first_row Sample.exact_div
      (Sample.db 100000 None []) (Sample.env 9%N)
      1%N 1%N 1%N Sample.tuesday (Sample.oclock 10) (Sample.oclock 11)
      1%Q 10%Q None = Some (inr 9%N, db')
    /\ reservations db' = [row]
    /\ r_id row = 9%N
    /\ r_status row = pending
    /\ (r_base_price row == 100000)%Q
    /\ (r_total_price row == 90000)%Q.
Proof.
  destruct (create_reservation_inserts_one_pending_row
              Sample.first_row Sample.exact_div
              (Sample.db 100000 None []) (Sample.env 9%N) 1%N 1%N 1%N Sample.tuesday
              (Sample.oclock 10) (Sample.oclock 11) 1%Q 10%Q None 9%N
              _ eq_refl)
    as [row [Hdb [Hid [Hst [Hbp [_ [_ Hex]]]]]]].
  exists (with_reservations (Sample.db 100000 None [])
            (reservations (Sample.db 100000 None []) ++ [row])), row.
  split; [rewrite <- Hdb; reflexivity|].
  split; [reflexivity|].
  split; [exact Hid|].
  split; [exact Hst|].
  assert (Hb : (r_base_price row == 100000)%Q).
  { remember (Pg.calculate_venue_price _ _ _ _ _ _) as c eqn:Ec in Hbp.
    vm_compute in Ec. subst c. inversion Hbp as [Hq]. reflexivity. }
  split; [exact Hb|].
  apply Hex; [exact Hb|reflexivity|reflexivity].
Defined.

(** C3 as the spec words it fails where the product has a third decimal
    (the quotient 10 / 100 is exact):
    on a venue priced 100.01 an hour, a one-hour booking with a discount of
    10 is stored with base price 100.01 and total price 90.01, while
    100.01 * (1 - 10/100) is 90.009. *)
Lemma total_price_not_exact_product :
  exists db' row,
    Pg.create_reservation Sample.first_row Sample.exact_div
      (Sample.db (10001 # 100) None []) (Sample.env 9%N)
      1%N 1%N 1%N Sample.tuesday (Sample.oclock 10) (Sample.oclock 11)
      1%Q 10%Q None = Some (inr 9%N, db')
    /\ reservations db' = [row]
    /\ r_status row = pending
    /\ (r_base_price row == 10001 # 100)%Q
    /\ (r_discount_percentage row == 10)%Q
    /\ (r_total_price row == 9001 # 100)%Q
    /\ ~ (r_total_price row
          == r_base_price row * (1 - r_discount_percentage row / 100))%Q.
Proof.
  eexists. eexists.
  split; [vm_compute; reflexivity|].
  split; [reflexivity|].
  split; [reflexivity|].
  split; [reflexivity|].
  split; [reflexivity|].
  split; [reflexivity|].
  intros H. vm_compute in H. discriminate H.
Qed.

End CreatedRowSample.

(** ** Cancelling a reservation *)

Section Cancellation.

Import Pg Inv Cancel.

Lemma NoDup_map_In_eq {A B : Type} (f : A -> B) (l : list A) (x y : A) :
  NoDup (map f l) -> In x l -> In y l -> f x = f y -> x = y.
Proof.
  induction l as [|a l IH]; simpl; [intros _ []|].
  intros Hnd Hx Hy Hf. inversion Hnd as [|? ? Hnotin Hnd']; subst.
  destruct Hx as [->|Hx], Hy as [->|Hy].
  - reflexivity.
  - exfalso. apply Hnotin. rewrite Hf. apply in_map. exact Hy.
  - exfalso. apply Hnotin. rewrite <- Hf. apply in_map. exact Hx.
  - apply IH; assumption.
Qed.

Lemma map_ext_id {A : Type} (f : A -> A) (l : list A) :
  (forall x, In x l -> f x = x) -> map f l = l.
Proof.
  intros H. rewrite <- (map_id l) at 2. apply map_ext_in. exact H.
Qed.

Lemma role_is_staff_plus_iff (role : option user_role) :
  role_is_staff_plus role = true
  <-> role = Some staff \/ role = Some admin \/ role = Some superadmin.
Proof.
  destruct role as [[]|]; simpl; split; intros H; auto; try discriminate;
    destruct H as [H|[H|H]]; discriminate.
Qed.

Lemma reservation_exists_In (db : database) (r : reservation) :
  In r (reservations db) -> reservation_exists db (r_id r) = true.
Proof.
  intros H. unfold reservation_exists. apply existsb_exists.
  exists r. split; [exact H|apply N.eqb_refl].
Qed.

Lemma user_owns_reservation_iff (db : database) (r : reservation) (uid : uuid) :
  reservations_pkey db -> reservations_user_id_fkey db ->
  In r (reservations db) ->
  user_owns_reservation db (r_id r) uid = true
  <-> r_user_id r = uid \/ elevated db uid.
Proof.
  intros Hpk Hfk Hr. unfold user_owns_reservation. rewrite existsb_exists.
  split.
  - intros [x [Hx Hex]]. apply existsb_exists in Hex.
    destruct Hex as [p [Hp Hc]].
    rewrite !andb_true_iff, orb_true_iff, !N.eqb_eq, role_is_staff_plus_iff in Hc.
    destruct Hc as [[Hpid Hid] Hor].
    assert (x = r) by (apply (NoDup_map_In_eq r_id (reservations db)); assumption).
    subst x. destruct Hor as [Ho|Ho]; [left; exact Ho|].
    right. exists p. tauto.
  - intros H. exists r. split; [exact Hr|]. apply existsb_exists.
    destruct H as [Ho|[p [Hp [Hpid Hrole]]]].
    + destruct (Hfk r Hr) as [p [Hp Hpid]].
      exists p. split; [exact Hp|].
      rewrite !andb_true_iff, orb_true_iff, !N.eqb_eq. split; [split|].
      * congruence.
      * reflexivity.
      * left. exact Ho.
    + exists p. split; [exact Hp|].
      rewrite !andb_true_iff, orb_true_iff, !N.eqb_eq, role_is_staff_plus_iff.
      tauto.
Qed.

Lemma existsb_cancellable_iff (db : database) (r : reservation) :
  reservations_pkey db -> In r (reservations db) ->
  existsb (cancellable (r_id r)) (reservations db) = true <-> open r.
Proof.
  intros Hpk Hr. rewrite existsb_exists. unfold cancellable, open.
  split.
  - intros [x [Hx Hc]]. rewrite andb_true_iff, N.eqb_eq, status_blocks_iff in Hc.
    destruct Hc as [Hid Hs].
    assert (x = r) by (apply (NoDup_map_In_eq r_id (reservations db)); assumption).
    subst x. exact Hs.
  - intros H. exists r. split; [exact Hr|].
    rewrite andb_true_iff, N.eqb_eq, status_blocks_iff. tauto.
Qed.

Lemma update_is_cancel_row (db : database) (r : reservation) :
  reservations_pkey db -> In r (reservations db) -> open r ->
  map (fun x => if cancellable (r_id r) x then set_status cancelled x else x)
      (reservations db)
  = map (cancel_row (r_id r)) (reservations db).
Proof.
  intros Hpk Hr Ho. apply map_ext_in. intros x Hx.
  unfold cancellable, cancel_row.
  destruct (N.eqb (r_id x) (r_id r)) eqn:E; [|reflexivity].
  apply N.eqb_eq in E.
  assert (x = r) by (apply (NoDup_map_In_eq r_id (reservations db)); assumption).
  subst x. apply status_blocks_iff in Ho. rewrite Ho. reflexivity.
Qed.

Lemma update_changes_nothing (db : database) (r : reservation) :
  reservations_pkey db -> In r (reservations db) -> ~ open r ->
  map (fun x => if cancellable (r_id r) x then set_status cancelled x else x)
      (reservations db)
  = reservations db.
Proof.
  intros Hpk Hr Ho. apply map_ext_id. intros x Hx.
  destruct (cancellable (r_id r) x) eqn:E; [|reflexivity].
  exfalso. apply Ho. apply (existsb_cancellable_iff db r Hpk Hr).
  apply existsb_exists. exists x. tauto.
Qed.

Lemma with_reservations_same (db : database) :
  with_reservations db (reservations db) = db.
Proof. destruct db. reflexivity. Qed.

(** C8. For a reservation of the table (ids are the primary key, and every
    reservation's user has a profile), cancellation returns true exactly
    when the acting user owns the reservation or holds the role staff,
    admin or superadmin, and the reservation is pending or confirmed. It
    then sets that reservation's status to cancelled and changes nothing
    else. An authorised user cancelling a cancelled or completed
    reservation gets false back and the database is untouched; a user who
    neither owns the reservation nor holds an elevated role gets the
    'Unauthorized to cancel this reservation' error, the database again
    untouched. *)
Theorem cancel_reservation_outcomes :
  forall db r uid,
    reservations_pkey db -> reservations_user_id_fkey db ->
    In r (reservations db) ->
    (fst (cancel_reservation db (r_id r) uid) = inr true
     <-> (r_user_id r = uid \/ elevated db uid) /\ open r)
    /\ ((r_user_id r = uid \/ elevated db uid) -> open r ->
        cancel_reservation db (r_id r) uid
        = (inr true,
           with_reservations db (map (cancel_row (r_id r)) (reservations db)))
        /\ In (set_status cancelled r)
              (map (cancel_row (r_id r)) (reservations db))
        /\ r_status (set_status cancelled r) = cancelled)
    /\ ((r_user_id r = uid \/ elevated db uid) -> ~ open r ->
        cancel_reservation db (r_id r) uid = (inr false, db))
    /\ (~ (r_user_id r = uid \/ elevated db uid) ->
        cancel_reservation db (r_id r) uid = (inl Unauthorized, db)).
Proof.
  intros db r uid Hpk Hfk Hr.
  pose proof (reservation_exists_In db r Hr) as Hex.
  pose proof (user_owns_reservation_iff db r uid Hpk Hfk Hr) as Hown.
  pose proof (existsb_cancellable_iff db r Hpk Hr) as Hcan.
  assert (Hauth : (r_user_id r = uid \/ elevated db uid) -> open r ->
                  cancel_reservation db (r_id r) uid
                  = (inr true,
                     with_reservations db (map (cancel_row (r_id r)) (reservations db)))).
  { intros Ha Ho. unfold cancel_reservation. rewrite Hex.
    apply Hown in Ha. rewrite Ha. simpl negb. cbv iota zeta.
    pose proof Ho as Ho'. apply Hcan in Ho'. rewrite Ho'.
    rewrite (update_is_cancel_row db r Hpk Hr Ho). reflexivity. }
  assert (Hclosed : (r_user_id r = uid \/ elevated db uid) -> ~ open r ->
                    cancel_reservation db (r_id r) uid = (inr false, db)).
  { intros Ha Ho. unfold cancel_reservation. rewrite Hex.
    apply Hown in Ha. rewrite Ha. simpl negb. cbv iota zeta.
    destruct (existsb (cancellable (r_id r)) (reservations db)) eqn:E.
    - exfalso. apply Ho, Hcan. reflexivity.
    - rewrite (update_changes_nothing db r Hpk Hr Ho).
      change ((inr (A:=pg_error) false, with_reservations db (reservations db))
              = (inr (A:=pg_error) false, db)).
      rewrite with_reservations_same. reflexivity. }
  assert (Hunauth : ~ (r_user_id r = uid \/ elevated db uid) ->
                    cancel_reservation db (r_id r) uid = (inl Unauthorized, db)).
  { intros Ha. unfold cancel_reservation. rewrite Hex.
    destruct (user_owns_reservation db (r_id r) uid) eqn:E; [|reflexivity].
    exfalso. apply Ha, Hown. reflexivity. }
  split.
  { split.
    - intros H.
      destruct (user_owns_reservation db (r_id r) uid) eqn:Eo.
      + assert (Ha : r_user_id r = uid \/ elevated db uid) by (apply Hown; reflexivity).
        split; [exact Ha|].
        destruct (existsb (cancellable (r_id r)) (reservations db)) eqn:Ec.
        * apply Hcan. reflexivity.
        * assert (Ho : ~ open r).
          { intros Ho. apply Hcan in Ho. congruence. }
          rewrite (Hclosed Ha Ho) in H. simpl in H. discriminate.
      + assert (Ha : ~ (r_user_id r = uid \/ elevated db uid)).
        { intros Ha. apply Hown in Ha. congruence. }
        rewrite (Hunauth Ha) in H. simpl in H. discriminate.
    - intros [Ha Ho]. rewrite (Hauth Ha Ho). reflexivity. }
  split.
  { intros Ha Ho. split; [exact (Hauth Ha Ho)|]. split; [|reflexivity].
    apply in_map_iff. exists r. split; [|exact Hr].
    unfold cancel_row. rewrite N.eqb_refl. reflexivity. }
  split; [exact Hclosed|exact Hunauth].
Qed.

End Cancellation.

Section CancellationSample.

Import Pg Inv Cancel.

Lemma sample_ledger_pkey : reservations_pkey (Sample.db 100000 None Sample.ledger).
Proof.
  unfold reservations_pkey. simpl.
  constructor; [simpl; intros [H|[]]; discriminate|].
  constructor; [simpl; intros []|constructor].
Qed.

Lemma sample_ledger_fkey :
  reservations_user_id_fkey (Sample.db 100000 None Sample.ledger).
Proof.
  intros r Hr. exists (mk_profile 1%N (Some customer)).
  split; [left; reflexivity|].
  simpl in Hr. destruct Hr as [<-|[<-|[]]]; reflexivity.
Qed.

Lemma sample_not_elevated_2 : ~ elevated (Sample.db 100000 None Sample.ledger) 2%N.
Proof.
  intros [p [Hp [Hid Hrole]]]. simpl in Hp.
  destruct Hp as [<-|[<-|[<-|[]]]]; simpl in *;
    try discriminate; destruct Hrole as [H|[H|H]]; discriminate.
Qed.

(** The theorem at work on the sample ledger: the owner (user 1) cancels
    the pending booking, and is told false for the completed one, which
    stays as it is; user 2, a customer who owns neither, is refused. *)
Lemma cancel_reservation_outcomes_witness :
  cancel_reservation (Sample.db 100000 None Sample.ledger) 5%N 1%N
  = (inr true,
     Sample.db 100000 None
       [set_status cancelled Sample.pending_booking; Sample.completed_booking])
  /\ cancel_reservation (Sample.db 100000 None Sample.ledger) 6%N 1%N
     = (inr false, Sample.db 100000 None Sample.ledger)
  /\ cancel_reservation (Sample.db 100000 None Sample.ledger) 5%N 2%N
     = (inl Unauthorized, Sample.db 100000 None Sample.ledger).
Proof.
  split; [|split].
  - apply (cancel_reservation_outcomes _ Sample.pending_booking 1%N
             sample_ledger_pkey sample_ledger_fkey).
    + left. reflexivity.
    + left. reflexivity.
    + left. reflexivity.
  - apply (cancel_reservation_outcomes _ Sample.completed_booking 1%N
             sample_ledger_pkey sample_ledger_fkey).
    + right. left. reflexivity.
    + left. reflexivity.
    + intros [H|H]; discriminate.
  - apply (cancel_reservation_outcomes _ Sample.pending_booking 2%N
             sample_ledger_pkey sample_ledger_fkey).
    + left. reflexivity.
    + intros [H|H]; [discriminate|exact (sample_not_elevated_2 H)].
Defined.

End CancellationSample.

(** ** The stored duration *)

Section StoredDuration.

Import Pg Inv.


Variable LIMIT_1 : list venue_time_slot -> option venue_time_slot.
Variable numeric_div : Q -> Q -> Q.

Abbreviation calculate_venue_price := (Pg.calculate_venue_price LIMIT_1).
Abbreviation create_reservation := (Pg.create_reservation LIMIT_1 numeric_div).

Lemma onSubmit_inr getTime venues slots user data args :
  Client.onSubmit getTime venues slots user data = inr args ->
  Client.p_start_time args = Client.startTime data
  /\ Client.p_end_time args = Client.endTime data
  /\ Client.p_duration_hours args
     = Client.durationHours getTime (Client.startTime data) (Client.endTime data).
Proof.
  unfold Client.onSubmit.
  destruct (find _ venues); [|discriminate].
  destruct (find _ slots); [|discriminate].
  intros H. inversion H. simpl. repeat split.
Qed.

Lemma create_reservation_row_fields
    db env u v ts d s e dur disc notes id db' :
  create_reservation db env u v ts d s e dur disc notes = Some (inr id, db') ->
  exists row,
    db' = with_reservations db (reservations db ++ [row])
    /\ r_start_time row = s /\ r_end_time row = e /\ s < e
    /\ r_duration_hours row = ROUND dur 1
    /\ calculate_venue_price db v d s dur = inr (Some (r_base_price row)).
Proof.
  intros H.
  apply create_reservation_success in H.
  destruct H as [bp [code [rest [Hp [_ [Hid Hins]]]]]].
  apply insert_reservation_reservations in Hins.
  destruct Hins as (row & Hdb & _ & _ & _ & _ & _ & _ & Hs & He & _ & _ & Hdur
                    & _ & Hbp & _ & Hlt & _).
  apply numeric_column_inr in Hdur.
  apply numeric_column_null_inr in Hbp. destruct Hbp as [b [-> Hb]].
  destruct (calculate_venue_price_rounded _ _ _ _ _ _ _ Hp) as [x Hx].
  exists row. repeat split; try assumption.
  rewrite Hb, Hx, ROUND_idempotent, <- Hx. exact Hp.
Qed.

(** C9, as the code has it. The duration [create_reservation] stores is
    its argument [p_duration_hours] rounded to the one decimal of the
    column, and the base price it stores is the price of that many hours;
    the function stores the start and end times it was given, with start
    before end, and does not relate the duration to them. The booking form,
    the caller in this repository, passes as duration the difference of
    the submitted end and start times in hours. *)
Theorem created_duration_is_the_argument :
  (forall db env u v ts d s e dur disc notes id db',
      create_reservation db env u v ts d s e dur disc notes = Some (inr id, db') ->
      exists row,
        reservations db' = reservations db ++ [row]
        /\ r_start_time row = s /\ r_end_time row = e /\ s < e
        /\ r_duration_hours row = ROUND dur 1
        /\ calculate_venue_price db v d s dur = inr (Some (r_base_price row)))
  /\ (forall getTime venues slots user data args,
         Client.onSubmit getTime venues slots user data = inr args ->
         Client.p_start_time args = Client.startTime data
         /\ Client.p_end_time args = Client.endTime data
         /\ Client.p_duration_hours args
            = Client.durationHours getTime (Client.startTime data) (Client.endTime data))
  /\ (forall getTime startTime endTime (start end_ : Q),
         getTime ("2000-01-01T" ++ startTime)%string = Some start ->
         getTime ("2000-01-01T" ++ endTime)%string = Some end_ ->
         Client.durationHours getTime startTime endTime
         = Some ((end_ - start) / (1000 * 60 * 60))%Q).
Proof.
  split; [|split].
  - intros db env u v ts d s e dur disc notes id db' H.
    destruct (create_reservation_row_fields
                db env u v ts d s e dur disc notes id db' H)
      as (row & Hdb & Hs & He & Hlt & Hdur & Hbp).
    exists row. subst db'. repeat split; assumption.
  - exact onSubmit_inr.
  - intros getTime startTime endTime start end_ Hs He.
    unfold Client.durationHours. rewrite Hs, He. reflexivity.
Qed.

End StoredDuration.

Section StoredDurationSample.

Import Pg Inv.

(** C9 as the spec words it fails: asked to book 10:00 to 11:00 with a
    duration of 5, [create_reservation] stores a reservation from 10:00 to
    11:00 with a duration of 5 hours and the price of 5 hours. *)
Lemma stored_duration_not_derived :
  exists db' row,
    Pg.create_reservation Sample.first_row Sample.exact_div
      (Sample.db 100000 None []) (Sample.env 9%N)
      1%N 1%N 1%N Sample.tuesday (Sample.oclock 10) (Sample.oclock 11)
      5%Q 0%Q None = Some (inr 9%N, db')
    /\ reservations db' = [row]
    /\ r_start_time row = Sample.oclock 10
    /\ r_end_time row = Sample.oclock 11
    /\ (r_duration_hours row == 5)%Q
    /\ ~ (r_duration_hours row
          == inject_Z (r_end_time row - r_start_time row) / 3600)%Q
    /\ (r_base_price row == 500000)%Q.
Proof.
  eexists. eexists.
  split; [vm_compute; reflexivity|].
  repeat (split; [reflexivity|]).
  split; [|reflexivity].
  intros H. vm_compute in H. discriminate H.
Qed.

End StoredDurationSample.

(** ** Reservation codes *)

Section ReservationCodes.

Import Pg Inv Seq.


Variable LIMIT_1 : list venue_time_slot -> option venue_time_slot.
Variable numeric_div : Q -> Q -> Q.

Abbreviation calculate_venue_price := (Pg.calculate_venue_price LIMIT_1).
Abbreviation create_reservation := (Pg.create_reservation LIMIT_1 numeric_div).
Abbreviation creations := (Seq.creations LIMIT_1 numeric_div).

Lemma code_exists_iff (db : database) (code : string) :
  code_exists db code = true <-> In code (stored_codes db).
Proof.
  unfold code_exists, stored_codes.
  induction (reservations db) as [|r l IH]; simpl.
  - split; [discriminate|intros []].
  - destruct (String.eqb (r_reservation_code r) code) eqn:E; simpl.
    + apply String.eqb_eq in E. split; [intros _; left; exact E|reflexivity].
    + apply String.eqb_neq in E. rewrite IH. split; [intros H; right; exact H|].
      intros [H|H]; [contradiction|exact H].
Qed.

Lemma code_exists_false_iff (db : database) (code : string) :
  code_exists db code = false <-> ~ In code (stored_codes db).
Proof.
  rewrite <- code_exists_iff. destruct (code_exists db code).
  - split; [discriminate|intros H; exfalso; apply H; reflexivity].
  - split; [intros _ H; discriminate|reflexivity].
Qed.

Lemma generate_reservation_code_result db stamp draws code rest :
  generate_reservation_code db stamp draws = Some (code, rest) ->
  exists taken draw,
    draws = taken ++ draw :: rest
    /\ code = candidate_code stamp draw
    /\ (forall t, In t taken -> In (candidate_code stamp t) (stored_codes db))
    /\ ~ In code (stored_codes db).
Proof.
  induction draws as [|d l IH]; simpl; [discriminate|].
  destruct (code_exists db (candidate_code stamp d)) eqn:E.
  - intros H. destruct (IH H) as (taken & draw & Hl & Hc & Ht & Hn).
    exists (d :: taken), draw. subst l. repeat split; try assumption.
    intros t [<-|Hin]; [apply code_exists_iff; exact E|apply Ht; exact Hin].
  - intros H. inversion H; subst. exists [], d.
    repeat split; [intros t []|apply code_exists_false_iff; exact E].
Qed.

Lemma generate_reservation_code_retries db stamp taken draw rest :
  (forall t, In t taken -> In (candidate_code stamp t) (stored_codes db)) ->
  ~ In (candidate_code stamp draw) (stored_codes db) ->
  generate_reservation_code db stamp (taken ++ draw :: rest)
  = Some (candidate_code stamp draw, rest).
Proof.
  induction taken as [|t l IH]; simpl; intros Ht Hd.
  - apply code_exists_false_iff in Hd. rewrite Hd. reflexivity.
  - assert (E : code_exists db (candidate_code stamp t) = true).
    { apply code_exists_iff, Ht. left. reflexivity. }
    rewrite E. apply IH; [|exact Hd].
    intros x Hx. apply Ht. right. exact Hx.
Qed.

Lemma create_reservation_keeps_code_key db env u v ts d s e dur disc notes id db' :
  reservation_code_key db ->
  create_reservation db env u v ts d s e dur disc notes = Some (inr id, db') ->
  reservation_code_key db'
  /\ exists code, stored_codes db' = stored_codes db ++ [code]
                  /\ ~ In code (stored_codes db).
Proof.
  intros Hk H.
  apply create_reservation_success in H.
  destruct H as (bp & code & rest & _ & Hg & _ & Hins).
  apply insert_reservation_reservations in Hins.
  destruct Hins as (row & Hdb & _ & Hcode & _).
  apply generate_reservation_code_result in Hg.
  destruct Hg as (_ & _ & _ & _ & _ & Hfresh).
  assert (Hs : stored_codes db' = stored_codes db ++ [code]).
  { subst db'. unfold stored_codes, with_reservations. simpl.
    rewrite map_app. simpl. rewrite Hcode. reflexivity. }
  split; [|exists code; split; assumption].
  unfold reservation_code_key. fold (stored_codes db'). rewrite Hs.
  apply NoDup_app; [exact Hk|constructor; [intros []|constructor]|].
  intros x Hx [<-|[]]. exact (Hfresh Hx).
Qed.

Lemma creations_keep_code_key db db' :
  reservation_code_key db -> creations db db' -> reservation_code_key db'.
Proof.
  intros Hk Hc. induction Hc as [|db db' db'' env u v ts d s e dur disc notes id Hc IH H].
  - exact Hk.
  - exact (proj1 (create_reservation_keeps_code_key _ _ _ _ _ _ _ _ _ _ _ _ _
                    (IH Hk) H)).
Qed.

(** C4, as the code has it. [generate_reservation_code] returns 'OSC',
    then the date stamp, then a drawn number below 10000 as four digits;
    it draws again for as long as the candidate is the code of a stored
    reservation and returns the first candidate that is not, so the code
    it returns is the code of no stored reservation. As [create_reservation]
    stores each code it generates, reservations created one after another
    never share a code. *)
Theorem generated_code_is_not_stored :
  (forall db stamp draws code rest,
      generate_reservation_code db stamp draws = Some (code, rest) ->
      (exists draw, In draw draws
         /\ code = ("OSC" ++ stamp ++ LPAD (TEXT_of_N draw) 4 "0")%string)
      /\ ~ In code (stored_codes db))
  /\ (forall db stamp taken draw rest,
         (forall t, In t taken -> In (candidate_code stamp t) (stored_codes db)) ->
         ~ In (candidate_code stamp draw) (stored_codes db) ->
         generate_reservation_code db stamp (taken ++ draw :: rest)
         = Some (candidate_code stamp draw, rest))
  /\ (forall db env u v ts d s e dur disc notes id db',
         create_reservation db env u v ts d s e dur disc notes = Some (inr id, db') ->
         exists code, stored_codes db' = stored_codes db ++ [code]
                      /\ ~ In code (stored_codes db))
  /\ (forall db db',
         NoDup (stored_codes db) -> creations db db' -> NoDup (stored_codes db')).
Proof.
  split; [|split; [|split]].
  - intros db stamp draws code rest H.
    apply generate_reservation_code_result in H.
    destruct H as (taken & draw & Hl & Hc & _ & Hn).
    split; [|exact Hn].
    exists draw. split; [|exact Hc].
    subst draws. apply in_or_app. right. left. reflexivity.
  - exact generate_reservation_code_retries.
  - intros db env u v ts d s e dur disc notes id db' H.
    apply create_reservation_success in H.
    destruct H as (bp & code & rest & _ & Hg & _ & Hins).
    apply insert_reservation_reservations in Hins.
    destruct Hins as (row & Hdb & _ & Hcode & _).
    apply generate_reservation_code_result in Hg.
    destruct Hg as (_ & _ & _ & _ & _ & Hfresh).
    exists code. split; [|exact Hfresh].
    subst db'. unfold stored_codes, with_reservations. simpl.
    rewrite map_app. simpl. rewrite Hcode. reflexivity.
  - exact creations_keep_code_key.
Qed.

(** C4 as the spec words it fails: two codes generated one after the
    other, with nothing stored in between and the same number drawn, are
    the same code. *)
Lemma generated_codes_repeat :
  generate_reservation_code (Sample.db 100000 None []) "20240101" [42; 42; 7]%N
  = Some ("OSC202401010042"%string, [42; 7]%N)
  /\ generate_reservation_code (Sample.db 100000 None []) "20240101" [42; 7]%N
     = Some ("OSC202401010042"%string, [7]%N).
Proof. split; reflexivity. Qed.

(** The helper of [lib/pricing.ts] reads no stored code at all: its result
    is a function of the clock and of the random string only. *)
Example generateReservationCode_run :
  Client.generateReservationCode 1704067200123 "0.k3f9zq" = "OSC200123K3F"%string.
Proof. reflexivity. Qed.

End ReservationCodes.

(** ** The price: the venue's rate by day class *)

Section DayClassRate.

Import Pg.

Variable LIMIT_1 : list venue_time_slot -> option venue_time_slot.

Abbreviation select_time_multiplier := (Pg.select_time_multiplier LIMIT_1).
Abbreviation calculate_venue_price := (Pg.calculate_venue_price LIMIT_1).

Lemma is_weekend_iff (d : date) :
  is_weekend d = true <-> EXTRACT_DOW d = 6 \/ EXTRACT_DOW d = 0.
Proof.
  unfold is_weekend. rewrite orb_true_iff, !Z.eqb_eq. tauto.
Qed.

Lemma calculate_venue_price_formula db v d s dur ven :
  find (active_venue v) (venues db) = Some ven ->
  calculate_venue_price db v d s dur
  = inr (ROUND_null
           (null_mul
              (null_mul
                 (Some (Rule.day_class_rate (is_weekend d) (v_base_price ven)
                          (v_weekend_price ven)))
                 (select_time_multiplier db v s))
              (Some dur)) 2).
Proof.
  intros H. unfold Pg.calculate_venue_price. rewrite H. cbv zeta.
  unfold Rule.day_class_rate.
  destruct (is_weekend d), (v_weekend_price ven); reflexivity.
Qed.

Lemma limit_1_singleton (x : venue_time_slot) :
  limit_1_spec LIMIT_1 -> LIMIT_1 [x] = Some x.
Proof.
  intros H. specialize (H [x]). destruct (LIMIT_1 [x]) as [y|].
  - destruct H as [->|[]]. reflexivity.
  - discriminate H.
Qed.

Lemma select_time_multiplier_one db v s vts :
  limit_1_spec LIMIT_1 ->
  filter (slot_covers v s) (venue_time_slots db) = [vts] ->
  select_time_multiplier db v s = Some (COALESCE (ts_price_multiplier vts) 1).
Proof.
  intros H E. unfold Pg.select_time_multiplier.
  rewrite E, (limit_1_singleton _ H). reflexivity.
Qed.

Lemma form_calculatePrice_formula getTime getDay fl_mul fl_div
    venues slots values venue slot :
  Client.nonempty (Client.venueId values) = true ->
  Client.nonempty (Client.startTime values) = true ->
  Client.nonempty (Client.endTime values) = true ->
  Client.nonempty (Client.date values) = true ->
  find (fun v => String.eqb (Client.vn_id v) (Client.venueId values)) venues
  = Some venue ->
  find (fun sl => String.eqb (Client.sl_start_time sl) (Client.startTime values)) slots
  = Some slot ->
  Client.form_calculatePrice getTime getDay fl_mul fl_div venues slots values
  = Client.Math_round
      (Client.fmul fl_mul
         (Client.fmul fl_mul
            (if Client.day_isWeekend (getDay (Client.date values))
                && Client.truthy (Client.vn_weekend_price venue)
             then Client.vn_weekend_price venue
             else Some (Client.vn_base_price venue))
            (Some (if Client.day_isWeekend (getDay (Client.date values))
                   then Client.or_else (Client.sl_price_weekend slot) 1
                   else Client.or_else (Client.sl_price_weekday slot) 1)))
         (Client.fdiv fl_div
            (Client.num_sub
               (getTime ("2000-01-01T" ++ Client.endTime values)%string)
               (getTime ("2000-01-01T" ++ Client.startTime values)%string))
            (Some (1000 * 60 * 60)%Q))).
Proof.
  intros H1 H2 H3 H4 Hv Hs. unfold Client.form_calculatePrice.
  rewrite H1, H2, H3, H4, Hv, Hs. reflexivity.
Qed.

(** C5. The price calculation takes the venue's rate by day class. In
    [calculate_venue_price] the date is a weekend when its day of week is
    Saturday (6) or Sunday (0), and the rate is the weekend price on a
    weekend when that price is not NULL, the base (weekday) price
    otherwise. The booking form's [calculatePrice] takes the same rate,
    where a weekend price counts as set when it is neither null nor 0.
    With weekend price 200000, weekday price 150000 and a slot of
    multiplier 1.0, one hour on a Saturday is priced 200000 and on a
    Tuesday 150000, by both: by the database function whichever covering
    row its query returns, the sample having one, and by the form in
    double arithmetic, which is exact on these numbers. *)
Theorem base_rate_by_day_class :
  (forall d, is_weekend d = true <-> EXTRACT_DOW d = 6 \/ EXTRACT_DOW d = 0)
  /\ (forall db v d s dur ven,
         find (active_venue v) (venues db) = Some ven ->
         calculate_venue_price db v d s dur
         = inr (ROUND_null
                  (null_mul
                     (null_mul
                        (Some (Rule.day_class_rate (is_weekend d) (v_base_price ven)
                                 (v_weekend_price ven)))
                        (select_time_multiplier db v s))
                     (Some dur)) 2))
  /\ (limit_1_spec LIMIT_1 ->
      EXTRACT_DOW Sample.saturday = 6
      /\ exists p,
           calculate_venue_price (Sample.db 150000 (Some 200000%Q) []) 1%N
             Sample.saturday (Sample.oclock 10) 1 = inr (Some p)
           /\ (p == 200000)%Q)
  /\ (limit_1_spec LIMIT_1 ->
      EXTRACT_DOW Sample.tuesday = 2
      /\ exists p,
           calculate_venue_price (Sample.db 150000 (Some 200000%Q) []) 1%N
             Sample.tuesday (Sample.oclock 10) 1 = inr (Some p)
           /\ (p == 150000)%Q)
  /\ (forall getTime getDay fl_mul fl_div venues slots values venue slot,
         Client.nonempty (Client.venueId values) = true ->
         Client.nonempty (Client.startTime values) = true ->
         Client.nonempty (Client.endTime values) = true ->
         Client.nonempty (Client.date values) = true ->
         find (fun v => String.eqb (Client.vn_id v) (Client.venueId values)) venues
         = Some venue ->
         find (fun sl => String.eqb (Client.sl_start_time sl) (Client.startTime values))
              slots = Some slot ->
         Client.vn_weekend_price venue = None
         \/ Client.truthy (Client.vn_weekend_price venue) = true ->
         Client.form_calculatePrice getTime getDay fl_mul fl_div venues slots values
         = Client.Math_round
             (Client.fmul fl_mul
                (Client.fmul fl_mul
                   (Some (Rule.day_class_rate
                            (Client.day_isWeekend (getDay (Client.date values)))
                            (Client.vn_base_price venue)
                            (Client.vn_weekend_price venue)))
                   (Some (if Client.day_isWeekend (getDay (Client.date values))
                          then Client.or_else (Client.sl_price_weekend slot) 1
                          else Client.or_else (Client.sl_price_weekday slot) 1)))
                (Client.fdiv fl_div
                   (Client.num_sub
                      (getTime ("2000-01-01T" ++ Client.endTime values)%string)
                      (getTime ("2000-01-01T" ++ Client.startTime values)%string))
                   (Some (1000 * 60 * 60)%Q))))
  /\ Client.form_calculatePrice SampleClient.getTime SampleClient.getDay
       SampleClient.fl_mul SampleClient.fl_div
       [SampleClient.venue 150000 (Some 200000%Q)] SampleClient.slots
       (SampleClient.form "2024-01-06" "10:00:00" "11:00:00") = Some 200000%Q
  /\ Client.form_calculatePrice SampleClient.getTime SampleClient.getDay
       SampleClient.fl_mul SampleClient.fl_div
       [SampleClient.venue 150000 (Some 200000%Q)] SampleClient.slots
       (SampleClient.form "2024-01-02" "10:00:00" "11:00:00") = Some 150000%Q.
Proof.
  split; [exact is_weekend_iff|].
  split; [exact calculate_venue_price_formula|].
  split.
  { intros HL. split; [reflexivity|].
    rewrite (calculate_venue_price_formula
               (Sample.db 150000 (Some 200000%Q) []) 1%N Sample.saturday
               (Sample.oclock 10) 1
               (mk_venue 1%N 150000 (Some 200000%Q) true) eq_refl).
    rewrite (select_time_multiplier_one
               (Sample.db 150000 (Some 200000%Q) []) 1%N (Sample.oclock 10)
               (mk_venue_time_slot 1%N 1%N (Sample.oclock 10) (Sample.oclock 11)
                  true (Some 1%Q)) HL eq_refl).
    eexists. split; [vm_compute; reflexivity|reflexivity]. }
  split.
  { intros HL. split; [reflexivity|].
    rewrite (calculate_venue_price_formula
               (Sample.db 150000 (Some 200000%Q) []) 1%N Sample.tuesday
               (Sample.oclock 10) 1
               (mk_venue 1%N 150000 (Some 200000%Q) true) eq_refl).
    rewrite (select_time_multiplier_one
               (Sample.db 150000 (Some 200000%Q) []) 1%N (Sample.oclock 10)
               (mk_venue_time_slot 1%N 1%N (Sample.oclock 10) (Sample.oclock 11)
                  true (Some 1%Q)) HL eq_refl).
    eexists. split; [vm_compute; reflexivity|reflexivity]. }
  split.
  { intros getTime getDay fl_mul fl_div venues slots values venue slot
           H1 H2 H3 H4 Hv Hs Hw.
    rewrite (form_calculatePrice_formula _ _ _ _ _ _ _ _ _ H1 H2 H3 H4 Hv Hs).
    unfold Rule.day_class_rate.
    destruct (Client.day_isWeekend (getDay (Client.date values))); [|reflexivity].
    destruct Hw as [Hw|Hw]; rewrite Hw; [reflexivity|].
    destruct (Client.vn_weekend_price venue); [reflexivity|discriminate]. }
  split; vm_compute; reflexivity.
Qed.

End DayClassRate.

(** The booking form and the database function part ways on a weekend
    price of 0 (which the venue editor never stores: it saves 0 as null):
    the form falls back to the weekday price, the database function
    charges 0. *)
Example weekend_price_zero :
  Client.form_calculatePrice SampleClient.getTime SampleClient.getDay
    SampleClient.fl_mul SampleClient.fl_div
    [SampleClient.venue 150000 (Some 0%Q)] SampleClient.slots
    (SampleClient.form "2024-01-06" "10:00:00" "11:00:00") = Some 150000%Q
  /\ Pg.calculate_venue_price Sample.first_row (Sample.db 150000 (Some 0%Q) []) 1%N
       Sample.saturday (Sample.oclock 10) 1 = inr (Some (0 # 100)).
Proof. split; vm_compute; reflexivity. Qed.

(** ** The price: rate, multiplier, hours, rounding *)

Section PriceFormula.

Import Pg.

Variable LIMIT_1 : list venue_time_slot -> option venue_time_slot.

Abbreviation select_time_multiplier := (Pg.select_time_multiplier LIMIT_1).
Abbreviation calculate_venue_price := (Pg.calculate_venue_price LIMIT_1).

Lemma find_filter_nonempty {A : Type} (f g : A -> bool) (l : list A) (x : A) :
  find f (filter g l) = Some x -> filter g l <> [].
Proof. destruct (filter g l); [discriminate|intros _; discriminate]. Qed.

Lemma pricing_calculatePrice_found getTime fl_mul fl_div fl_sub
    table venueId day st et disc slot :
  find (Client.slot_applies getTime
          (getTime ("2000-01-01T" ++ st ++ ":00")%string)
          (getTime ("2000-01-01T" ++ et ++ ":00")%string))
       (filter (fun sl => String.eqb (Client.sl_venue_id sl) venueId
                          && Client.sl_is_active sl) table) = Some slot ->
  Client.pricing_calculatePrice getTime fl_mul fl_div fl_sub None
    table venueId day st et disc
  = inr (let duration :=
           Client.fdiv fl_div
             (Client.num_sub (getTime ("2000-01-01T" ++ et ++ ":00")%string)
                             (getTime ("2000-01-01T" ++ st ++ ":00")%string))
             (Some (1000 * 60)%Q) in
         let hourlyRate :=
           if Client.day_isWeekend day
           then Client.or_else (Client.sl_price_weekend slot) 0
           else Client.or_else (Client.sl_price_weekday slot) 0 in
         let basePrice :=
           Client.fdiv fl_div (Client.fmul fl_mul (Some hourlyRate) duration)
             (Some 60%Q) in
         let discountAmount :=
           Client.fdiv fl_div (Client.fmul fl_mul basePrice (Some disc))
             (Some 100%Q) in
         {| Client.basePrice := Client.Math_round basePrice;
            Client.discountAmount := Client.Math_round discountAmount;
            Client.totalPrice :=
              Client.Math_round (Client.fsub fl_sub basePrice discountAmount);
            Client.duration := duration;
            Client.isWeekend := Client.day_isWeekend day |}).
Proof.
  intros H. unfold Client.pricing_calculatePrice. cbv zeta.
  pose proof (find_filter_nonempty _ _ _ _ H) as Hne.
  rewrite H.
  destruct (filter _ table); [contradiction|reflexivity].
Qed.

Lemma whole_units_comp (x y : Q) :
  (x == y)%Q -> Rule.whole_units x = Rule.whole_units y.
Proof.
  intros H. unfold Rule.whole_units. f_equal. apply Qfloor_comp.
  rewrite H. reflexivity.
Qed.

(** C6, as the code has it. [calculate_venue_price], for the covering slot
    its query returned, gives rate times the slot's one multiplier (the
    same on every day of the week, 1.0 when NULL) times the hours, rounded
    to two decimals. The booking form's [calculatePrice] gives rate times
    the start slot's multiplier for the day class (weekday or weekend, 1
    when missing or 0) times the hours, each operation on doubles, rounded
    to whole units by [Math.round]; where the operations are exact, that
    is the product of the three rounded to whole units. The
    [calculatePrice] of [lib/pricing.ts], when its query succeeds, gives as
    base price the slot's own price for the day class (0 when missing)
    times the minutes over 60, on doubles, rounded to whole units; where
    the operations are exact, that is the product rounded to whole units. *)
Theorem price_formulas :
  (forall db v d s dur ven vts,
      find (active_venue v) (venues db) = Some ven ->
      LIMIT_1 (filter (slot_covers v s) (venue_time_slots db)) = Some vts ->
      calculate_venue_price db v d s dur
      = inr (Some (ROUND (Rule.hourly_price
                            (Rule.day_class_rate (is_weekend d) (v_base_price ven)
                               (v_weekend_price ven))
                            (COALESCE (ts_price_multiplier vts) 1)
                            dur) 2)))
  /\ (forall getTime getDay fl_mul fl_div venues slots values venue slot
             (start end_ : Q),
         Client.nonempty (Client.venueId values) = true ->
         Client.nonempty (Client.startTime values) = true ->
         Client.nonempty (Client.endTime values) = true ->
         Client.nonempty (Client.date values) = true ->
         find (fun v => String.eqb (Client.vn_id v) (Client.venueId values)) venues
         = Some venue ->
         find (fun sl => String.eqb (Client.sl_start_time sl) (Client.startTime values))
              slots = Some slot ->
         Client.vn_weekend_price venue = None
         \/ Client.truthy (Client.vn_weekend_price venue) = true ->
         getTime ("2000-01-01T" ++ Client.startTime values)%string = Some start ->
         getTime ("2000-01-01T" ++ Client.endTime values)%string = Some end_ ->
         let rate :=
           Rule.day_class_rate
             (Client.day_isWeekend (getDay (Client.date values)))
             (Client.vn_base_price venue) (Client.vn_weekend_price venue) in
         let multiplier :=
           if Client.day_isWeekend (getDay (Client.date values))
           then Client.or_else (Client.sl_price_weekend slot) 1
           else Client.or_else (Client.sl_price_weekday slot) 1 in
         let hours := fl_div (end_ - start)%Q (1000 * 60 * 60)%Q in
         Client.form_calculatePrice getTime getDay fl_mul fl_div venues slots values
         = Some (Rule.whole_units (fl_mul (fl_mul rate multiplier) hours))
         /\ ((hours == (end_ - start) / (1000 * 60 * 60))%Q ->
             (fl_mul rate multiplier == rate * multiplier)%Q ->
             (fl_mul (fl_mul rate multiplier) hours
              == fl_mul rate multiplier * hours)%Q ->
             Client.form_calculatePrice getTime getDay fl_mul fl_div
               venues slots values
             = Some (Rule.whole_units
                       (Rule.hourly_price rate multiplier
                          ((end_ - start) / (1000 * 60 * 60))%Q))))
  /\ (forall getTime fl_mul fl_div fl_sub table venueId day st et disc
             slot (start end_ : Q),
         find (Client.slot_applies getTime
                 (getTime ("2000-01-01T" ++ st ++ ":00")%string)
                 (getTime ("2000-01-01T" ++ et ++ ":00")%string))
              (filter (fun sl => String.eqb (Client.sl_venue_id sl) venueId
                                 && Client.sl_is_active sl) table) = Some slot ->
         getTime ("2000-01-01T" ++ st ++ ":00")%string = Some start ->
         getTime ("2000-01-01T" ++ et ++ ":00")%string = Some end_ ->
         let hourlyRate :=
           if Client.day_isWeekend day
           then Client.or_else (Client.sl_price_weekend slot) 0
           else Client.or_else (Client.sl_price_weekday slot) 0 in
         let minutes := fl_div (end_ - start)%Q (1000 * 60)%Q in
         exists calc,
           Client.pricing_calculatePrice getTime fl_mul fl_div fl_sub None
             table venueId day st et disc = inr calc
           /\ Client.basePrice calc
              = Some (Rule.whole_units (fl_div (fl_mul hourlyRate minutes) 60%Q))
           /\ ((minutes == (end_ - start) / (1000 * 60))%Q ->
               (fl_mul hourlyRate minutes == hourlyRate * minutes)%Q ->
               (fl_div (fl_mul hourlyRate minutes) 60%Q
                == fl_mul hourlyRate minutes / 60)%Q ->
               Client.basePrice calc
               = Some (Rule.whole_units
                         (hourlyRate * ((end_ - start) / (1000 * 60)) / 60)%Q))).
Proof.
  split; [|split].
  - intros db v d s dur ven vts Hv Hs.
    rewrite (calculate_venue_price_formula _ _ _ _ _ _ _ Hv).
    unfold Pg.select_time_multiplier. rewrite Hs. reflexivity.
  - intros getTime getDay fl_mul fl_div venues slots values venue slot start end_
           H1 H2 H3 H4 Hv Hs Hw Hst Hen rate multiplier hours.
    assert (E : Client.form_calculatePrice getTime getDay fl_mul fl_div
                  venues slots values
                = Some (Rule.whole_units (fl_mul (fl_mul rate multiplier) hours))).
    { rewrite (form_calculatePrice_formula _ _ _ _ _ _ _ _ _ H1 H2 H3 H4 Hv Hs).
      rewrite Hst, Hen. subst rate multiplier hours.
      unfold Rule.day_class_rate.
      destruct (Client.day_isWeekend (getDay (Client.date values))); [|reflexivity].
      destruct Hw as [Hw|Hw]; rewrite Hw; [reflexivity|].
      destruct (Client.vn_weekend_price venue); [reflexivity|discriminate]. }
    split; [exact E|].
    intros Hh Hm Hp. rewrite E. f_equal. apply whole_units_comp.
    unfold Rule.hourly_price. rewrite Hp, Hm, Hh. reflexivity.
  - intros getTime fl_mul fl_div fl_sub table venueId day st et disc
           slot start end_ Hf Hs He hourlyRate minutes.
    eexists.
    split; [exact (pricing_calculatePrice_found _ _ _ _ _ _ _ _ _ _ _ Hf)|].
    cbv zeta. cbn [Client.basePrice]. rewrite Hs, He.
    split; [reflexivity|].
    intros Hm Hp Hd. cbn [Client.fdiv Client.fmul Client.num_sub Client.Math_round
                           option_map].
    f_equal. apply whole_units_comp.
    fold minutes. fold hourlyRate. rewrite Hd, Hp, Hm. reflexivity.
Qed.

End PriceFormula.

Section PriceFormulaSample.

Import Pg.

(** C6 as the spec words it fails: for a venue priced 99999 an hour and the
    11:00 slot of multiplier 1.3, the one slot of the sample that covers
    11:00, one hour is priced 129998.70 by [calculate_venue_price], not the
    whole number 129999. *)
Lemma database_price_keeps_decimals :
  exists p,
    Pg.calculate_venue_price Sample.first_row (Sample.db 99999 None []) 1%N
      Sample.tuesday (Sample.oclock 11) 1 = inr (Some p)
    /\ (p == 1299987 # 10)%Q
    /\ (Rule.whole_units (Rule.hourly_price 99999 (13 # 10) 1) == 129999)%Q
    /\ ~ (p == Rule.whole_units (Rule.hourly_price 99999 (13 # 10) 1))%Q.
Proof.
  eexists. split; [vm_compute; reflexivity|].
  split; [reflexivity|].
  split; [reflexivity|].
  intros H. vm_compute in H. discriminate H.
Qed.

End PriceFormulaSample.


(** ** The price: which slot, and what if none *)

Section SlotLookup.

Import Pg.

Variable LIMIT_1 : list venue_time_slot -> option venue_time_slot.

Abbreviation select_time_multiplier := (Pg.select_time_multiplier LIMIT_1).
Abbreviation calculate_venue_price := (Pg.calculate_venue_price LIMIT_1).


Lemma find_none_iff {A : Type} (f : A -> bool) (l : list A) :
  find f l = None <-> forall y, In y l -> f y = false.
Proof.
  induction l as [|a l IH]; simpl.
  - split; [intros _ y []|reflexivity].
  - destruct (f a) eqn:Fa.
    + split; [discriminate|]. intros H.
      rewrite (H a) in Fa by (left; reflexivity). discriminate.
    + rewrite IH. split.
      * intros H y [<-|Hy]; [exact Fa|exact (H y Hy)].
      * intros H y Hy. apply H. right. exact Hy.
Qed.



Lemma filter_nil_iff {A : Type} (f : A -> bool) (l : list A) :
  filter f l = [] <-> forall y, In y l -> f y = false.
Proof.
  induction l as [|a l IH]; simpl.
  - split; [intros _ y []|reflexivity].
  - destruct (f a) eqn:Fa.
    + split; [discriminate|]. intros H.
      rewrite (H a) in Fa by (left; reflexivity). discriminate.
    + rewrite IH. split.
      * intros H y [<-|Hy]; [exact Fa|exact (H y Hy)].
      * intros H y Hy. apply H. right. exact Hy.
Qed.


Lemma select_time_multiplier_none db v s :
  limit_1_spec LIMIT_1 ->
  select_time_multiplier db v s = None <->
  forall y, In y (venue_time_slots db) -> slot_covers v s y = false.
Proof.
  intros HL. unfold Pg.select_time_multiplier.
  specialize (HL (filter (slot_covers v s) (venue_time_slots db))).
  rewrite <- filter_nil_iff.
  destruct (LIMIT_1 _) as [vts|].
  - split; [discriminate|]. intros E. rewrite E in HL. destruct HL.
  - split; [intros _; exact HL|reflexivity].
Qed.

Lemma limit_1_spec_first_row : limit_1_spec Sample.first_row.
Proof. intros [|x l]; simpl; [reflexivity|left; reflexivity]. Qed.



End SlotLookup.

Section SlotLookupSample.

Import Pg.


End SlotLookupSample.


(** ** The booking form: a minimum of one hour *)

Section MinimumDuration.

Lemma durationHours_some getTime st et start end_ :
  getTime ("2000-01-01T" ++ st)%string = Some start ->
  getTime ("2000-01-01T" ++ et)%string = Some end_ ->
  Client.durationHours getTime st et = Some ((end_ - start) / (1000 * 60 * 60))%Q.
Proof.
  intros Hs He. unfold Client.durationHours. rewrite Hs, He. reflexivity.
Qed.

Lemma bookingSchema_true getTime data :
  Client.bookingSchema getTime data = true ->
  exists start end_,
    getTime ("2000-01-01T" ++ Client.startTime data)%string = Some start
    /\ getTime ("2000-01-01T" ++ Client.endTime data)%string = Some end_
    /\ (start < end_)%Q
    /\ (1 <= (end_ - start) / (1000 * 60 * 60))%Q.
Proof.
  unfold Client.bookingSchema. rewrite !andb_true_iff.
  intros [[[[_ _] Hs] He] Hr].
  unfold Client.bookingSchema_refine in Hr. rewrite Hs, He in Hr.
  cbv beta iota zeta delta [andb] in Hr.
  unfold Client.durationHours in Hr.
  destruct (getTime ("2000-01-01T" ++ Client.startTime data)%string) as [start|];
    [|discriminate Hr].
  destruct (getTime ("2000-01-01T" ++ Client.endTime data)%string) as [end_|];
    [|discriminate Hr].
  cbn [Client.num_lt Client.num_le Client.num_sub Client.num_div option_map] in Hr.
  destruct (negb (Qle_bool end_ start)) eqn:Hlt; [|discriminate Hr].
  rename Hr into Hle.
  exists start, end_. repeat split.
  - apply negb_true_iff in Hlt. apply Qnot_le_lt. intros H.
    apply Qle_bool_iff in H. congruence.
  - apply Qle_bool_iff. exact Hle.
Qed.

Lemma getEndTimeOptions_loop_In getTime res st seen rest e :
  In e (Client.getEndTimeOptions_loop getTime res st seen rest) ->
  Client.num_lt (Client.durationHours getTime st e) (Some 1%Q) = false
  /\ exists slot, In slot rest /\ Client.sl_end_time slot = e.
Proof.
  revert seen. induction rest as [|slot rest IH]; simpl; intros seen; [intros []|].
  destruct (Client.num_lt (Client.durationHours getTime st (Client.sl_end_time slot))
                          (Some 1%Q)) eqn:E.
  - intros H. destruct (IH _ H) as [H1 [sl [H2 H3]]].
    split; [exact H1|]. exists sl. tauto.
  - destruct (negb _); simpl; [|intros []].
    intros [<-|H].
    + split; [exact E|]. exists slot. tauto.
    + destruct (IH _ H) as [H1 [sl [H2 H3]]].
      split; [exact H1|]. exists sl. tauto.
Qed.

Lemma from_startIndex_incl slots st rest :
  Client.from_startIndex slots st = Some rest -> incl rest slots.
Proof.
  induction slots as [|a l IH]; simpl; [discriminate|].
  destruct (String.eqb (Client.sl_start_time a) st).
  - intros H. inversion H. apply incl_refl.
  - intros H. apply incl_tl. exact (IH H).
Qed.

(** C10. The booking form enforces a minimum duration of one hour. The
    schema accepts a submission only when both times are dates, the end is
    after the start and the end is at least one hour after the start; a
    submission of less than one hour is rejected, and a rejected
    submission never reaches [onSubmit], which makes the
    [create_reservation] call. Every end time [getEndTimeOptions] offers is
    the end time of a slot and, when both times are dates, is at least one
    hour after the chosen start time. *)
Theorem booking_form_minimum_one_hour :
  (forall getTime data,
      Client.bookingSchema getTime data = true ->
      exists start end_,
        getTime ("2000-01-01T" ++ Client.startTime data)%string = Some start
        /\ getTime ("2000-01-01T" ++ Client.endTime data)%string = Some end_
        /\ (start < end_)%Q
        /\ (1 <= (end_ - start) / (1000 * 60 * 60))%Q)
  /\ (forall getTime data start end_,
         getTime ("2000-01-01T" ++ Client.startTime data)%string = Some start ->
         getTime ("2000-01-01T" ++ Client.endTime data)%string = Some end_ ->
         ((end_ - start) / (1000 * 60 * 60) < 1)%Q ->
         Client.bookingSchema getTime data = false
         /\ forall venues slots user,
              Client.handleSubmit getTime venues slots user data = None)
  /\ (forall getTime venues slots user data call,
         Client.handleSubmit getTime venues slots user data = Some call ->
         Client.bookingSchema getTime data = true
         /\ call = Client.onSubmit getTime venues slots user data)
  /\ (forall getTime slots res st e,
         In e (Client.getEndTimeOptions getTime slots res st) ->
         (exists slot, In slot slots /\ Client.sl_end_time slot = e)
         /\ forall start end_,
              getTime ("2000-01-01T" ++ st)%string = Some start ->
              getTime ("2000-01-01T" ++ e)%string = Some end_ ->
              (1 <= (end_ - start) / (1000 * 60 * 60))%Q).
Proof.
  split; [exact bookingSchema_true|].
  split.
  { intros getTime data start end_ Hs He Hlt.
    assert (Hb : Client.bookingSchema getTime data = false).
    { destruct (Client.bookingSchema getTime data) eqn:E; [|reflexivity].
      apply bookingSchema_true in E.
      destruct E as (s' & e' & Hs' & He' & _ & Hle).
      rewrite Hs in Hs'. rewrite He in He'. inversion Hs'; inversion He'; subst.
      exfalso. exact (Qlt_not_le _ _ Hlt Hle). }
    split; [exact Hb|].
    intros venues slots user. unfold Client.handleSubmit. rewrite Hb. reflexivity. }
  split.
  { intros getTime venues slots user data call. unfold Client.handleSubmit.
    destruct (Client.bookingSchema getTime data); [|discriminate].
    intros H. inversion H. split; reflexivity. }
  intros getTime slots res st e. unfold Client.getEndTimeOptions.
  destruct (negb (Client.nonempty st)); [intros []|].
  destruct (Client.from_startIndex slots st) as [rest|] eqn:Ef; [|intros []].
  intros H. apply getEndTimeOptions_loop_In in H.
  destruct H as [Hd [slot [Hin Hend]]].
  split.
  - exists slot. split; [|exact Hend].
    exact (from_startIndex_incl _ _ _ Ef slot Hin).
  - intros start end_ Hs He.
    rewrite (durationHours_some _ _ _ _ _ Hs He) in Hd. simpl in Hd.
    apply negb_false_iff in Hd. apply Qle_bool_iff. exact Hd.
Qed.

(** On the sample slots: a half-hour submission is stopped by the schema,
    a one-hour submission goes through, and from 10:00 over half-hour
    slots the end times offered are 11:00 and 11:30, not 10:30. *)
Example booking_form_minimum_one_hour_sample :
  Client.handleSubmit SampleClient.getTime [SampleClient.venue 150000 None]
    SampleClient.half_hour_slots "u1"
    (SampleClient.form "2024-01-06" "10:00:00" "10:30:00") = None
  /\ Client.bookingSchema SampleClient.getTime
       (SampleClient.form "2024-01-06" "10:00:00" "11:00:00") = true
  /\ Client.getEndTimeOptions SampleClient.getTime SampleClient.half_hour_slots []
       "10:00:00" = ["11:00:00"; "11:30:00"]%string.
Proof. repeat split; vm_compute; reflexivity. Qed.

End MinimumDuration.

(** * Further properties *)

(** ** No double booking *)

Section NoDoubleBooking.

Import Pg Inv Pre More.

Section NoDoubleBookingDatastore.


Variable LIMIT_1 : list venue_time_slot -> option venue_time_slot.
Variable numeric_div : Q -> Q -> Q.

Abbreviation calculate_venue_price := (Pg.calculate_venue_price LIMIT_1).
Abbreviation create_reservation := (Pg.create_reservation LIMIT_1 numeric_div).

Lemma create_reservation_success_checks db env u v ts d s e dur disc notes id db' :
  create_reservation db env u v ts d s e dur disc notes = Some (inr id, db') ->
  venue_exists_active db v /\ slot_exists_available db ts v
  /\ check_venue_availability db v d s e None = true.
Proof.
  unfold Pg.create_reservation.
  destruct (existsb (active_venue v) (venues db)) eqn:Ev; [|discriminate].
  destruct (existsb (slot_bookable ts v) (venue_time_slots db)) eqn:Es; [|discriminate].
  destruct (check_venue_availability db v d s e None) eqn:Ec; [|discriminate].
  intros _. split; [apply existsb_active_venue; exact Ev|].
  split; [apply existsb_slot_bookable; exact Es|reflexivity].
Qed.

Lemma insert_reservation_user db id code u v ts d s e dur bp disc tp notes db' :
  insert_reservation db id code u v ts d s e dur bp disc tp notes = inr db' ->
  exists p, In p (profiles db) /\ p_id p = u.
Proof.
  unfold insert_reservation.
  destruct (Nat.leb _ 20); [|discriminate].
  destruct (numeric_column "duration_hours" 3 1 dur); [discriminate|]. simpl bind.
  destruct (numeric_column_null "base_price" 10 2 bp) as [?|[?|]];
    try discriminate; simpl bind.
  2:{ destruct (numeric_column "discount_percentage" 5 2 disc); simpl; try discriminate.
      destruct (numeric_column_null "total_price" 10 2 tp); simpl; discriminate. }
  destruct (numeric_column "discount_percentage" 5 2 disc); [discriminate|]. simpl bind.
  destruct (numeric_column_null "total_price" 10 2 tp) as [?|[?|]];
    try discriminate; simpl bind.
  destruct (valid_discount _); [|discriminate].
  destruct (s <? e); [|discriminate].
  destruct (existsb (fun r => N.eqb (r_id r) id) (reservations db));
    [discriminate|]. simpl negb. cbv iota.
  destruct (code_exists db code); [discriminate|]. simpl negb. cbv iota.
  destruct (existsb (fun p => N.eqb (p_id p) u) (profiles db)) eqn:Ep; [|discriminate].
  intros _. apply existsb_exists in Ep. destruct Ep as [p [Hp Hpid]].
  exists p. split; [exact Hp|apply N.eqb_eq; exact Hpid].
Qed.

Lemma create_reservation_new_row db env u v ts d s e dur disc notes id db' :
  create_reservation db env u v ts d s e dur disc notes = Some (inr id, db') ->
  exists row,
    db' = with_reservations db (reservations db ++ [row])
    /\ r_id row = id /\ r_user_id row = u /\ r_venue_id row = v
    /\ r_reservation_date row = d /\ r_start_time row = s /\ r_end_time row = e
    /\ r_status row = pending
    /\ s < e /\ valid_discount (r_discount_percentage row) = true
    /\ ~ In id (map r_id (reservations db))
    /\ ~ In (r_reservation_code row) (Seq.stored_codes db)
    /\ (exists p, In p (profiles db) /\ p_id p = u).
Proof.
  intros H. apply create_reservation_success in H.
  destruct H as (bp & code & rest & _ & Hg & Hid & Hins).
  pose proof Hins as Hins'.
  apply insert_reservation_reservations in Hins.
  destruct Hins as (row & Hdb & Hrid & Hcode & Hu & Hv & _ & Hd & Hs & He & Hst
                    & _ & _ & _ & _ & _ & Hlt & Hvd & Hfresh & Hce).
  exists row. repeat (split; [assumption|]).
  split; [rewrite Hcode; apply code_exists_false_iff; exact Hce|].
  exact (insert_reservation_user _ _ _ _ _ _ _ _ _ _ _ _ _ _ _ Hins').
Qed.

Lemma no_double_booking_app (l : list reservation) (x : reservation) :
  no_double_booking (l ++ [x]) <->
  no_double_booking l /\ forall a, In a l -> ~ clash a x.
Proof.
  induction l as [|a l IH]; simpl.
  - split; [intros _; split; [exact I|intros a []]|intros _; split; [intros b []|exact I]].
  - rewrite IH. split.
    + intros [Ha [Hl Hx]]. split; [split|].
      * intros b Hb. apply Ha. apply in_or_app. left. exact Hb.
      * exact Hl.
      * intros b [<-|Hb]; [apply Ha; apply in_or_app; right; left; reflexivity|].
        exact (Hx b Hb).
    + intros [[Ha Hl] Hx]. split; [|split].
      * intros b Hb. apply in_app_or in Hb. destruct Hb as [Hb|[<-|[]]].
        -- exact (Ha b Hb).
        -- apply Hx. left. reflexivity.
      * exact Hl.
      * intros b Hb. apply Hx. right. exact Hb.
Qed.

Lemma no_double_booking_map (f : reservation -> reservation) (l : list reservation) :
  (forall a b, clash (f a) (f b) -> clash a b) ->
  no_double_booking l -> no_double_booking (map f l).
Proof.
  intros Hf. induction l as [|a l IH]; simpl; [trivial|].
  intros [Ha Hl]. split; [|exact (IH Hl)].
  intros b Hb Hc. apply in_map_iff in Hb. destruct Hb as [b0 [<- Hb0]].
  exact (Ha b0 Hb0 (Hf _ _ Hc)).
Qed.

Lemma clash_after_cancel (rid : uuid) (a b : reservation) :
  clash (if cancellable rid a then set_status cancelled a else a)
        (if cancellable rid b then set_status cancelled b else b) ->
  clash a b.
Proof.
  unfold clash.
  destruct (cancellable rid a), (cancellable rid b); simpl;
    intros (H1 & H2 & H3 & H4 & H5 & H6); try discriminate.
  tauto.
Qed.

Lemma cancel_reservation_rows db rid uid res db' :
  cancel_reservation db rid uid = (res, db') ->
  db' = db
  \/ db' = with_reservations db
             (map (fun r => if cancellable rid r then set_status cancelled r else r)
                  (reservations db)).
Proof.
  unfold cancel_reservation.
  destruct (negb (reservation_exists db rid)); [intros H; inversion H; tauto|].
  destruct (negb (user_owns_reservation db rid uid)); [intros H; inversion H; tauto|].
  intros H. inversion H. right. reflexivity.
Qed.

(** X1. If no two pending or confirmed reservations of the same venue and
    date overlap, that is still so after a successful [create_reservation]
    and after any [cancel_reservation]. *)
Theorem no_double_booking_preserved :
  forall db,
    no_double_booking (reservations db) ->
    (forall env u v ts d s e dur disc notes id db',
        create_reservation db env u v ts d s e dur disc notes = Some (inr id, db') ->
        no_double_booking (reservations db'))
    /\ (forall rid uid res db',
           cancel_reservation db rid uid = (res, db') ->
           no_double_booking (reservations db')).
Proof.
  intros db Hn. split.
  - intros env u v ts d s e dur disc notes id db' H.
    pose proof (create_reservation_success_checks _ _ _ _ _ _ _ _ _ _ _ _ _ H)
      as (_ & _ & Hc).
    apply create_reservation_new_row in H.
    destruct H as (row & Hdb & _ & _ & Hv & Hd & Hs & He & _).
    subst db'. simpl. apply no_double_booking_app. split; [exact Hn|].
    intros a Ha (C1 & C2 & C3 & _ & C5 & C6).
    rewrite check_venue_availability_spec in Hc.
    apply (Hc a Ha); try congruence.
    + apply status_blocks_iff. exact C3.
    + rewrite <- Hs, <- He. lia.
  - intros rid uid res db' H.
    apply cancel_reservation_rows in H. destruct H as [->| ->]; [exact Hn|].
    simpl. apply no_double_booking_map; [|exact Hn].
    intros a b. apply clash_after_cancel.
Qed.

(** X2. Once [create_reservation] has booked an interval, a later call for
    the same venue and date over any interval that overlaps it (the same
    interval included) raises 'Time slot is already booked' and inserts
    nothing, whoever asks and whichever available slot of the venue is
    named. *)
Theorem second_booking_is_refused :
  forall db env u v ts d s e dur disc notes id db',
    create_reservation db env u v ts d s e dur disc notes = Some (inr id, db') ->
    check_venue_availability db' v d s e None = false
    /\ forall env' u' ts' s' e' dur' disc' notes',
         slot_exists_available db ts' v ->
         s < e' -> s' < e ->
         create_reservation db' env' u' v ts' d s' e' dur' disc' notes'
         = Some (inl SlotAlreadyBooked, db').
Proof.
  intros db env u v ts d s e dur disc notes id db' H.
  pose proof (create_reservation_success_checks _ _ _ _ _ _ _ _ _ _ _ _ _ H)
    as (Hven & _ & _).
  apply create_reservation_new_row in H.
  destruct H as (row & Hdb & _ & _ & Hv & Hd & Hs & He & Hst & Hlt & _).
  assert (Hblock : forall s' e', s < e' -> s' < e ->
                     check_venue_availability db' v d s' e' None = false).
  { intros s' e' H1 H2.
    destruct (check_venue_availability db' v d s' e' None) eqn:E; [|reflexivity].
    rewrite check_venue_availability_spec in E. exfalso.
    apply (E row).
    - subst db'. simpl. apply in_or_app. right. left. reflexivity.
    - exact Hv.
    - exact Hd.
    - left. exact Hst.
    - rewrite Hs, He. lia. }
  split; [apply Hblock; exact Hlt|].
  intros env' u' ts' s' e' dur' disc' notes' Hslot H1 H2.
  unfold Pg.create_reservation.
  assert (Ev : existsb (active_venue v) (venues db') = true).
  { subst db'. apply existsb_active_venue. exact Hven. }
  assert (Es : existsb (slot_bookable ts' v) (venue_time_slots db') = true).
  { subst db'. apply existsb_slot_bookable. exact Hslot. }
  rewrite Ev, Es, (Hblock s' e' H1 H2). reflexivity.
Qed.

End NoDoubleBookingDatastore.

(** The theorem on clashes at work on the sample ledger, whose two bookings
    follow one another: cancelling the first keeps the ledger free of
    clashes. *)
Lemma no_double_booking_preserved_witness :
  no_double_booking
    (reservations
       (snd (cancel_reservation (Sample.db 100000 None Sample.ledger) 5%N 1%N))).
Proof.
  assert (Hn : no_double_booking (reservations (Sample.db 100000 None Sample.ledger))).
  { simpl. split; [|split; [intros b []|exact I]].
    intros b [<-|[]] (_ & _ & _ & H & _). discriminate. }
  apply (proj2 (no_double_booking_preserved Sample.first_row Sample.exact_div
                  _ Hn) 5%N 1%N
           (fst (cancel_reservation (Sample.db 100000 None Sample.ledger) 5%N 1%N))).
  apply surjective_pairing.
Defined.

(** The theorem on a second booking at work: after the 10:00 to 11:00
    booking on the sample venue, the interval is taken. *)
Lemma second_booking_is_refused_witness :
  exists db',
    Pg.create_reservation Sample.first_row Sample.exact_div
      (Sample.db 100000 None []) (Sample.env 9%N)
      1%N 1%N 1%N Sample.tuesday (Sample.oclock 10) (Sample.oclock 11)
      1%Q 0%Q None = Some (inr 9%N, db')
    /\ check_venue_availability db' 1%N Sample.tuesday
         (Sample.oclock 10) (Sample.oclock 11) None = false.
Proof.
  eexists. split; [vm_compute; reflexivity|].
  refine (proj1 (second_booking_is_refused Sample.first_row Sample.exact_div
                   (Sample.db 100000 None []) (Sample.env 9%N)
                   1%N 1%N 1%N Sample.tuesday (Sample.oclock 10) (Sample.oclock 11)
                   1%Q 0%Q None 9%N _ _)).
  vm_compute. reflexivity.
Defined.

End NoDoubleBooking.

(** ** The table constraints, and cancelling again *)

Section TableConstraints.

Import Pg PgMore Inv Pre More Constraints Cancel.

Section TableConstraintsDatastore.


Variable LIMIT_1 : list venue_time_slot -> option venue_time_slot.
Variable numeric_div : Q -> Q -> Q.

Abbreviation calculate_venue_price := (Pg.calculate_venue_price LIMIT_1).
Abbreviation create_reservation := (Pg.create_reservation LIMIT_1 numeric_div).

Lemma cancel_update_columns (rid : uuid) (l : list reservation) :
  let l' := map (fun r => if cancellable rid r then set_status cancelled r else r) l in
  map r_id l' = map r_id l
  /\ map r_reservation_code l' = map r_reservation_code l
  /\ map r_user_id l' = map r_user_id l
  /\ Forall2 same_but_status l l'.
Proof.
  cbv zeta. induction l as [|a l (H1 & H2 & H3 & H4)]; simpl.
  - repeat split. constructor.
  - rewrite H1, H2, H3.
    destruct (cancellable rid a); simpl; repeat split; constructor;
      try exact H4; reflexivity.
Qed.

Lemma row_checks_same_but_status (a b : reservation) :
  same_but_status a b -> row_checks a -> row_checks b.
Proof.
  unfold same_but_status, row_checks. intros H.
  assert (E1 : r_start_time a = r_start_time b)
    by exact (f_equal r_start_time H).
  assert (E2 : r_end_time a = r_end_time b)
    by exact (f_equal r_end_time H).
  assert (E3 : r_discount_percentage a = r_discount_percentage b)
    by exact (f_equal r_discount_percentage H).
  rewrite E1, E2, E3. tauto.
Qed.

Lemma Forall_Forall2 {A : Type} (P : A -> Prop) (R : A -> A -> Prop) (l l' : list A) :
  (forall a b, R a b -> P a -> P b) -> Forall2 R l l' -> Forall P l -> Forall P l'.
Proof.
  intros HR H. induction H as [|a b l l' Hab _ IH]; intros HP; [constructor|].
  inversion HP; subst. constructor; [exact (HR a b Hab H1)|exact (IH H2)].
Qed.

Lemma fkey_of_user_ids (db : database) (l l' : list reservation) :
  map r_user_id l' = map r_user_id l ->
  (forall r, In r l -> exists p, In p (profiles db) /\ p_id p = r_user_id r) ->
  forall r, In r l' -> exists p, In p (profiles db) /\ p_id p = r_user_id r.
Proof.
  intros Hm H r Hr.
  assert (Hin : In (r_user_id r) (map r_user_id l)).
  { rewrite <- Hm. apply in_map. exact Hr. }
  apply in_map_iff in Hin. destruct Hin as [r0 [E Hr0]].
  destruct (H r0 Hr0) as [p [Hp Hpid]]. exists p. split; [exact Hp|congruence].
Qed.

(** X3. The constraints of the table [reservations] (unique ids, unique
    codes, every user a profile, start before end, discount between 0 and
    100) hold after a successful [create_reservation] and after any
    [cancel_reservation] if they held before. *)
Theorem table_constraints_preserved :
  forall db,
    table_constraints db ->
    (forall env u v ts d s e dur disc notes id db',
        create_reservation db env u v ts d s e dur disc notes = Some (inr id, db') ->
        table_constraints db')
    /\ (forall rid uid res db',
           cancel_reservation db rid uid = (res, db') ->
           table_constraints db').
Proof.
  intros db (Hpk & Hck & Hfk & Hrc). split.
  - intros env u v ts d s e dur disc notes id db' H.
    apply create_reservation_new_row in H.
    destruct H as (row & Hdb & Hid & Hu & _ & _ & Hs & He & _ & Hlt & Hvd
                   & Hfresh & Hcode & Hprof).
    subst db'. unfold table_constraints, reservations_pkey, reservation_code_key,
      reservations_user_id_fkey. simpl. rewrite !map_app. simpl.
    split; [|split; [|split]].
    + apply NoDup_app; [exact Hpk|constructor; [intros []|constructor]|].
      intros x Hx [<-|[]]. rewrite Hid in Hx. exact (Hfresh Hx).
    + apply NoDup_app; [exact Hck|constructor; [intros []|constructor]|].
      intros x Hx [<-|[]]. exact (Hcode Hx).
    + intros r Hr. apply in_app_or in Hr. destruct Hr as [Hr|[<-|[]]].
      * exact (Hfk r Hr).
      * rewrite Hu. exact Hprof.
    + apply Forall_app. split; [exact Hrc|]. constructor; [|constructor].
      split; [rewrite Hs, He; exact Hlt|exact Hvd].
  - intros rid uid res db' H.
    apply cancel_reservation_rows in H.
    destruct H as [->| ->]; [repeat split; assumption|].
    destruct (cancel_update_columns rid (reservations db)) as (H1 & H2 & H3 & H4).
    unfold table_constraints, reservations_pkey, reservation_code_key,
      reservations_user_id_fkey. simpl.
    rewrite H1, H2. split; [exact Hpk|]. split; [exact Hck|]. split.
    + exact (fkey_of_user_ids db _ _ H3 Hfk).
    + exact (Forall_Forall2 _ _ _ _ row_checks_same_but_status H4 Hrc).
Qed.

Lemma sample_ledger_constraints :
  table_constraints (Sample.db 100000 None Sample.ledger).
Proof.
  split; [exact sample_ledger_pkey|]. split; [|split; [exact sample_ledger_fkey|]].
  - unfold reservation_code_key. simpl.
    constructor; [simpl; intros [H|[]]; discriminate|].
    constructor; [simpl; intros []|constructor].
  - repeat constructor.
Qed.

Lemma conflicts_after_cancel (rid : uuid) v d s e (r : reservation) :
  conflicts v d s e None (if cancellable rid r then set_status cancelled r else r)
  = conflicts v d s e (Some rid) r.
Proof.
  unfold conflicts, cancellable, not_excluded.
  destruct (N.eqb (r_id r) rid) eqn:E; simpl.
  - destruct (status_blocks (r_status r)) eqn:Es; simpl.
    + rewrite !andb_false_r. reflexivity.
    + rewrite Es. rewrite !andb_false_r. reflexivity.
  - rewrite andb_true_r. reflexivity.
Qed.

Lemma filter_map_length {A : Type} (f g : A -> bool) (h : A -> A) (l : list A) :
  (forall x, f (h x) = g x) ->
  List.length (filter f (map h l)) = List.length (filter g l).
Proof.
  intros H. induction l as [|a l IH]; simpl; [reflexivity|].
  rewrite H. destruct (g a); simpl; rewrite IH; reflexivity.
Qed.

Lemma filter_filter_length {A : Type} (f g : A -> bool) (l : list A) :
  List.length (filter f (filter g l))
  = List.length (filter (fun x => f x && g x) l).
Proof.
  induction l as [|a l IH]; simpl; [reflexivity|].
  destruct (g a); simpl.
  - rewrite andb_true_r. destruct (f a); simpl; rewrite IH; reflexivity.
  - rewrite andb_false_r. exact IH.
Qed.

(** X4. A reservation that [cancel_reservation] has dealt with no longer
    counts in the availability check: after the call, availability is what
    the check gave before with that reservation excluded, and excluding a
    reservation is the same as checking the table without it. *)
Theorem cancelled_reservation_frees_its_interval :
  forall db rid uid b db',
    cancel_reservation db rid uid = (inr b, db') ->
    forall v d s e,
      check_venue_availability db' v d s e None
      = check_venue_availability db v d s e (Some rid)
      /\ check_venue_availability db v d s e (Some rid)
         = check_venue_availability
             (with_reservations db (without_id rid (reservations db))) v d s e None.
Proof.
  intros db rid uid b db' H v d s e.
  assert (Hdb : db' = with_reservations db
                  (map (fun r => if cancellable rid r then set_status cancelled r else r)
                       (reservations db))).
  { revert H. unfold cancel_reservation.
    destruct (negb (reservation_exists db rid)); [discriminate|].
    destruct (negb (user_owns_reservation db rid uid)); [discriminate|].
    intros H. inversion H. reflexivity. }
  split.
  - subst db'. unfold check_venue_availability. simpl. f_equal.
    apply filter_map_length. intros r. apply conflicts_after_cancel.
  - unfold check_venue_availability, without_id. simpl. f_equal.
    rewrite filter_filter_length. f_equal. apply filter_ext. intros r.
    unfold conflicts, not_excluded. rewrite andb_true_r. reflexivity.
Qed.

Lemma cancel_update_idempotent (rid : uuid) (l : list reservation) :
  let f := fun r => if cancellable rid r then set_status cancelled r else r in
  existsb (cancellable rid) (map f l) = false /\ map f (map f l) = map f l.
Proof.
  cbv zeta. induction l as [|a l [IH1 IH2]]; simpl; [split; reflexivity|].
  rewrite IH1, IH2.
  destruct (cancellable rid a) eqn:E.
  - assert (E' : cancellable rid (set_status cancelled a) = false).
    { unfold cancellable. simpl. apply andb_false_r. }
    rewrite E'. split; reflexivity.
  - rewrite E. split; reflexivity.
Qed.

Lemma existsb_map_ext {A : Type} (f g : A -> bool) (h : A -> A) (l : list A) :
  (forall x, f (h x) = g x) -> existsb f (map h l) = existsb g l.
Proof.
  intros H. induction l as [|a l IH]; simpl; [reflexivity|].
  rewrite H, IH. reflexivity.
Qed.

Lemma updated_at_unchanged (rid : uuid) (now : Z) (l : list reservation)
    (ts : list Z) :
  List.length ts = List.length l ->
  existsb (cancellable rid) l = false ->
  map (fun row => if cancellable rid (fst row) then now else snd row) (combine l ts)
  = ts.
Proof.
  revert ts. induction l as [|a l IH]; intros [|t ts] Hlen; simpl;
    try discriminate; [reflexivity|].
  intros H. apply orb_false_iff in H. destruct H as [Ha Hl].
  simpl in Hlen. rewrite Ha, IH; [reflexivity|lia|exact Hl].
Qed.

Lemma updated_at_rows (rid : uuid) (now : Z) (l : list reservation) (ts : list Z) :
  Forall2 (fun row t' =>
             t' = snd row \/ (cancellable rid (fst row) = true /\ t' = now))
          (combine l ts)
          (map (fun row => if cancellable rid (fst row) then now else snd row)
               (combine l ts)).
Proof.
  induction (combine l ts) as [|row rows IH]; simpl; constructor; [|exact IH].
  destruct (cancellable rid (fst row)); [right; split; reflexivity|left; reflexivity].
Qed.

Lemma Forall2_left_refl {A : Type} (P : A * Z -> Z -> Prop) (l : list A) :
  (forall a t, P (a, t) t) ->
  forall ts, List.length ts = List.length l -> Forall2 P (combine l ts) ts.
Proof.
  intros HP. induction l as [|a l IH]; intros [|t ts] Hlen; simpl;
    try discriminate; constructor; [apply HP|apply IH; simpl in Hlen; lia].
Qed.

(** X5. [cancel_reservation] neither adds nor removes a row and writes
    two columns only, [status] and [updated_at], and those only on rows of
    the given id that are pending or confirmed; for an id no reservation
    has it raises 'Reservation not found' and changes nothing; and once it
    has returned for a reservation and user, the same call again returns
    false and changes nothing, [updated_at] included. *)
Theorem cancel_reservation_again :
  forall db rid uid,
    (forall res db',
        cancel_reservation db rid uid = (res, db') ->
        profiles db' = profiles db /\ venues db' = venues db
        /\ venue_time_slots db' = venue_time_slots db
        /\ Forall2 same_but_status (reservations db) (reservations db')
        /\ Forall2 (fun r r' => r' = r \/ cancellable rid r = true)
             (reservations db) (reservations db'))
    /\ (forall updated_at now,
           List.length updated_at = List.length (reservations db) ->
           Forall2 (fun row t' =>
                      t' = snd row
                      \/ (cancellable rid (fst row) = true /\ t' = now))
                   (combine (reservations db) updated_at)
                   (cancel_reservation_updated_at db updated_at now rid uid))
    /\ ((forall r, In r (reservations db) -> r_id r <> rid) ->
        cancel_reservation db rid uid = (inl ReservationNotFound, db)
        /\ forall updated_at now,
             cancel_reservation_updated_at db updated_at now rid uid = updated_at)
    /\ (forall b db',
           cancel_reservation db rid uid = (inr b, db') ->
           cancel_reservation db' rid uid = (inr false, db')
           /\ forall updated_at now,
                List.length updated_at = List.length (reservations db') ->
                cancel_reservation_updated_at db' updated_at now rid uid
                = updated_at).
Proof.
  intros db rid uid. split; [|split; [|split]].
  - intros res db' H. apply cancel_reservation_rows in H.
    destruct H as [->| ->].
    + repeat split.
      * induction (reservations db); constructor; [reflexivity|assumption].
      * induction (reservations db); constructor; [left; reflexivity|assumption].
    + simpl. repeat split.
      * exact (proj2 (proj2 (proj2 (cancel_update_columns rid (reservations db))))).
      * induction (reservations db) as [|a l IH]; simpl; constructor; [|exact IH].
        destruct (cancellable rid a); [right; reflexivity|left; reflexivity].
  - intros updated_at now Hlen. unfold cancel_reservation_updated_at.
    destruct (reservation_exists db rid);
      [|apply Forall2_left_refl; [intros a t; left; reflexivity|exact Hlen]].
    destruct (user_owns_reservation db rid uid);
      [|apply Forall2_left_refl; [intros a t; left; reflexivity|exact Hlen]].
    simpl negb. cbv iota. apply updated_at_rows.
  - intros H.
    assert (E : reservation_exists db rid = false).
    { destruct (reservation_exists db rid) eqn:E; [|reflexivity].
      unfold reservation_exists in E. apply existsb_exists in E.
      destruct E as [r [Hr Hid]]. apply N.eqb_eq in Hid.
      exfalso. exact (H r Hr Hid). }
    unfold cancel_reservation, cancel_reservation_updated_at. rewrite E.
    split; reflexivity.
  - intros b db' H. revert H. unfold cancel_reservation.
    destruct (reservation_exists db rid) eqn:Ex; [|discriminate].
    destruct (user_owns_reservation db rid uid) eqn:Eo; [|discriminate].
    simpl negb. cbv iota zeta. intros H. inversion H; subst b db'; clear H.
    set (f := fun r => if cancellable rid r then set_status cancelled r else r).
    assert (Ex' : reservation_exists
                    {| profiles := profiles db; venues := venues db;
                       venue_time_slots := venue_time_slots db;
                       reservations := map f (reservations db) |} rid = true).
    { rewrite <- Ex. unfold reservation_exists. simpl.
      apply existsb_map_ext. intros r. unfold f.
      destruct (cancellable rid r); reflexivity. }
    assert (Eo' : user_owns_reservation
                    {| profiles := profiles db; venues := venues db;
                       venue_time_slots := venue_time_slots db;
                       reservations := map f (reservations db) |} rid uid = true).
    { rewrite <- Eo. unfold user_owns_reservation. simpl.
      apply existsb_map_ext. intros r. unfold f.
      destruct (cancellable rid r); reflexivity. }
    destruct (cancel_update_idempotent rid (reservations db)) as [H1 H2].
    fold f in H1, H2.
    split.
    + rewrite Ex', Eo'. simpl. rewrite H1, H2. reflexivity.
    + intros updated_at now Hlen. unfold cancel_reservation_updated_at.
      rewrite Ex', Eo'. simpl negb. cbv iota.
      apply updated_at_unchanged; [exact Hlen|exact H1].
Qed.

End TableConstraintsDatastore.

(** The theorem on the table constraints at work: the sample ledger keeps
    its constraints when its pending booking is cancelled. *)
Lemma table_constraints_preserved_witness :
  table_constraints
    (snd (cancel_reservation (Sample.db 100000 None Sample.ledger) 5%N 1%N)).
Proof.
  apply (proj2 (table_constraints_preserved Sample.first_row Sample.exact_div _
                  sample_ledger_constraints) 5%N 1%N
           (fst (cancel_reservation (Sample.db 100000 None Sample.ledger) 5%N 1%N))).
  apply surjective_pairing.
Defined.

(** The theorem on freed intervals at work: on the sample ledger, once the
    pending 10:00 booking is cancelled the 10:00 to 11:00 interval is free
    again. *)
Lemma cancelled_reservation_frees_its_interval_witness :
  check_venue_availability (Sample.db 100000 None Sample.ledger) 1%N Sample.saturday
    (Sample.oclock 10) (Sample.oclock 11) None = false
  /\ check_venue_availability
       (snd (cancel_reservation (Sample.db 100000 None Sample.ledger) 5%N 1%N))
       1%N Sample.saturday (Sample.oclock 10) (Sample.oclock 11) None = true.
Proof.
  split; [reflexivity|].
  rewrite (proj1 (cancelled_reservation_frees_its_interval
                    (Sample.db 100000 None Sample.ledger) 5%N 1%N true
                    (snd (cancel_reservation (Sample.db 100000 None Sample.ledger)
                            5%N 1%N))
                    eq_refl
                    1%N Sample.saturday (Sample.oclock 10) (Sample.oclock 11))).
  reflexivity.
Defined.

End TableConstraints.

(** ** Reservation codes: shape, and running out *)

Section CodeShape.

Import Pg Inv More.

Section CodeShapeDatastore.


Variable LIMIT_1 : list venue_time_slot -> option venue_time_slot.
Variable numeric_div : Q -> Q -> Q.

Abbreviation calculate_venue_price := (Pg.calculate_venue_price LIMIT_1).
Abbreviation create_reservation := (Pg.create_reservation LIMIT_1 numeric_div).

Lemma string_length_app (a b : string) :
  String.length (a ++ b) = (String.length a + String.length b)%nat.
Proof. induction a as [|c a IH]; simpl; [reflexivity|rewrite IH; reflexivity]. Qed.

Lemma string_app_assoc (a b c : string) : (a ++ (b ++ c) = (a ++ b) ++ c)%string.
Proof. induction a as [|x a IH]; simpl; [reflexivity|rewrite IH; reflexivity]. Qed.

Lemma repeat_char_length (c : ascii) (n : nat) : String.length (repeat_char c n) = n.
Proof. induction n as [|n IH]; simpl; [reflexivity|rewrite IH; reflexivity]. Qed.

Lemma substring_0_length (n : nat) (s : string) :
  (n <= String.length s)%nat -> String.length (substring 0 n s) = n.
Proof.
  revert s. induction n as [|n IH]; intros s H.
  - destruct s; reflexivity.
  - destruct s as [|c s]; simpl in *; [lia|]. rewrite IH by lia. reflexivity.
Qed.

Lemma LPAD_length (s : string) (len : nat) (fill : ascii) :
  String.length (LPAD s len fill) = len.
Proof.
  unfold LPAD. destruct (Nat.leb (String.length s) len) eqn:E.
  - apply Nat.leb_le in E. rewrite string_length_app, repeat_char_length. lia.
  - apply Nat.leb_gt in E. apply substring_0_length. lia.
Qed.

Lemma candidate_code_length (stamp : string) (draw : N) :
  String.length (candidate_code stamp draw) = (String.length stamp + 7)%nat.
Proof.
  unfold candidate_code. rewrite !string_length_app, LPAD_length. simpl. lia.
Qed.

Lemma substring_0_all (s : string) : substring 0 (String.length s) s = s.
Proof. induction s as [|c s IH]; simpl; [reflexivity|rewrite IH; reflexivity]. Qed.

Lemma substring_app_tail (a b : string) :
  substring (String.length a) (String.length b) (a ++ b) = b.
Proof. induction a as [|c a IH]; simpl; [apply substring_0_all|exact IH]. Qed.

Lemma slice_last_app (a b : string) :
  Client.slice_last (String.length b) (a ++ b) = b.
Proof.
  unfold Client.slice_last. rewrite string_length_app.
  replace (String.length a + String.length b - String.length b)%nat
    with (String.length a) by lia.
  apply substring_app_tail.
Qed.

Lemma In_draws_below_10000 (n : N) : In n draws_below_10000 <-> (n < 10000)%N.
Proof.
  unfold draws_below_10000. rewrite in_map_iff. split.
  - intros [k [<- Hk]]. apply in_seq in Hk. lia.
  - intros H. exists (N.to_nat n). split; [apply Nnat.N2Nat.id|]. apply in_seq. lia.
Qed.

Lemma suffix_round_trip_all :
  forallb (fun n =>
             match NilEmpty.uint_of_string (LPAD (TEXT_of_N n) 4 "0") with
             | Some u => N.eqb (N.of_uint u) n
             | None => false
             end) draws_below_10000 = true.
Proof. vm_compute. reflexivity. Qed.

Lemma suffix_round_trip (n : N) :
  (n < 10000)%N ->
  option_map N.of_uint (NilEmpty.uint_of_string (LPAD (TEXT_of_N n) 4 "0")) = Some n.
Proof.
  intros H. apply In_draws_below_10000 in H.
  pose proof suffix_round_trip_all as Hall.
  rewrite forallb_forall in Hall. specialize (Hall n H).
  destruct (NilEmpty.uint_of_string (LPAD (TEXT_of_N n) 4 "0")); [|discriminate].
  apply N.eqb_eq in Hall. simpl. rewrite Hall. reflexivity.
Qed.

(** X6. A code [generate_reservation_code] tries is seven characters longer
    than the date stamp, so with an eight-character stamp it has fifteen
    characters and fits the [VARCHAR(20)] column; for a drawn number below
    10000 the last four characters read back as that number, so different
    numbers give different codes. *)
Theorem candidate_code_round_trip :
  forall stamp n,
    (n < 10000)%N ->
    String.length (candidate_code stamp n) = (String.length stamp + 7)%nat
    /\ (String.length stamp = 8%nat ->
        Nat.leb (String.length (candidate_code stamp n)) 20 = true)
    /\ draw_of_code (candidate_code stamp n) = Some n
    /\ forall m, (m < 10000)%N ->
         candidate_code stamp m = candidate_code stamp n -> m = n.
Proof.
  intros stamp n Hn.
  assert (Hrt : forall k, (k < 10000)%N -> draw_of_code (candidate_code stamp k) = Some k).
  { intros k Hk. unfold draw_of_code, candidate_code.
    rewrite string_app_assoc.
    pose proof (slice_last_app ("OSC" ++ stamp) (LPAD (TEXT_of_N k) 4 "0")) as E.
    rewrite LPAD_length in E. rewrite E. apply suffix_round_trip. exact Hk. }
  split; [apply candidate_code_length|].
  split.
  { intros H. rewrite candidate_code_length, H. reflexivity. }
  split; [apply Hrt; exact Hn|].
  intros m Hm E.
  pose proof (Hrt m Hm) as H1. rewrite E, (Hrt n Hn) in H1. congruence.
Qed.

(** The theorem at work on the stamp of 2024-01-01 and the number 42. *)
Lemma candidate_code_round_trip_witness :
  candidate_code "20240101" 42 = "OSC202401010042"%string
  /\ draw_of_code (candidate_code "20240101" 42) = Some 42%N.
Proof.
  split; [reflexivity|].
  apply (candidate_code_round_trip "20240101" 42%N). reflexivity.
Defined.

Lemma generate_reservation_code_all_taken db stamp draws :
  Forall (fun d => In (candidate_code stamp d) (Seq.stored_codes db)) draws ->
  generate_reservation_code db stamp draws = None.
Proof.
  induction 1 as [|d l Hd _ IH]; simpl; [reflexivity|].
  apply code_exists_iff in Hd. rewrite Hd. exact IH.
Qed.

(** X7. When the table already holds all 10000 codes of the day, the loop
    of [generate_reservation_code] finds no free code however long it
    draws, and [create_reservation] never returns a new reservation. *)
Theorem codes_of_the_day_run_out :
  forall db stamp,
    (forall n, (n < 10000)%N -> In (candidate_code stamp n) (Seq.stored_codes db)) ->
    forall draws,
      Forall (fun d => (d < 10000)%N) draws ->
      generate_reservation_code db stamp draws = None
      /\ forall id u v ts d s e dur disc notes new_id db',
           create_reservation db (mk_environment stamp draws id)
             u v ts d s e dur disc notes <> Some (inr new_id, db').
Proof.
  intros db stamp Hfull draws Hd.
  assert (Hg : generate_reservation_code db stamp draws = None).
  { apply generate_reservation_code_all_taken.
    apply Forall_impl with (2 := Hd). exact Hfull. }
  split; [exact Hg|].
  intros id u v ts d s e dur disc notes new_id db' H.
  apply create_reservation_success in H.
  destruct H as (bp & code & rest & _ & Hg' & _). simpl in Hg'.
  rewrite Hg in Hg'. discriminate.
Qed.

Lemma full_day_holds_every_code (stamp : string) (n : N) :
  (n < 10000)%N ->
  In (candidate_code stamp n)
     (Seq.stored_codes (Sample.db 100000 None (SampleMore.full_day stamp))).
Proof.
  intros H.
  change (In (candidate_code stamp n)
             (map r_reservation_code (SampleMore.full_day stamp))).
  unfold SampleMore.full_day. rewrite map_map. apply in_map_iff. exists n.
  split; [reflexivity|apply In_draws_below_10000; exact H].
Qed.

End CodeShapeDatastore.

(** The theorem on a full day at work on a ledger that holds every code of
    2024-01-01: the draws 42, 42 and 7 of the sample environment are used up
    without a code. *)
Lemma codes_of_the_day_run_out_witness :
  generate_reservation_code
    (Sample.db 100000 None (SampleMore.full_day "20240101")) "20240101" [42; 42; 7]%N
  = None.
Proof.
  apply (codes_of_the_day_run_out Sample.first_row Sample.exact_div
           (Sample.db 100000 None (SampleMore.full_day "20240101")) "20240101"
           (full_day_holds_every_code "20240101") [42; 42; 7]%N).
  repeat constructor.
Defined.

End CodeShape.

(** ** The slots of a day *)

Section AvailableTimeSlots.

Import Pg PgMore.

Lemma insert_by_start_time_perm (x : venue_time_slot) (l : list venue_time_slot) :
  Permutation (insert_by_start_time x l) (x :: l).
Proof.
  induction l as [|y l IH]; simpl; [apply Permutation_refl|].
  destruct (ts_start_time x <=? ts_start_time y); [apply Permutation_refl|].
  apply perm_trans with (y :: x :: l); [apply perm_skip; exact IH|apply perm_swap].
Qed.

Lemma ORDER_BY_start_time_perm (l : list venue_time_slot) :
  Permutation (ORDER_BY_start_time l) l.
Proof.
  induction l as [|x l IH]; simpl; [apply perm_nil|].
  apply perm_trans with (x :: ORDER_BY_start_time l);
    [apply insert_by_start_time_perm|apply perm_skip; exact IH].
Qed.

Lemma insert_by_start_time_sorted (x : venue_time_slot) (l : list venue_time_slot) :
  StronglySorted by_start_time l ->
  StronglySorted by_start_time (insert_by_start_time x l).
Proof.
  induction l as [|y l IH]; simpl; intros H.
  - constructor; constructor.
  - apply StronglySorted_inv in H. destruct H as [Hl Hy].
    destruct (ts_start_time x <=? ts_start_time y) eqn:E.
    + apply Z.leb_le in E. constructor; [constructor; assumption|].
      constructor; [exact E|].
      apply Forall_impl with (2 := Hy). unfold by_start_time. intros a Ha. lia.
    + apply Z.leb_gt in E. constructor; [exact (IH Hl)|].
      apply Forall_forall. intros a Ha.
      apply (Permutation_in _ (insert_by_start_time_perm x l)) in Ha.
      destruct Ha as [<-|Ha]; [unfold by_start_time; lia|].
      rewrite Forall_forall in Hy. exact (Hy a Ha).
Qed.

Lemma ORDER_BY_start_time_sorted (l : list venue_time_slot) :
  StronglySorted by_start_time (ORDER_BY_start_time l).
Proof.
  induction l as [|x l IH]; simpl; [constructor|].
  apply insert_by_start_time_sorted. exact IH.
Qed.

(** X8. [get_available_time_slots] returns one row for each slot of the
    venue, whatever its availability, in order of start time; a row says
    available exactly when its slot is marked available and no pending or
    confirmed reservation of the venue and date overlaps the slot. *)
Theorem get_available_time_slots_rows :
  forall db v d,
    (exists l,
        get_available_time_slots db v d = map (available_row db v d) l
        /\ Permutation l (filter (fun vts => N.eqb (ts_venue_id vts) v)
                                 (venue_time_slots db))
        /\ StronglySorted by_start_time l)
    /\ StronglySorted Z.le (map start_time (get_available_time_slots db v d))
    /\ (forall vts,
           In vts (venue_time_slots db) -> ts_venue_id vts = v ->
           In (available_row db v d vts) (get_available_time_slots db v d))
    /\ (forall vts,
           is_available (available_row db v d vts) = true <->
           ts_is_available vts = true
           /\ forall r, In r (reservations db) ->
                r_venue_id r = v -> r_reservation_date r = d ->
                r_status r = pending \/ r_status r = confirmed ->
                ~ (r_start_time r < ts_end_time vts
                   /\ r_end_time r > ts_start_time vts)).
Proof.
  intros db v d.
  set (slots := filter (fun vts => N.eqb (ts_venue_id vts) v) (venue_time_slots db)).
  split; [|split; [|split]].
  - exists (ORDER_BY_start_time slots). split; [reflexivity|].
    split; [apply ORDER_BY_start_time_perm|apply ORDER_BY_start_time_sorted].
  - unfold get_available_time_slots. fold slots.
    pose proof (ORDER_BY_start_time_sorted slots) as H.
    induction H as [|a l Hl IH Ha]; simpl; constructor; [exact IH|].
    apply Forall_forall. intros x Hx.
    apply in_map_iff in Hx. destruct Hx as [y [<- Hy]].
    apply in_map_iff in Hy. destruct Hy as [z [<- Hz]].
    rewrite Forall_forall in Ha. exact (Ha z Hz).
  - intros vts Hin Hv. unfold get_available_time_slots. fold slots.
    apply in_map. apply (Permutation_in _ (Permutation_sym (ORDER_BY_start_time_perm slots))).
    apply filter_In. split; [exact Hin|apply N.eqb_eq; exact Hv].
  - intros vts. unfold available_row. simpl.
    rewrite andb_true_iff, check_venue_availability_spec. tauto.
Qed.

End AvailableTimeSlots.

(** ** The client side: overlap tests, offered end times, the remote call *)

Section ClientMoreFacts.

Import Client ClientMore.

Lemma Qle_bool_false (a b : Q) : Qle_bool a b = false -> (b < a)%Q.
Proof.
  intros H. apply Qnot_le_lt. intros Hle. apply Qle_bool_iff in Hle. congruence.
Qed.

Ltac q_cases :=
  repeat match goal with
         | |- context [Qle_bool ?a ?b] =>
             let H := fresh "H" in
             destruct (Qle_bool a b) eqn:H;
             [apply Qle_bool_iff in H|apply Qle_bool_false in H]
         end.

Lemma time_overlap_half_open (slotStart slotEnd resStart resEnd : Q) :
  (slotStart < slotEnd)%Q -> (resStart < resEnd)%Q ->
  time_overlap (Some slotStart) (Some slotEnd) (Some resStart) (Some resEnd)
  = num_lt (Some slotStart) (Some resEnd) && num_lt (Some resStart) (Some slotEnd).
Proof.
  intros H1 H2. unfold time_overlap, num_lt, num_le.
  q_cases; simpl; try reflexivity; exfalso; lra.
Qed.

Lemma time_overlap_NaN (a b c d : number) :
  (a = None /\ b = None) \/ c = None \/ d = None -> time_overlap a b c d = false.
Proof.
  unfold time_overlap, num_lt, num_le.
  intros H. destruct a, b, c, d;
    try (destruct H as [[H H']|[H|H]]; discriminate);
    q_cases; simpl; reflexivity.
Qed.

(** X9. On intervals that are not empty, the three-case overlap test of
    [useVenueAvailability] is the half-open test of the booking form
    (slot start < reservation end and slot end > reservation start): so a
    slot is shown available exactly when no fetched reservation overlaps
    it, and a reservation that ends when the slot starts does not count.
    When the start or the end of the reservation does not parse, or
    neither time of the slot does, the test finds no overlap. *)
Theorem three_case_overlap_is_half_open :
  (forall slotStart slotEnd resStart resEnd : Q,
      (slotStart < slotEnd)%Q -> (resStart < resEnd)%Q ->
      (time_overlap (Some slotStart) (Some slotEnd) (Some resStart) (Some resEnd) = true
       <-> (slotStart < resEnd)%Q /\ (resStart < slotEnd)%Q))
  /\ (forall slotStart slotEnd resStart resEnd,
         (slotStart = None /\ slotEnd = None) \/ resStart = None \/ resEnd = None ->
         time_overlap slotStart slotEnd resStart resEnd = false)
  /\ (forall getTime date_ reservations slot s e,
         getTime (date_ ++ "T" ++ sl_start_time slot)%string = Some s ->
         getTime (date_ ++ "T" ++ sl_end_time slot)%string = Some e ->
         (s < e)%Q ->
         (forall r, In r reservations ->
            exists a b,
              getTime (rs_reservation_date r ++ "T" ++ rs_start_time r)%string = Some a
              /\ getTime (rs_reservation_date r ++ "T" ++ rs_end_time r)%string = Some b
              /\ (a < b)%Q) ->
         (isAvailable getTime date_ reservations slot = true <->
          forall r a b, In r reservations ->
            getTime (rs_reservation_date r ++ "T" ++ rs_start_time r)%string = Some a ->
            getTime (rs_reservation_date r ++ "T" ++ rs_end_time r)%string = Some b ->
            ~ ((s < b)%Q /\ (a < e)%Q))).
Proof.
  assert (Hiff : forall slotStart slotEnd resStart resEnd : Q,
             (slotStart < slotEnd)%Q -> (resStart < resEnd)%Q ->
             (time_overlap (Some slotStart) (Some slotEnd) (Some resStart) (Some resEnd)
              = true
              <-> (slotStart < resEnd)%Q /\ (resStart < slotEnd)%Q)).
  { intros a b c d H1 H2. rewrite (time_overlap_half_open a b c d H1 H2).
    unfold num_lt. rewrite andb_true_iff, !negb_true_iff. split.
    - intros [H3 H4]. split; apply Qle_bool_false; assumption.
    - intros [H3 H4]. split.
      + destruct (Qle_bool d a) eqn:E; [|reflexivity].
        apply Qle_bool_iff in E. lra.
      + destruct (Qle_bool b c) eqn:E; [|reflexivity].
        apply Qle_bool_iff in E. lra. }
  split; [exact Hiff|]. split; [exact time_overlap_NaN|].
  intros getTime date_ reservations slot s e Hs He Hlt Hres.
  unfold isAvailable, conflictingReservation.
  split.
  - intros H r a b Hr Ha Hb Hov.
    destruct (find _ reservations) eqn:Ef; [discriminate|].
    pose proof (proj1 (find_none_iff _ _) Ef r Hr) as Hf.
    cbv zeta in Hf. rewrite Hs, He, Ha, Hb in Hf.
    destruct (Hres r Hr) as (a' & b' & Ha' & Hb' & Hab).
    rewrite Ha in Ha'. rewrite Hb in Hb'. inversion Ha'; inversion Hb'; subst.
    apply (Hiff s e a' b' Hlt Hab) in Hov. congruence.
  - intros H.
    destruct (find _ reservations) as [r|] eqn:Ef; [|reflexivity].
    apply find_some in Ef. destruct Ef as [Hr Hf]. cbv zeta in Hf.
    destruct (Hres r Hr) as (a & b & Ha & Hb & Hab).
    rewrite Hs, He, Ha, Hb in Hf.
    apply (Hiff s e a b Hlt Hab) in Hf. exfalso. exact (H r a b Hr Ha Hb Hf).
Qed.

Lemma getEndTimeOptions_loop_run getTime res st seen rest e :
  In e (getEndTimeOptions_loop getTime res st seen rest) ->
  exists before slot after,
    rest = before ++ slot :: after
    /\ sl_end_time slot = e
    /\ existsb (hasConflict res) (seen ++ before ++ [slot]) = false.
Proof.
  revert seen. induction rest as [|x rest IH]; simpl; intros seen; [intros []|].
  destruct (num_lt (durationHours getTime st (sl_end_time x)) (Some 1%Q)).
  - intros H. destruct (IH _ H) as (before & slot & after & Hl & He & Hc).
    exists (x :: before), slot, after. subst rest. repeat split; [exact He|].
    rewrite <- app_assoc in Hc. exact Hc.
  - destruct (existsb (hasConflict res) (seen ++ [x])) eqn:Ec; simpl; [intros []|].
    intros [<-|H].
    + exists [], x, rest. repeat split. exact Ec.
    + destruct (IH _ H) as (before & slot & after & Hl & He & Hc).
      exists (x :: before), slot, after. subst rest. repeat split; [exact He|].
      rewrite <- app_assoc in Hc. exact Hc.
Qed.

Lemma from_startIndex_some slots st rest :
  from_startIndex slots st = Some rest ->
  exists skipped first rest',
    slots = skipped ++ rest /\ rest = first :: rest'
    /\ sl_start_time first = st
    /\ forall x, In x skipped -> sl_start_time x <> st.
Proof.
  induction slots as [|a l IH]; simpl; [discriminate|].
  destruct (String.eqb (sl_start_time a) st) eqn:E.
  - intros H. inversion H. exists [], a, l. apply String.eqb_eq in E.
    repeat split; [exact E|intros x []].
  - intros H. destruct (IH H) as (skipped & first & rest' & Hl & Hr & Hs & Hk).
    exists (a :: skipped), first, rest'. subst l. repeat split; try assumption.
    intros x [<-|Hx]; [apply String.eqb_neq; exact E|exact (Hk x Hx)].
Qed.

(** X10. [getEndTimeOptions] offers nothing for an empty start time or a
    start time at which no slot starts. Every end time it offers closes a
    run of consecutive slots that begins with the first slot starting at
    the chosen time, and no slot of that run overlaps a fetched
    reservation: it never offers an end past a booked slot. *)
Theorem end_time_options_are_free_runs :
  forall getTime slots res st,
    (st = ""%string -> getEndTimeOptions getTime slots res st = [])
    /\ ((forall x, In x slots -> sl_start_time x <> st) ->
        getEndTimeOptions getTime slots res st = [])
    /\ (forall e,
           In e (getEndTimeOptions getTime slots res st) ->
           exists skipped run last after,
             slots = skipped ++ run ++ last :: after
             /\ (forall x, In x skipped -> sl_start_time x <> st)
             /\ (exists first, hd_error (run ++ [last]) = Some first
                               /\ sl_start_time first = st)
             /\ sl_end_time last = e
             /\ forall x, In x (run ++ [last]) -> hasConflict res x = false).
Proof.
  intros getTime slots res st. split; [|split].
  - intros ->. reflexivity.
  - intros H. unfold getEndTimeOptions.
    destruct (negb (nonempty st)); [reflexivity|].
    destruct (from_startIndex slots st) as [rest|] eqn:E; [|reflexivity].
    apply from_startIndex_some in E.
    destruct E as (skipped & first & rest' & Hl & Hr & Hs & _).
    exfalso. apply (H first); [|exact Hs].
    subst slots rest. apply in_or_app. right. left. reflexivity.
  - intros e. unfold getEndTimeOptions.
    destruct (negb (nonempty st)); [intros []|].
    destruct (from_startIndex slots st) as [rest|] eqn:E; [|intros []].
    intros H. apply getEndTimeOptions_loop_run in H.
    destruct H as (before & slot & after & Hl & He & Hc). simpl in Hc.
    apply from_startIndex_some in E.
    destruct E as (skipped & first & rest' & Hsl & Hr & Hs & Hk).
    exists skipped, before, slot, after.
    split; [rewrite Hsl, Hl; reflexivity|].
    split; [exact Hk|]. split.
    + exists first. split; [|exact Hs].
      destruct before as [|b before]; simpl in *; rewrite Hr in Hl;
        inversion Hl; reflexivity.
    + split; [exact He|]. intros x Hx.
      destruct (hasConflict res x) eqn:Ex; [|reflexivity].
      assert (existsb (hasConflict res) (before ++ [slot]) = true).
      { apply existsb_exists. exists x. tauto. }
      congruence.
Qed.



End ClientMoreFacts.

(** ** What a creation needs beyond its three checks *)

Section CreationRequirements.

Import Pg Inv Pre More.

Section CreationRequirementsDatastore.


Variable LIMIT_1 : list venue_time_slot -> option venue_time_slot.
Variable numeric_div : Q -> Q -> Q.

Abbreviation calculate_venue_price := (Pg.calculate_venue_price LIMIT_1).
Abbreviation create_reservation := (Pg.create_reservation LIMIT_1 numeric_div).

Lemma ROUND_percentage (x : Q) :
  (0 <= x)%Q -> (x <= 100)%Q ->
  exists z, ROUND x 2 = z # 100 /\ 0 <= z <= 10000.
Proof.
  intros H0 H100. unfold ROUND.
  change (10 ^ Z.of_nat 2) with 100. change (Z.to_pos 100) with 100%positive.
  exists (round_half_away (x * inject_Z 100)). split; [reflexivity|].
  assert (Hy0 : (0 <= x * inject_Z 100)%Q).
  { apply Qmult_le_0_compat; [exact H0|]. unfold Qle. simpl. lia. }
  assert (Hy1 : (x * inject_Z 100 <= inject_Z 10000)%Q).
  { change (inject_Z 10000) with (100 * inject_Z 100)%Q.
    apply Qmult_le_compat_r; [exact H100|]. unfold Qle. simpl. lia. }
  unfold round_half_away.
  apply Qle_bool_iff in Hy0. rewrite Hy0. apply Qle_bool_iff in Hy0.
  split.
  - change 0 with (Qfloor (0 + (1 # 2))). apply Qfloor_resp_le. lra.
  - change 10000 with (Qfloor (inject_Z 10000 + (1 # 2))).
    apply Qfloor_resp_le. lra.
Qed.

(** X12. A discount between 0 and 100 is never refused by the table: the
    [discount_percentage] column takes it, rounded to two decimals, without
    overflow, and the rounded value passes the [valid_discount] check. *)
Theorem percentage_fits_discount_column :
  forall x,
    (0 <= x)%Q -> (x <= 100)%Q ->
    numeric_column "discount_percentage" 5 2 x = inr (ROUND x 2)
    /\ valid_discount (ROUND x 2) = true
    /\ (0 <= ROUND x 2)%Q /\ (ROUND x 2 <= 100)%Q.
Proof.
  intros x H0 H100.
  destruct (ROUND_percentage x H0 H100) as (z & Hz & Hz0 & Hz1).
  assert (Hv : valid_discount (ROUND x 2) = true).
  { rewrite Hz. unfold valid_discount, Qle_bool. simpl.
    apply andb_true_iff. split; apply Z.leb_le; lia. }
  split; [|split; [exact Hv|]].
  - unfold numeric_column. cbv zeta. rewrite Hz.
    change (10 ^ Z.of_nat (5 - 2)) with 1000.
    unfold Qle_bool, Qabs. simpl.
    replace (100000 <=? Z.abs z * 1) with false; [reflexivity|].
    symmetry. apply Z.leb_gt. lia.
  - unfold valid_discount in Hv. apply andb_true_iff in Hv.
    destruct Hv as [H1 H2]. split; apply Qle_bool_iff; assumption.
Qed.

(** The theorem at work on a discount of 12.345, stored as 12.35. *)
Lemma percentage_fits_discount_column_witness :
  numeric_column "discount_percentage" 5 2 (12345 # 1000) = inr (1235 # 100).
Proof.
  refine (proj1 (percentage_fits_discount_column (12345 # 1000) _ _));
    unfold Qle; simpl; lia.
Defined.

(** X13. [create_reservation] succeeds only if, besides its three checks,
    the start is before the end, the discount rounded to two decimals is
    between 0 and 100, the user has a profile, and the id and code of the
    new row are in no row yet; the id it returns is the new row's. *)
Theorem create_reservation_requirements :
  forall db env u v ts d s e dur disc notes id db',
    create_reservation db env u v ts d s e dur disc notes = Some (inr id, db') ->
    venue_exists_active db v
    /\ slot_exists_available db ts v
    /\ check_venue_availability db v d s e None = true
    /\ s < e
    /\ valid_discount (ROUND disc 2) = true
    /\ (exists p, In p (profiles db) /\ p_id p = u)
    /\ id = new_uuid env
    /\ ~ In id (map r_id (reservations db))
    /\ exists row, reservations db' = reservations db ++ [row]
                   /\ r_id row = id /\ r_user_id row = u
                   /\ r_discount_percentage row = ROUND disc 2
                   /\ ~ In (r_reservation_code row) (Seq.stored_codes db).
Proof.
  intros db env u v ts d s e dur disc notes id db' H.
  pose proof (create_reservation_success_checks _ _ _ _ _ _ _ _ _ _ _ _ _ _ _ H)
    as (Hv & Hs & Hc).
  pose proof (create_reservation_new_row _ _ _ _ _ _ _ _ _ _ _ _ _ _ _ H)
    as (row & Hdb & Hid & Hu & _ & _ & _ & _ & _ & Hlt & Hvd & Hfresh & Hcode & Hp).
  apply create_reservation_success in H.
  destruct H as (bp & code & rest & _ & _ & Hnew & Hins).
  apply insert_reservation_reservations in Hins.
  destruct Hins as (row' & Hdb' & _ & _ & _ & _ & _ & _ & _ & _ & _ & _ & _
                    & Hdisc & _).
  assert (row' = row).
  { rewrite Hdb in Hdb'. apply (f_equal reservations) in Hdb'. simpl in Hdb'.
    apply app_inv_head in Hdb'. inversion Hdb'. reflexivity. }
  subst row'. apply numeric_column_inr in Hdisc.
  repeat (split; [assumption|]).
  split; [rewrite <- Hdisc; exact Hvd|].
  repeat (split; [assumption|]).
  exists row. subst db'. repeat split; assumption.
Qed.

Lemma find_active_venue_some (db : database) (v : uuid) :
  venue_exists_active db v ->
  exists ven, find (active_venue v) (venues db) = Some ven.
Proof.
  intros H. apply existsb_active_venue in H.
  destruct (find (active_venue v) (venues db)) as [ven|] eqn:E; [exists ven; reflexivity|].
  rewrite find_none_iff in E. apply existsb_exists in H.
  destruct H as [x [Hx Hax]]. rewrite (E x Hx) in Hax. discriminate.
Qed.

(** X14. The slot [create_reservation] is given need not contain the start
    time. When no available slot of the venue contains it, the query for
    the multiplier returns no row, the price comes back NULL and the
    creation never succeeds: with the three checks passed, a code
    generated and the duration and discount fitting their columns, it ends
    in the NOT NULL violation of [base_price], and inserts nothing. *)
Theorem start_outside_every_slot :
  forall db env u v ts d s e dur disc notes,
    limit_1_spec LIMIT_1 ->
    find (slot_covers v s) (venue_time_slots db) = None ->
    (forall id db',
        create_reservation db env u v ts d s e dur disc notes <> Some (inr id, db'))
    /\ (venue_exists_active db v ->
        calculate_venue_price db v d s dur = inr None)
    /\ (venue_exists_active db v -> slot_exists_available db ts v ->
        check_venue_availability db v d s e None = true ->
        String.length (now_stamp env) = 8%nat ->
        generate_reservation_code db (now_stamp env) (random_draws env) <> None ->
        (exists x, numeric_column "duration_hours" 3 1 dur = inr x) ->
        (exists y, numeric_column "discount_percentage" 5 2 disc = inr y) ->
        create_reservation db env u v ts d s e dur disc notes
        = Some (inl (NotNullViolation "base_price"), db)).
Proof.
  intros db env u v ts d s e dur disc notes HL Hnone.
  assert (Hprice : venue_exists_active db v ->
                   calculate_venue_price db v d s dur = inr None).
  { intros Hv. destruct (find_active_venue_some db v Hv) as [ven Hven].
    rewrite (calculate_venue_price_formula _ _ _ _ _ _ _ Hven).
    assert (E : Pg.select_time_multiplier LIMIT_1 db v s = None).
    { apply (select_time_multiplier_none LIMIT_1 db v s HL).
      apply find_none_iff. exact Hnone. }
    rewrite E. reflexivity. }
  split; [|split; [exact Hprice|]].
  - intros id db' H.
    pose proof (create_reservation_success_checks _ _ _ _ _ _ _ _ _ _ _ _ _ _ _ H)
      as (Hv & _ & _).
    apply create_reservation_success in H.
    destruct H as (bp & code & rest & Hp & _ & _ & Hins).
    rewrite (Hprice Hv) in Hp. inversion Hp; subst bp.
    apply insert_reservation_reservations in Hins.
    destruct Hins as (row & _ & _ & _ & _ & _ & _ & _ & _ & _ & _ & _ & _ & _
                      & Hbp & _).
    simpl in Hbp. discriminate.
  - intros Hv Hs Hc Hstamp Hg (x & Hx) (y & Hy).
    unfold Pg.create_reservation.
    apply existsb_active_venue in Hv. rewrite Hv.
    apply existsb_slot_bookable in Hs. rewrite Hs.
    rewrite Hc. simpl negb. cbv iota.
    apply existsb_active_venue in Hv. rewrite (Hprice Hv). cbv zeta.
    destruct (generate_reservation_code db (now_stamp env) (random_draws env))
      as [[code rest]|] eqn:Eg; [|contradiction].
    apply generate_reservation_code_result in Eg.
    destruct Eg as (taken & draw & _ & Hcode & _).
    unfold insert_reservation.
    assert (Hlen : Nat.leb (String.length code) 20 = true).
    { rewrite Hcode, candidate_code_length, Hstamp. reflexivity. }
    rewrite Hlen, Hx. simpl. rewrite Hy. reflexivity.
Qed.

End CreationRequirementsDatastore.

(** The theorem on the requirements at work on the sample booking of a
    Tuesday, 10:00 to 11:00. *)
Lemma create_reservation_requirements_witness :
  Sample.oclock 10 < Sample.oclock 11
  /\ exists p, In p (profiles (Sample.db 100000 None [])) /\ p_id p = 1%N.
Proof.
  destruct (create_reservation_requirements Sample.first_row Sample.exact_div
              (Sample.db 100000 None []) (Sample.env 9%N) 1%N 1%N 1%N Sample.tuesday
              (Sample.oclock 10) (Sample.oclock 11) 1%Q 10%Q None 9%N _ eq_refl)
    as (_ & _ & _ & Hlt & _ & Hp & _).
  split; [exact Hlt|exact Hp].
Defined.

(** The theorem on uncovered start times at work: the sample venue has no
    slot at 08:00, and a booking from 08:00 to 09:00 that names slot 1 ends
    in the violation. *)
Lemma start_outside_every_slot_witness :
  Pg.create_reservation Sample.first_row Sample.exact_div
    (Sample.db 100000 None []) (Sample.env 9%N)
    1%N 1%N 1%N Sample.tuesday (Sample.oclock 8) (Sample.oclock 9) 1%Q 0%Q None
  = Some (inl (NotNullViolation "base_price"), Sample.db 100000 None []).
Proof.
  refine (proj2 (proj2 (start_outside_every_slot Sample.first_row Sample.exact_div
            (Sample.db 100000 None []) (Sample.env 9%N)
            1%N 1%N 1%N Sample.tuesday (Sample.oclock 8) (Sample.oclock 9)
            1%Q 0%Q None limit_1_spec_first_row eq_refl)) _ _ eq_refl eq_refl _ _ _).
  - exists (mk_venue 1%N 100000 None true). split; [left; reflexivity|]. split; reflexivity.
  - exists (mk_venue_time_slot 1%N 1%N (Sample.oclock 10) (Sample.oclock 11) true (Some 1%Q)).
    split; [left; reflexivity|]. repeat split; reflexivity.
  - discriminate.
  - eexists. vm_compute. reflexivity.
  - eexists. vm_compute. reflexivity.
Defined.

End CreationRequirements.

(** ** Roles, and status updates *)

Section RolesAndStatus.

Import Pg Inv More PgMore Cancel.





Lemma no_double_booking_In (l : list reservation) (x y : reservation) :
  no_double_booking l -> In x l -> In y l -> x <> y -> ~ clash x y.
Proof.
  induction l as [|h t IH]; simpl; [intros _ []|].
  intros [Hh Ht] [Hx|Hx] [Hy|Hy] Hne.
  - congruence.
  - subst h. exact (Hh y Hy).
  - subst h. intros (C1 & C2 & C3 & C4 & C5 & C6).
    apply (Hh x Hx). unfold clash. repeat split; try congruence; lia.
  - exact (IH Ht Hx Hy Hne).
Qed.

(** X16. [update_reservation_status] reports whether a reservation has the
    id; it gives that reservation the status it is handed, whatever the
    status was, sets the payment status when one is given and keeps it
    otherwise, and leaves every other reservation alone. It does not look
    at availability: confirming a cancelled or completed reservation whose
    interval overlaps a pending or confirmed one of the same venue and date
    leaves the table with a double booking. *)
Theorem update_reservation_status_effect :
  forall rows rid status payment,
    (fst (update_reservation_status rows rid status payment) = true
     <-> exists row, In row rows /\ r_id (fst row) = rid)
    /\ (forall row, In row rows -> r_id (fst row) <> rid ->
          In row (snd (update_reservation_status rows rid status payment)))
    /\ (forall row, In row rows -> r_id (fst row) = rid ->
          In (set_status status (fst row),
              match payment with Some p => Some p | None => snd row end)
             (snd (update_reservation_status rows rid status payment)))
    /\ ((forall row, In row rows -> r_id (fst row) <> rid) ->
        update_reservation_status rows rid status payment = (false, rows))
    /\ (forall a b pa pb,
          In (a, pa) rows -> In (b, pb) rows ->
          r_id b = rid -> r_id a <> rid ->
          r_venue_id a = r_venue_id b ->
          r_reservation_date a = r_reservation_date b ->
          status_blocks (r_status a) = true ->
          r_start_time a < r_end_time b -> r_end_time a > r_start_time b ->
          ~ no_double_booking
              (map fst (snd (update_reservation_status rows rid confirmed payment)))).
Proof.
  intros rows rid status payment. unfold update_reservation_status. simpl.
  split; [|split; [|split; [|split]]].
  - rewrite existsb_exists. split; intros [row [H1 H2]]; exists row;
      (split; [exact H1|]); apply N.eqb_eq; exact H2.
  - intros row Hin Hne. apply in_map_iff. exists row. split; [|exact Hin].
    apply N.eqb_neq in Hne. rewrite Hne. reflexivity.
  - intros row Hin He. apply in_map_iff. exists row. split; [|exact Hin].
    apply N.eqb_eq in He. rewrite He. reflexivity.
  - intros H. apply injective_projections; simpl.
    + apply not_true_is_false. intros E. apply existsb_exists in E.
      destruct E as [row [H1 H2]]. apply N.eqb_eq in H2. exact (H row H1 H2).
    + apply map_ext_id. intros row Hin.
      pose proof (H row Hin) as Hne. apply N.eqb_neq in Hne. rewrite Hne. reflexivity.
  - intros a b pa pb Ha Hb Hbid Haid Hv Hd Hsa H1 H2 Hn.
    set (f := fun row : reservation_row =>
                if N.eqb (r_id (fst row)) rid
                then (set_status confirmed (fst row),
                      match payment with Some p => Some p | None => snd row end)
                else row) in *.
    assert (Ia : In a (map fst (map f rows))).
    { apply in_map_iff. exists (a, pa). split; [reflexivity|].
      apply in_map_iff. exists (a, pa). split; [|exact Ha].
      unfold f. simpl. apply N.eqb_neq in Haid. rewrite Haid. reflexivity. }
    assert (Ib : In (set_status confirmed b) (map fst (map f rows))).
    { apply in_map_iff. exists (f (b, pb)). split.
      - unfold f. simpl. apply N.eqb_eq in Hbid. rewrite Hbid. reflexivity.
      - apply in_map. exact Hb. }
    apply (no_double_booking_In _ a (set_status confirmed b) Hn Ia Ib).
    + intros E. apply (f_equal r_id) in E. simpl in E. congruence.
    + unfold clash. simpl. repeat split; assumption.
Qed.

End RolesAndStatus.

(** ** Longer bookings, and availability piece by piece *)

Section MonotoneAndPieces.

Import Pg Inv More.

Section MonotoneAndPiecesDatastore.

Variable LIMIT_1 : list venue_time_slot -> option venue_time_slot.

Abbreviation calculate_venue_price := (Pg.calculate_venue_price LIMIT_1).

Lemma round_half_away_mono (x y : Q) :
  (x <= y)%Q -> round_half_away x <= round_half_away y.
Proof.
  intros H. unfold round_half_away.
  destruct (Qle_bool 0 x) eqn:Ex; destruct (Qle_bool 0 y) eqn:Ey.
  - apply Qfloor_resp_le. lra.
  - apply Qle_bool_iff in Ex. apply Qle_bool_false in Ey. lra.
  - apply Qle_bool_false in Ex. apply Qle_bool_iff in Ey.
    assert (H1 : 0 <= Qfloor (- x + (1 # 2))).
    { change 0 with (Qfloor (0 + (1 # 2))). apply Qfloor_resp_le. lra. }
    assert (H2 : 0 <= Qfloor (y + (1 # 2))).
    { change 0 with (Qfloor (0 + (1 # 2))). apply Qfloor_resp_le. lra. }
    lia.
  - assert (H1 : Qfloor (- y + (1 # 2)) <= Qfloor (- x + (1 # 2))).
    { apply Qfloor_resp_le. lra. }
    lia.
Qed.

Lemma ROUND_mono (x y : Q) (s : nat) : (x <= y)%Q -> (ROUND x s <= ROUND y s)%Q.
Proof.
  intros H. unfold ROUND, Qle. simpl.
  apply Z.mul_le_mono_nonneg_r; [lia|].
  apply round_half_away_mono.
  apply Qmult_le_compat_r; [exact H|].
  unfold Qle. simpl. pose proof (pow10_pos s). lia.
Qed.

(** X17. For a venue whose rate is not negative and a start time for
    which the query for the multiplier returns a slot whose multiplier is
    not negative, a longer duration never costs less:
    [calculate_venue_price] is monotone in the hours it is given. *)
Theorem price_is_monotone_in_duration :
  forall db v d s ven vts dur dur',
    find (active_venue v) (venues db) = Some ven ->
    LIMIT_1 (filter (slot_covers v s) (venue_time_slots db)) = Some vts ->
    (0 <= Rule.day_class_rate (is_weekend d) (v_base_price ven) (v_weekend_price ven))%Q ->
    (0 <= COALESCE (ts_price_multiplier vts) 1)%Q ->
    (dur <= dur')%Q ->
    exists p p',
      calculate_venue_price db v d s dur = inr (Some p)
      /\ calculate_venue_price db v d s dur' = inr (Some p')
      /\ (p <= p')%Q.
Proof.
  intros db v d s ven vts dur dur' Hv Hs Hr Hm Hd.
  rewrite !(calculate_venue_price_formula _ _ _ _ _ _ _ Hv).
  unfold Pg.select_time_multiplier. rewrite Hs. simpl.
  eexists. eexists. split; [reflexivity|]. split; [reflexivity|].
  apply ROUND_mono.
  rewrite (Qmult_comm _ dur), (Qmult_comm _ dur').
  apply Qmult_le_compat_r; [exact Hd|].
  apply Qmult_le_0_compat; assumption.
Qed.

Lemma conflicts_pieces v d s m e (r : reservation) :
  s <= m <= e -> r_start_time r < r_end_time r ->
  conflicts v d s e None r
  = conflicts v d s m None r || conflicts v d m e None r.
Proof.
  intros Hm Hr. unfold conflicts, overlaps, not_excluded.
  destruct (N.eqb (r_venue_id r) v); simpl; [|reflexivity].
  destruct (Z.eqb (r_reservation_date r) d); simpl; [|reflexivity].
  destruct (status_blocks (r_status r)); simpl; [|reflexivity].
  rewrite !andb_true_r, !Z.gtb_ltb.
  destruct (r_start_time r <? e) eqn:E1; destruct (s <? r_end_time r) eqn:E2;
    destruct (r_start_time r <? m) eqn:E3; destruct (m <? r_end_time r) eqn:E4;
    simpl; try reflexivity;
    rewrite ?Z.ltb_lt, ?Z.ltb_ge in *; lia.
Qed.

Lemma filter_length_zero_orb {A : Type} (f g h : A -> bool) (l : list A) :
  (forall x, In x l -> f x = g x || h x) ->
  Nat.eqb (List.length (filter f l)) 0
  = Nat.eqb (List.length (filter g l)) 0 && Nat.eqb (List.length (filter h l)) 0.
Proof.
  induction l as [|a l IH]; intros H; simpl; [reflexivity|].
  rewrite (H a) by (left; reflexivity).
  assert (IH' := IH (fun x Hx => H x (or_intror Hx))).
  destruct (g a), (h a); simpl; try reflexivity.
  - destruct (Nat.eqb (List.length (filter g l)) 0); reflexivity.
  - exact IH'.
Qed.

(** X18. When every reservation has its start before its end (the table's
    [valid_time_range] check), an interval is available exactly when its
    two parts to either side of any point in it are: the check can be made
    slot by slot. In particular a part of an available interval is
    available. *)
Theorem availability_piece_by_piece :
  forall db v d s m e,
    Forall row_checks (reservations db) ->
    s <= m <= e ->
    check_venue_availability db v d s e None
    = check_venue_availability db v d s m None
      && check_venue_availability db v d m e None.
Proof.
  intros db v d s m e Hrows Hm. unfold check_venue_availability. cbv zeta.
  apply filter_length_zero_orb. intros r Hr.
  rewrite Forall_forall in Hrows. destruct (Hrows r Hr) as [Hlt _].
  apply conflicts_pieces; assumption.
Qed.

End MonotoneAndPiecesDatastore.

(** The theorem on longer durations at work on the sample venue: one hour
    and two hours from 10:00 on the Tuesday. *)
Lemma price_is_monotone_in_duration_witness :
  exists p p',
    Pg.calculate_venue_price Sample.first_row (Sample.db 100000 None []) 1%N
      Sample.tuesday (Sample.oclock 10) 1 = inr (Some p)
    /\ Pg.calculate_venue_price Sample.first_row (Sample.db 100000 None []) 1%N
         Sample.tuesday (Sample.oclock 10) 2 = inr (Some p')
    /\ (p <= p')%Q.
Proof.
  apply (price_is_monotone_in_duration Sample.first_row
           (Sample.db 100000 None []) 1%N Sample.tuesday (Sample.oclock 10)
           (mk_venue 1%N 100000 None true)
           (mk_venue_time_slot 1%N 1%N (Sample.oclock 10) (Sample.oclock 11) true
              (Some 1%Q))
           1%Q 2%Q eq_refl eq_refl);
    unfold Qle; simpl; lia.
Defined.

(** The theorem on pieces at work on the sample ledger: 10:00 to 12:00 is
    not available on the Saturday, because 10:00 to 11:00 is not. *)
Lemma availability_piece_by_piece_witness :
  check_venue_availability (Sample.db 100000 None Sample.ledger) 1%N Sample.saturday
    (Sample.oclock 10) (Sample.oclock 12) None
  = check_venue_availability (Sample.db 100000 None Sample.ledger) 1%N Sample.saturday
      (Sample.oclock 10) (Sample.oclock 11) None
    && check_venue_availability (Sample.db 100000 None Sample.ledger) 1%N Sample.saturday
         (Sample.oclock 11) (Sample.oclock 12) None.
Proof.
  apply (availability_piece_by_piece (Sample.db 100000 None Sample.ledger) 1%N
           Sample.saturday (Sample.oclock 10) (Sample.oclock 11) (Sample.oclock 12)).
  - repeat constructor.
  - unfold Sample.oclock. lia.
Defined.

End MonotoneAndPieces.
